(** * CVS-Predictor: the survey pipeline of [streamlit_cvs_app_full.py]

    A shallow embedding of the column mapper, the risk scorer, the chart
    builder and the report generator, with the properties the
    specification states about them.

    Conventions of the embedding.
    - A Python [str] is a Rocq [string] read as a sequence of code points
      below 256 (Latin-1); [lower], [strip], [replace], [float], [int],
      [str] and the JSON text follow Python on that range.
    - A Python [float] is an IEEE 754 binary64 value: [spec_float] with the
      operations of [SpecFloat] at precision 53 and [emax = 1024].
    - A Python [int] is a [Z].
    - An exception is a result: [Raise e], or [None], where Python raises.
    - The mapping file is its text, the page is what the operator picks on
      it, a figure is what it shows and the report is the list of what is
      put on it. The calls that only display ([st.info], [st.success],
      [st.dataframe], [st.pyplot]) are left out. *)

From Stdlib Require Import ZArith List String Ascii Bool Lia.
From Stdlib Require Import SpecFloat.
Import ListNotations.

Local Open Scope string_scope.
Local Open Scope Z_scope.

(* ===================================================================== *)
(** * Python strings *)
(* ===================================================================== *)

Module PyStr.

Definition code (c : ascii) : Z := Z.of_N (N_of_ascii c).

Definition chr (n : Z) : ascii := ascii_of_N (Z.to_N n).

Definition between (lo hi n : Z) : bool := (lo <=? n) && (n <=? hi).

(** [str.isspace] on one character: the characters [str.strip()] removes. *)
Definition is_space (c : ascii) : bool :=
  let n := code c in
  between 9 13 n || between 28 32 n || (n =? 133) || (n =? 160).

(** The whitespace [float()] and [int()] skip around a literal. *)
Definition is_literal_space (c : ascii) : bool :=
  let n := code c in
  between 9 13 n || (n =? 32) || (n =? 133) || (n =? 160).

Definition is_digit (c : ascii) : bool := between 48 57 (code c).

Definition digit_value (c : ascii) : Z := code c - 48.

(** [str.lower] on one character. *)
Definition lower_char (c : ascii) : ascii :=
  let n := code c in
  if between 65 90 n || (between 192 222 n && negb (n =? 215))
  then chr (n + 32) else c.

(** [str.upper] on one character of the ASCII range. *)
Definition upper_char (c : ascii) : ascii :=
  let n := code c in
  if between 97 122 n then chr (n - 32) else c.

Fixpoint lower (s : string) : string :=
  match s with
  | EmptyString => EmptyString
  | String c s' => String (lower_char c) (lower s')
  end.

(** [str.capitalize], for ASCII text (the chart keys). *)
Definition capitalize (s : string) : string :=
  match s with
  | EmptyString => EmptyString
  | String c s' => String (upper_char c) (lower s')
  end.

Fixpoint lstrip (p : ascii -> bool) (s : string) : string :=
  match s with
  | EmptyString => EmptyString
  | String c s' => if p c then lstrip p s' else s
  end.

Fixpoint rstrip (p : ascii -> bool) (s : string) : string :=
  match s with
  | EmptyString => EmptyString
  | String c s' =>
      match rstrip p s' with
      | EmptyString => if p c then EmptyString else String c EmptyString
      | r => String c r
      end
  end.

(** [s.strip()] *)
Definition strip (s : string) : string := rstrip is_space (lstrip is_space s).

Fixpoint remove_from (old s : string) (skip : nat) : string :=
  match s with
  | EmptyString => EmptyString
  | String c s' =>
      match skip with
      | S k => remove_from old s' k
      | O =>
          if String.prefix old s
          then remove_from old s' (Nat.pred (String.length old))
          else String c (remove_from old s' 0)
      end
  end.

(** [s.replace(old, '')]: the occurrences of [old] are removed, scanning
    from the left without overlap. *)
Definition remove_all (old s : string) : string :=
  match old with
  | EmptyString => s
  | _ => remove_from old s 0
  end.

(** [x in l] for a list of strings. *)
Definition mem (x : string) (l : list string) : bool :=
  existsb (String.eqb x) l.

(** Decimal rendering of an [int], as [str(n)] does. *)
Fixpoint digits_of_pos_fuel (fuel : nat) (n : Z) (acc : string) : string :=
  match fuel with
  | O => acc
  | S fuel' =>
      let acc' := String (chr (48 + n mod 10)) acc in
      if n / 10 =? 0 then acc' else digits_of_pos_fuel fuel' (n / 10) acc'
  end.

Definition digits_of_nonneg (n : Z) : string :=
  digits_of_pos_fuel (S (Z.to_nat (Z.log2 n))) n EmptyString.

Definition str_of_int (n : Z) : string :=
  if n <? 0 then String "-" (digits_of_nonneg (- n)) else digits_of_nonneg n.

End PyStr.

(* ===================================================================== *)
(** * Python floats: binary64 *)
(* ===================================================================== *)

Module PyFloat.

Definition float := spec_float.

Definition prec : Z := 53.
Definition emax : Z := 1024.

Definition add : float -> float -> float := SFadd prec emax.
Definition mul : float -> float -> float := SFmul prec emax.
Definition ltb : float -> float -> bool := SFltb.
Definition leb : float -> float -> bool := SFleb.

Definition nan : float := S754_nan.

Definition is_nan (f : float) : bool :=
  match f with S754_nan => true | _ => false end.

(** The nearest float to an integer, ties to even; an infinity beyond the
    largest finite float. *)
Definition of_Z (z : Z) : float := binary_normalize prec emax z 0 false.

(** The float nearest to [(-1)^neg * m * 10^e], as the decimal-to-binary
    conversion of [float(str)] gives it: correctly rounded, ties to even,
    an infinity on overflow and a signed zero on underflow. *)
Definition of_decimal (neg : bool) (m e : Z) : float :=
  match m with
  | Zpos p =>
      if 0 <=? e
      then binary_round prec emax neg (Z.to_pos (Zpos p * 10 ^ e)) 0
      else SFdiv prec emax (S754_finite neg p 0)
                           (S754_finite false (Z.to_pos (10 ^ (- e))) 0)
  | _ => S754_zero neg
  end.

End PyFloat.

(* ===================================================================== *)
(** * Conversions between text and numbers: [int()], [float()], [str()] *)
(* ===================================================================== *)

Module PyConv.
Import PyStr PyFloat.

(** A leading sign. *)
Definition take_sign (s : string) : bool * string :=
  match s with
  | String "-" s' => (true, s')
  | String "+" s' => (false, s')
  | _ => (false, s)
  end.

(** Underscores in a numeric literal: allowed only between two digits;
    the literal is returned without them. [prev] is the character before
    [s], if any. *)
Fixpoint strip_underscores (prev : option ascii) (s : string)
  : option string :=
  match s with
  | EmptyString =>
      match prev with
      | Some "_"%char => None
      | _ => Some EmptyString
      end
  | String c s' =>
      if Ascii.eqb c "_"
      then match prev with
           | Some p => if is_digit p then strip_underscores (Some c) s' else None
           | None => None
           end
      else match prev with
           | Some "_"%char =>
               if is_digit c
               then option_map (String c) (strip_underscores (Some c) s')
               else None
           | _ => option_map (String c) (strip_underscores (Some c) s')
           end
  end.

(** The longest prefix of digits: its value on top of [acc], its length on
    top of [n], and what follows it. *)
Fixpoint take_digits (s : string) (acc n : Z) : Z * Z * string :=
  match s with
  | String c s' =>
      if is_digit c then take_digits s' (10 * acc + digit_value c) (n + 1)
      else (acc, n, s)
  | EmptyString => (acc, n, s)
  end.

(** [int(s)] for a string, base 10: [None] where Python raises ValueError.
    (The interpreter's limit on the number of digits is not modelled.) *)
Definition int_of_string (s : string) : option Z :=
  let t := rstrip is_literal_space (lstrip is_literal_space s) in
  let '(neg, u) := take_sign t in
  match strip_underscores None u with
  | None => None
  | Some d =>
      match take_digits d 0 0 with
      | (v, n, EmptyString) =>
          if n =? 0 then None else Some (if neg then - v else v)
      | _ => None
      end
  end.

(** The unsigned decimal literal of a float: digits with an optional
    fraction and an optional exponent. *)
Definition float_of_literal (neg : bool) (u : string) : option float :=
  let '(ip, ni, r1) := take_digits u 0 0 in
  let '(mant, nf, r2) :=
    match r1 with
    | String "." r => take_digits r ip 0
    | _ => (ip, 0, r1)
    end in
  if ni + nf =? 0 then None else
  match r2 with
  | EmptyString => Some (of_decimal neg mant (- nf))
  | String c r3 =>
      if Ascii.eqb c "e" || Ascii.eqb c "E" then
        let '(eneg, r4) := take_sign r3 in
        match take_digits r4 0 0 with
        | (ev, ne, EmptyString) =>
            if ne =? 0 then None
            else Some (of_decimal neg mant ((if eneg then - ev else ev) - nf))
        | _ => None
        end
      else None
  end.

(** [float(s)] for a string: [None] where Python raises ValueError. *)
Definition float_of_string (s : string) : option float :=
  match strip_underscores None s with
  | None => None
  | Some t =>
      let t := rstrip is_literal_space (lstrip is_literal_space t) in
      let '(neg, u) := take_sign t in
      let l := lower u in
      if mem l ["inf"; "infinity"] then Some (S754_infinity neg)
      else if String.eqb l "nan" then Some nan
      else float_of_literal neg u
  end.

(** ** [repr] of a float: the shortest decimal string that reads back *)

Definition float_eqb (x y : float) : bool :=
  match x, y with
  | S754_zero a, S754_zero b => Bool.eqb a b
  | S754_infinity a, S754_infinity b => Bool.eqb a b
  | S754_nan, S754_nan => true
  | S754_finite a m e, S754_finite b m' e' =>
      Bool.eqb a b && Pos.eqb m m' && (e =? e')
  | _, _ => false
  end.

(** Numerator and denominator of the magnitude [m * 2^e]. *)
Definition magnitude (m : positive) (e : Z) : Z * Z :=
  if 0 <=? e then (Zpos m * 2 ^ e, 1) else (Zpos m, 2 ^ (- e)).

(** [num / den] rounded to the nearest integer, ties to even. *)
Definition round_div (num den : Z) : Z :=
  let q := num / den in
  let r := num mod den in
  match 2 * r ?= den with
  | Lt => q
  | Gt => q + 1
  | Eq => if Z.even q then q else q + 1
  end.

(** [num / den * 10^a] rounded to the nearest integer. *)
Definition scaled (num den a : Z) : Z :=
  if 0 <=? a then round_div (num * 10 ^ a) den
  else round_div num (den * 10 ^ (- a)).

(** Is [num / den < 10^k]? *)
Definition below_pow10 (num den k : Z) : bool :=
  if 0 <=? k then num <? den * 10 ^ k else num * 10 ^ (- k) <? den.

(** The position of the decimal point: the least [k] from [k0] on with
    [num / den < 10^k]. *)
Fixpoint decimal_point (fuel : nat) (num den k0 : Z) : Z :=
  match fuel with
  | O => k0
  | S fuel' =>
      if below_pow10 num den k0 then k0
      else decimal_point fuel' num den (k0 + 1)
  end.

(** The value rounded to [n] significant digits: the digits as an integer
    and the position of the decimal point. *)
Definition round_digits (num den k n : Z) : Z * Z :=
  let q := scaled num den (n - k) in
  if q =? 10 ^ n then (10 ^ (n - 1), k + 1) else (q, k).

(** The least number of digits, from [n] on, that read back as the float
    [(-1)^s * m * 2^e]; 17 digits always do. *)
Fixpoint shortest_digits (fuel : nat) (s : bool) (m : positive) (e : Z)
    (num den k n : Z) : Z * Z * Z :=
  let '(q, k') := round_digits num den k n in
  match fuel with
  | O => (q, k', n)
  | S fuel' =>
      if float_eqb (of_decimal s q (k' - n)) (S754_finite s m e)
      then (q, k', n)
      else shortest_digits fuel' s m e num den k (n + 1)
  end.

Fixpoint zeros (n : nat) : string :=
  match n with
  | O => EmptyString
  | S n' => String "0" (zeros n')
  end.

Definition take (n : Z) (s : string) : string := substring 0 (Z.to_nat n) s.
Definition drop (n : Z) (s : string) : string :=
  substring (Z.to_nat n) (String.length s - Z.to_nat n) s.

(** The exponent of the scientific form: a sign and at least two digits. *)
Definition exponent_text (x : Z) : string :=
  let a := digits_of_nonneg (Z.abs x) in
  (if x <? 0 then "-" else "+") ++
  (if Z.abs x <? 10 then "0" ++ a else a).

(** The layout of [repr]: [ds] are the [n] digits, [k] the position of the
    decimal point. *)
Definition layout (ds : string) (n k : Z) : string :=
  if (k <=? -4) || (16 <? k) then
    take 1 ds ++ (if 1 <? n then "." ++ drop 1 ds else "") ++
    "e" ++ exponent_text (k - 1)
  else if k <=? 0 then "0." ++ zeros (Z.to_nat (- k)) ++ ds
  else if n <=? k then ds ++ zeros (Z.to_nat (k - n)) ++ ".0"
  else take k ds ++ "." ++ drop k ds.

(** [repr(x)], which is also [str(x)], of a float. *)
Definition str_of_float (x : float) : string :=
  match x with
  | S754_nan => "nan"
  | S754_infinity s => if s then "-inf" else "inf"
  | S754_zero s => if s then "-0.0" else "0.0"
  | S754_finite s m e =>
      let '(num, den) := magnitude m e in
      let k := decimal_point 640 num den (-324) in
      let '(q, k', n) := shortest_digits 16 s m e num den k 1 in
      (if s then "-" else "") ++ layout (digits_of_nonneg q) n k'
  end.

(** [format(x, '.2f')] of a float. *)
Definition format_2f (x : float) : string :=
  match x with
  | S754_nan => "nan"
  | S754_infinity s => if s then "-inf" else "inf"
  | S754_zero s => if s then "-0.00" else "0.00"
  | S754_finite s m e =>
      let '(num, den) := magnitude m e in
      let q := round_div (num * 100) den in
      let frac := digits_of_nonneg (q mod 100) in
      (if s then "-" else "") ++ digits_of_nonneg (q / 100) ++ "." ++
      (if q mod 100 <? 10 then "0" ++ frac else frac)
  end.

End PyConv.

(* ===================================================================== *)
(** * Python values and numbers *)
(* ===================================================================== *)

Module Py.
Import PyStr PyFloat PyConv.

(** The values a cell of a frame or a form field holds: text, the numbers
    and booleans [pd.read_csv] infers, and NaN ([VFloat nan]) for a
    missing cell. *)
Inductive pyval :=
| VStr (s : string)
| VInt (z : Z)
| VFloat (f : float)
| VBool (b : bool).

(** A number of the interpreter: [int] or [float]. *)
Inductive pynum :=
| NInt (z : Z)
| NFloat (f : float).

Inductive exn :=
| KeyError (key : string)
| ValueError (msg : string)
| AttributeError (msg : string).

Inductive result (A : Type) :=
| Ok (a : A)
| Raise (e : exn).
Arguments Ok {A} a.
Arguments Raise {A} e.

Definition one : float := of_Z 1.

(** [float(v)]: [None] where it raises (ValueError for text that is not a
    float literal, OverflowError for an integer beyond the floats). *)
Definition py_float (v : pyval) : option float :=
  match v with
  | VStr s => float_of_string s
  | VInt z =>
      match of_Z z with
      | S754_infinity _ => None
      | f => Some f
      end
  | VFloat f => Some f
  | VBool b => Some (if b then one else S754_zero false)
  end.

(** [str(v)] *)
Definition py_str (v : pyval) : string :=
  match v with
  | VStr s => s
  | VInt z => str_of_int z
  | VFloat f => str_of_float f
  | VBool b => if b then "True" else "False"
  end.

(** [pd.isna(v)] *)
Definition isna (v : pyval) : bool :=
  match v with
  | VFloat f => is_nan f
  | _ => false
  end.

(** The float an [int] operand becomes next to a [float] one. The integers
    of this program are small constants and counts, far from the range
    where Python raises OverflowError instead. *)
Definition to_float (n : pynum) : float :=
  match n with
  | NInt z => of_Z z
  | NFloat f => f
  end.

Definition py_add (a b : pynum) : pynum :=
  match a, b with
  | NInt x, NInt y => NInt (x + y)
  | _, _ => NFloat (add (to_float a) (to_float b))
  end.

Definition py_mul (a b : pynum) : pynum :=
  match a, b with
  | NInt x, NInt y => NInt (x * y)
  | _, _ => NFloat (mul (to_float a) (to_float b))
  end.

(** [a < b]; an [int] next to a [float] is compared through its float,
    which is exact for the integers of this program (below [2^53]). *)
Definition py_lt (a b : pynum) : bool :=
  match a, b with
  | NInt x, NInt y => x <? y
  | _, _ => ltb (to_float a) (to_float b)
  end.

(** [a <= b] *)
Definition py_le (a b : pynum) : bool :=
  match a, b with
  | NInt x, NInt y => x <=? y
  | _, _ => leb (to_float a) (to_float b)
  end.

(** [min(a, b)]: the first argument unless the second is smaller. *)
Definition py_min (a b : pynum) : pynum :=
  if py_lt b a then b else a.

(** [str(n)], which an f-string field without a format gives. *)
Definition num_str (n : pynum) : string :=
  match n with
  | NInt z => str_of_int z
  | NFloat f => str_of_float f
  end.

End Py.

(* ===================================================================== *)
(** * Risk scorer *)
(* ===================================================================== *)

Module Risk.
Import PyStr PyFloat PyConv Py.

(** One row of a frame, as [df.apply(..., axis=1)] and [df.iterrows()]
    hand it over: the column labels with the values of the row. The labels
    of a row are taken to be distinct; [get] answers with the first. *)
Definition Series := list (string * pyval).

(** [row.get(key, default)] *)
Fixpoint get (row : Series) (key : string) (default : pyval) : pyval :=
  match row with
  | [] => default
  | (k, v) :: row' => if String.eqb k key then v else get row' key default
  end.

Inductive risk_level := Low | Medium | High.

Definition level_name (r : risk_level) : string :=
  match r with
  | Low => "Low"
  | Medium => "Medium"
  | High => "High"
  end.

Definition symptoms : list string :=
  ["eye_strain"; "blurry_vision"; "dry_eyes"; "headaches"; "neck_pain"].

(** The [try] of [calculate_risk]: the sum of the two hours fields as
    floats, and the integer 0 when either conversion raises. *)
Definition hours (row : Series) : pynum :=
  match py_float (get row "hours_academic" (VInt 0)) with
  | Some a =>
      match py_float (get row "hours_non_academic" (VInt 0)) with
      | Some b => NFloat (add a b)
      | None => NInt 0
      end
  | None => NInt 0
  end.

(** [str(row.get(s, "No")).lower() in ["yes", "sometimes"]] *)
Definition has_symptom (row : Series) (s : string) : bool :=
  mem (lower (py_str (get row s (VStr "No")))) ["yes"; "sometimes"].

Definition symptom_count (row : Series) : Z :=
  Z.of_nat (List.length (filter (has_symptom row) symptoms)).

Definition calculate_risk (row : Series) : pynum * risk_level :=
  let score := NInt 0 in
  let hours := hours row in
  let score := py_add score (py_min (py_mul hours (NInt 10)) (NInt 50)) in
  let score := py_add score (NInt (symptom_count row * 10)) in
  let risk :=
    if py_lt score (NInt 30) then Low
    else if py_lt score (NInt 60) then Medium
    else High in
  (score, risk).

End Risk.

(* ===================================================================== *)
(** * Dictionaries and their JSON text *)
(* ===================================================================== *)

Module Json.
Import PyStr.

(** A Python [dict] from text to text: its items in insertion order. The
    keys of a dict are distinct, [is_dict]. *)
Definition dict := list (string * string).

Definition keys (d : dict) : list string := map fst d.

Definition is_dict (d : dict) : Prop := NoDup (keys d).

(** [d.get(k)] *)
Fixpoint dict_get (d : dict) (k : string) : option string :=
  match d with
  | [] => None
  | (k', v) :: d' => if String.eqb k' k then Some v else dict_get d' k
  end.

(** [d[k] = v]: a present key keeps its place and takes the new value, a
    new key goes to the end. *)
Fixpoint dict_set (d : dict) (k v : string) : dict :=
  match d with
  | [] => [(k, v)]
  | (k', v') :: d' =>
      if String.eqb k' k then (k', v) :: d' else (k', v') :: dict_set d' k v
  end.

Definition quote : ascii := chr 34.
Definition backslash : ascii := chr 92.
Definition newline : ascii := chr 10.

Definition hex_digit (n : Z) : ascii :=
  if n <? 10 then chr (48 + n) else chr (87 + n).

(** One character inside a JSON string, as [json.dump] writes it with
    [ensure_ascii]: the short escapes, the printable ASCII characters as
    they are, [\u00xx] for the others. *)
Definition escape_char (c : ascii) : string :=
  let n := code c in
  if n =? 34 then String backslash (String quote EmptyString)
  else if n =? 92 then String backslash (String backslash EmptyString)
  else if n =? 10 then String backslash "n"
  else if n =? 13 then String backslash "r"
  else if n =? 9 then String backslash "t"
  else if n =? 12 then String backslash "f"
  else if n =? 8 then String backslash "b"
  else if between 32 126 n then String c EmptyString
  else String backslash
         ("u00" ++ String (hex_digit (n / 16))
                     (String (hex_digit (n mod 16)) EmptyString)).

Fixpoint escape (s : string) : string :=
  match s with
  | EmptyString => EmptyString
  | String c s' => escape_char c ++ escape s'
  end.

Definition encode_string (s : string) : string :=
  String quote (escape s ++ String quote EmptyString).

Definition indent : string := "    ".

Definition encode_item (kv : string * string) : string :=
  indent ++ encode_string (fst kv) ++ ": " ++ encode_string (snd kv).

Fixpoint encode_items (d : dict) : string :=
  match d with
  | [] => EmptyString
  | [kv] => encode_item kv
  | kv :: d' => encode_item kv ++ String "," (String newline (encode_items d'))
  end.

(** [json.dumps(d, indent=4)] *)
Definition dumps (d : dict) : string :=
  match d with
  | [] => "{}"
  | _ => String "{" (String newline (encode_items d))
         ++ String newline "}"
  end.

(** ** Reading: the decoder of [json.load] on objects of strings

    The decoder is a machine that reads one character at a time. It covers
    the texts that hold one JSON object whose members are strings of code
    points below 256, which is what [dumps] writes; on any other text it
    ends in [Failed]. *)

(** Where the machine is inside a string literal. *)
Inductive in_string :=
| Plain                      (* between characters *)
| Escaped                    (* after a backslash *)
| Hex (ds : list Z).         (* after [\u] and the digits [ds] *)

Inductive state :=
| Start                                         (* before the brace *)
| Opened                                        (* after the brace *)
| InKey (d : dict) (k : string) (w : in_string)
| AfterKey (d : dict) (k : string)              (* a colon is due *)
| BeforeValue (d : dict) (k : string)
| InValue (d : dict) (k v : string) (w : in_string)
| AfterValue (d : dict)                         (* a comma or the end *)
| AfterComma (d : dict)                         (* a key is due *)
| Closed (d : dict)
| Failed.

Definition is_json_space (c : ascii) : bool :=
  let n := code c in (n =? 32) || (n =? 9) || (n =? 10) || (n =? 13).

Definition hex_value (c : ascii) : option Z :=
  let n := code c in
  if between 48 57 n then Some (n - 48)
  else if between 97 102 n then Some (n - 87)
  else if between 65 70 n then Some (n - 55)
  else None.

(** The character a one-letter escape stands for. *)
Definition unescape (c : ascii) : option ascii :=
  let n := code c in
  if n =? 34 then Some quote
  else if n =? 92 then Some backslash
  else if n =? 47 then Some "/"%char
  else if n =? 98 then Some (chr 8)
  else if n =? 102 then Some (chr 12)
  else if n =? 110 then Some (chr 10)
  else if n =? 114 then Some (chr 13)
  else if n =? 116 then Some (chr 9)
  else None.

Definition snoc (s : string) (c : ascii) : string := s ++ String c EmptyString.

(** What reading [c] inside a string literal does: the literal ends
    ([inl None]), a character is fixed ([inl (Some a)]), the literal goes
    on in another inner state ([inr (Some w)]), or the text is refused
    ([inr None]). *)
Definition read_in_string (w : in_string) (c : ascii)
  : option ascii + option in_string :=
  match w with
  | Plain =>
      if Ascii.eqb c quote then inl None
      else if Ascii.eqb c backslash then inr (Some Escaped)
      else if code c <? 32 then inr None
      else inl (Some c)
  | Escaped =>
      if Ascii.eqb c "u" then inr (Some (Hex []))
      else match unescape c with
           | Some a => inl (Some a)
           | None => inr None
           end
  | Hex ds =>
      match hex_value c with
      | None => inr None
      | Some h =>
          match ds with
          | [a; b; x] =>
              let n := ((a * 16 + b) * 16 + x) * 16 + h in
              if n <? 256 then inl (Some (chr n)) else inr None
          | _ => inr (Some (Hex (ds ++ [h])))
          end
      end
  end.

Definition step (st : state) (c : ascii) : state :=
  match st with
  | Start =>
      if is_json_space c then Start
      else if Ascii.eqb c "{" then Opened else Failed
  | Opened =>
      if is_json_space c then Opened
      else if Ascii.eqb c "}" then Closed []
      else if Ascii.eqb c quote then InKey [] EmptyString Plain
      else Failed
  | InKey d k w =>
      match read_in_string w c with
      | inl None => AfterKey d k
      | inl (Some a) => InKey d (snoc k a) Plain
      | inr (Some w') => InKey d k w'
      | inr None => Failed
      end
  | AfterKey d k =>
      if is_json_space c then AfterKey d k
      else if Ascii.eqb c ":" then BeforeValue d k else Failed
  | BeforeValue d k =>
      if is_json_space c then BeforeValue d k
      else if Ascii.eqb c quote then InValue d k EmptyString Plain
      else Failed
  | InValue d k v w =>
      match read_in_string w c with
      | inl None => AfterValue (dict_set d k v)
      | inl (Some a) => InValue d k (snoc v a) Plain
      | inr (Some w') => InValue d k v w'
      | inr None => Failed
      end
  | AfterValue d =>
      if is_json_space c then AfterValue d
      else if Ascii.eqb c "," then AfterComma d
      else if Ascii.eqb c "}" then Closed d
      else Failed
  | AfterComma d =>
      if is_json_space c then AfterComma d
      else if Ascii.eqb c quote then InKey d EmptyString Plain
      else Failed
  | Closed d => if is_json_space c then Closed d else Failed
  | Failed => Failed
  end.

Fixpoint run (st : state) (s : string) : state :=
  match s with
  | EmptyString => st
  | String c s' => run (step st c) s'
  end.

(** [d[k] = v] for an item [(k, v)]. *)
Definition set_item (d : dict) (kv : string * string) : dict :=
  dict_set d (fst kv) (snd kv).

(** Several characters read inside a string literal: the characters they
    stand for and the inner state they lead to, when the literal neither
    ends nor is refused on the way. *)
Fixpoint read_chars (w : in_string) (s : string)
  : option (string * in_string) :=
  match s with
  | EmptyString => Some (EmptyString, w)
  | String c s' =>
      match read_in_string w c with
      | inl (Some a) =>
          match read_chars Plain s' with
          | Some (out, w') => Some (String a out, w')
          | None => None
          end
      | inr (Some w1) => read_chars w1 s'
      | _ => None
      end
  end.

(** The escape of [c] reads back as [c]. *)
Definition reads_back (c : ascii) : bool :=
  match read_chars Plain (escape_char c) with
  | Some (String a EmptyString, Plain) => Ascii.eqb a c
  | _ => false
  end.

(** [p] holds of the 256 characters. *)
Definition all_ascii (p : ascii -> bool) : bool :=
  forallb (fun n => p (ascii_of_nat n)) (seq 0 256).

(** [json.loads(s)]: [None] where the text is refused. *)
Definition loads (s : string) : option dict :=
  match run Start s with
  | Closed d => Some d
  | _ => None
  end.

End Json.

(* ===================================================================== *)
(** * Frames *)
(* ===================================================================== *)

Module Frame.
Import PyStr PyFloat Py Risk.

(** A [pandas.DataFrame] with the default index [0 .. nrows-1]: the
    columns in order, each a label with its values, one per row. The
    frames of the program come from [pd.read_csv] and from
    [pd.DataFrame([response])]; their labels are text, and distinct. *)
Record DataFrame := {
  nrows : nat;
  cols : list (string * list pyval)
}.

(** [df.columns] *)
Definition columns (df : DataFrame) : list string := map fst (cols df).

(** [c in df.columns] *)
Definition has_column (df : DataFrame) (c : string) : bool :=
  mem c (columns df).

Fixpoint lookup (cs : list (string * list pyval)) (c : string)
  : option (list pyval) :=
  match cs with
  | [] => None
  | (l, vs) :: cs' => if String.eqb l c then Some vs else lookup cs' c
  end.

(** [df[c]]: the values of a column, KeyError without it. *)
Definition column (df : DataFrame) (c : string) : result (list pyval) :=
  match lookup (cols df) c with
  | Some vs => Ok vs
  | None => Raise (KeyError c)
  end.

Fixpoint assign (cs : list (string * list pyval)) (c : string)
    (vs : list pyval) : list (string * list pyval) :=
  match cs with
  | [] => [(c, vs)]
  | (l, ws) :: cs' =>
      if String.eqb l c then (l, vs) :: cs' else (l, ws) :: assign cs' c vs
  end.

(** [df[c] = vs]: the column is replaced where it stands, or added last. *)
Definition set_column (df : DataFrame) (c : string) (vs : list pyval)
  : DataFrame :=
  {| nrows := nrows df; cols := assign (cols df) c vs |}.

(** The row at position [i]: each field is the value of its column, as
    pandas has it in a frame that holds text, the survey frames of this
    program; a column too short reads as NaN. (The rows of a frame of
    numeric columns only come in one common dtype, see
    [Reads.has_text].) *)
Definition row (df : DataFrame) (i : nat) : Series :=
  map (fun lv => (fst lv, nth i (snd lv) (VFloat nan))) (cols df).

(** The rows in order, as [df.iterrows()] and [df.apply(f, axis=1)] visit
    them. *)
Definition rows (df : DataFrame) : list Series :=
  map (row df) (seq 0 (nrows df)).

(** The label a column has after [mapping] is applied: the value of the
    mapping when the label is a key, the label itself otherwise. *)
Definition renamed (mapping : Json.dict) (c : string) : string :=
  match Json.dict_get mapping c with
  | Some l => l
  | None => c
  end.

(** [df.rename(columns=mapping)]: the labels are replaced, the values are
    not touched. *)
Definition rename (mapping : Json.dict) (df : DataFrame) : DataFrame :=
  {| nrows := nrows df;
     cols := map (fun lv => (renamed mapping (fst lv), snd lv)) (cols df) |}.

End Frame.

(* ===================================================================== *)
(** * Column mapper *)
(* ===================================================================== *)

Module Mapper.
Import PyStr Py Json Frame.

Definition STANDARD_COLUMNS : list string :=
  [ "timestamp"; "consent"; "age_group"; "age"; "sex"; "grade_level";
    "hours_academic"; "hours_non_academic"; "devices"; "break_frequency";
    "screen_tools"; "screen_tools_details"; "eye_strain"; "blurry_vision";
    "dry_eyes"; "headaches"; "neck_pain"; "symptoms_worse"; "lighting";
    "posture"; "twenty_rule"; "eye_level_screen"; "visited_specialist";
    "impact_schoolwork"; "mitigation_measures"; "school_support_opinion" ].

(** The file [MAPPING_FILE]: its text, or [None] when it does not exist. *)
Definition file := option string.

Definition load_mapping (f : file) : result (option dict) :=
  match f with
  | Some text =>
      match loads text with
      | Some d => Ok (Some d)
      | None => Raise (ValueError "JSONDecodeError")
      end
  | None => Ok None
  end.

Definition save_mapping (mapping : dict) (f : file) : file :=
  Some (dumps mapping).

Definition reset_mapping (f : file) : file :=
  match f with
  | Some _ => None
  | None => f
  end.

(** What the operator does on the page: the option picked in the select
    box with a given label, and whether a button is pressed. *)
Record UI := {
  selectbox : string -> list string -> string;
  button : string -> bool
}.

Definition skip : string := "-- skip --".

(** The choice made for one canonical field. *)
Definition choice (ui : UI) (df : DataFrame) (std_col : string) : string :=
  selectbox ui ("Select column for: " ++ std_col) (skip :: columns df).

(** One turn of the loop over the canonical fields. *)
Definition choose (ui : UI) (df : DataFrame) (mapping : dict)
    (std_col : string) : dict :=
  let c := choice ui df std_col in
  if negb (String.eqb c skip) then dict_set mapping c std_col else mapping.

(** The loop of the interactive construction over the fields [fields]. *)
Definition build_from (ui : UI) (df : DataFrame) (fields : list string)
  : dict :=
  fold_left (choose ui df) fields [].

Definition build_mapping (ui : UI) (df : DataFrame) : dict :=
  build_from ui df STANDARD_COLUMNS.

(** [map_google_forms(df)]: the frame it returns and the file after it.
    A saved mapping is used when it is true, that is when it has an item. *)
Definition map_google_forms (ui : UI) (f : file) (df : DataFrame)
  : result (DataFrame * file) :=
  match load_mapping f with
  | Raise e => Raise e
  | Ok (Some (kv :: m)) => Ok (rename (kv :: m) df, f)
  | Ok _ =>
      let mapping := build_mapping ui df in
      if button ui "Save Mapping"
      then let f' := save_mapping mapping f in Ok (rename mapping df, f')
      else Ok (df, f)
  end.

End Mapper.

(* ===================================================================== *)
(** * Chart builder *)
(* ===================================================================== *)

Module Charts.
Import PyStr PyFloat PyConv Py Risk Frame.

(** Sequencing of computations that may raise. *)
Definition bind {A B : Type} (r : result A) (k : A -> result B) : result B :=
  match r with
  | Ok a => k a
  | Raise e => Raise e
  end.

Notation "x <- r ;; k" := (bind r (fun x => k))
  (at level 61, r at next level, right associativity).

(** [f] on each element in order; the first exception ends it. *)
Fixpoint traverse {A B : Type} (f : A -> result B) (l : list A)
  : result (list B) :=
  match l with
  | [] => Ok []
  | a :: l' => b <- f a ;; bs <- traverse f l' ;; Ok (b :: bs)
  end.

(** What a figure shows. *)
Inductive chart :=
| Bar (title ylabel : string) (bars : list (string * Z))
| Pie (title : string) (slices : list (pyval * Z))
| Scatter (title xlabel ylabel : string) (xs ys : list pyval).

Definition symptom_cols : list string :=
  ["eye_strain"; "blurry_vision"; "dry_eyes"; "headaches"; "neck_pain"].

Definition is_text (v : pyval) : bool :=
  match v with VStr _ => true | _ => false end.

(** [series.str]: the accessor exists for a column of text, and for an
    empty one; a column that holds numbers or booleans only, as
    [pd.read_csv] types them, has none (AttributeError). *)
Definition str_accessor (vs : list pyval) : result (list pyval) :=
  match vs with
  | [] => Ok vs
  | _ => if existsb is_text vs then Ok vs
         else Raise (AttributeError
                       "Can only use .str accessor with string values!")
  end.

(** One element of [series.str.lower() == "yes"]; what is not text
    compares false. *)
Definition text_is_yes (v : pyval) : bool :=
  match v with
  | VStr s => String.eqb (lower s) "yes"
  | _ => false
  end.

(** [(df[col].str.lower() == "yes").sum()] *)
Definition yes_count (df : DataFrame) (col : string) : result Z :=
  vs <- column df col ;;
  ws <- str_accessor vs ;;
  Ok (Z.of_nat (List.length (filter text_is_yes ws))).

(** [a == b] for two values of one column. *)
Definition pyval_eqb (a b : pyval) : bool :=
  match a, b with
  | VStr x, VStr y => String.eqb x y
  | VInt x, VInt y => x =? y
  | VFloat x, VFloat y => SFeqb x y
  | VBool x, VBool y => Bool.eqb x y
  | _, _ => false
  end.

Definition occurrences (v : pyval) (vs : list pyval) : Z :=
  Z.of_nat (List.length (filter (pyval_eqb v) vs)).

Fixpoint distinct (vs : list pyval) : list pyval :=
  match vs with
  | [] => []
  | v :: vs' => v :: filter (fun w => negb (pyval_eqb v w)) (distinct vs')
  end.

Fixpoint insert_by_count (x : pyval * Z) (l : list (pyval * Z))
  : list (pyval * Z) :=
  match l with
  | [] => [x]
  | y :: l' => if snd y <=? snd x then x :: l else y :: insert_by_count x l'
  end.

(** [series.value_counts()]: the values that are not NaN with the number
    of times each occurs, the most frequent first. (pandas leaves the
    order of equal counts open; here the earlier value comes first.) *)
Definition value_counts (vs : list pyval) : list (pyval * Z) :=
  let present := filter (fun v => negb (isna v)) vs in
  fold_right insert_by_count []
    (map (fun v => (v, occurrences v present)) (distinct present)).

(** [str(x).replace('+','').replace('times','').strip()] *)
Definition break_text (x : pyval) : string :=
  strip (remove_all "times" (remove_all "+" (py_str x))).

(** The lambda applied to [df['break_frequency']]. *)
Definition break_frequency_numeric (x : pyval) : result Z :=
  if isna x then Ok 0
  else match int_of_string (break_text x) with
       | Some n => Ok n
       | None => Raise (ValueError "invalid literal for int() with base 10")
       end.

(** [str(r.get(s, "No")).lower() == "yes"] *)
Definition answered_yes (r : Series) (s : string) : bool :=
  String.eqb (lower (py_str (get r s (VStr "No")))) "yes".

(** The lambda applied to the rows for [df['symptom_score']]. *)
Definition symptom_score (r : Series) : Z :=
  Z.of_nat (List.length (filter (answered_yes r) symptom_cols)).

(** The scatter part, entered when the frame has a break-frequency
    column: the figure, and the frame with its two new columns. *)
Definition breaks_chart (df : DataFrame) : result (chart * DataFrame) :=
  bf <- column df "break_frequency" ;;
  nums <- traverse break_frequency_numeric bf ;;
  let df1 := set_column df "break_frequency_numeric" (map VInt nums) in
  let df2 := set_column df1 "symptom_score"
               (map (fun r => VInt (symptom_score r)) (rows df1)) in
  xs <- column df2 "break_frequency_numeric" ;;
  ys <- column df2 "symptom_score" ;;
  Ok (Scatter "Break Frequency vs Symptoms" "Break Frequency (per hour)"
        "Number of Symptoms" xs ys, df2).

(** The two figures that leave the frame alone. *)
Definition fixed_charts (df : DataFrame) : result (list (string * chart)) :=
  symptom_counts <-
    traverse (fun col => n <- yes_count df col ;; Ok (col, n)) symptom_cols ;;
  devices <- column df "devices" ;;
  Ok [("symptoms", Bar "Symptoms Frequency" "Count" symptom_counts);
      ("devices", Pie "Device Usage" (value_counts devices))].

(** [generate_charts(df)]: the dict of figures, or the exception that ends
    the call, and the frame as the call leaves it. *)
Definition generate_charts (df : DataFrame)
  : result (list (string * chart)) * DataFrame :=
  match fixed_charts df with
  | Raise e => (Raise e, df)
  | Ok charts =>
      if has_column df "break_frequency" then
        match breaks_chart df with
        | Raise e => (Raise e, df)
        | Ok (fig3, df') => (Ok (charts ++ [("breaks", fig3)])%list, df')
        end
      else (Ok charts, df)
  end.

End Charts.

(* ===================================================================== *)
(** * Report generator *)
(* ===================================================================== *)

Module Report.
Import PyStr PyFloat PyConv Py Risk Frame Charts.

(** What is put on the document, in order. *)
Inductive pdf_op :=
| AddPage
| SetFont (family style : string) (size : Z)
| Cell (w h : Z) (txt : string) (align : string)
| Ln (h : Z)
| Image (fig : chart) (x w : Z)
| Output (name : string).

Definition PDF_FILE : string := "CVS_Report.pdf".

Section Generate.

(** [series.mean()] of a float column. Which summation pandas runs depends
    on the installation; the development holds for any. *)
Variable series_mean : list float -> float.

(** [series.astype(float)] *)
Definition astype_float (vs : list pyval) : result (list float) :=
  traverse (fun v => match py_float v with
                     | Some f => Ok f
                     | None => Raise (ValueError
                                 "could not convert string to float")
                     end) vs.

(** [df[c].astype(float).mean()] *)
Definition mean_hours (df : DataFrame) (c : string) : result float :=
  vs <- column df c ;;
  fs <- astype_float vs ;;
  Ok (series_mean fs).

(** The body of the [try]: both means, then the two lines. *)
Definition averages (df : DataFrame) : result (list pdf_op) :=
  avg_acad <- mean_hours df "hours_academic" ;;
  avg_nonacad <- mean_hours df "hours_non_academic" ;;
  Ok [Cell 0 8 ("Average Academic Hours: " ++ format_2f avg_acad) "";
      Cell 0 8 ("Average Non-Academic Hours: " ++ format_2f avg_nonacad) ""].

Definition placeholder : pdf_op := Cell 0 8 "Average hours not available" "".

(** The [try] with its [except]. *)
Definition summary (df : DataFrame) : list pdf_op :=
  match averages df with
  | Ok ops => ops
  | Raise _ => [placeholder]
  end.

(** The line of the respondent at index [i]. *)
Definition risk_line (i : nat) (row : Series) : pdf_op :=
  let '(score, risk) := calculate_risk row in
  let name :=
    get row "timestamp" (VStr ("Row " ++ str_of_int (Z.of_nat i + 1))) in
  Cell 0 8 (py_str name ++ ": Score=" ++ num_str score ++ ", Risk="
            ++ level_name risk) "".

Definition risk_lines (df : DataFrame) : list pdf_op :=
  map (fun i => risk_line i (row df i)) (seq 0 (nrows df)).

(** The page of one chart. *)
Definition chart_page (kf : string * chart) : list pdf_op :=
  [AddPage; SetFont "Arial" "B" 12;
   Cell 0 10 (capitalize (fst kf) ++ " Chart") "";
   Image (snd kf) 15 180].

Definition heading : list pdf_op :=
  [AddPage; SetFont "Arial" "B" 16;
   Cell 0 10 "Computer Vision Syndrome Survey Report" "C"; Ln 10;
   SetFont "Arial" "B" 12; Cell 0 10 "Summary Statistics:" "";
   SetFont "Arial" "" 11].

Definition risk_heading : list pdf_op :=
  [Ln 5; SetFont "Arial" "B" 12; Cell 0 10 "Student Risk Summary:" "";
   SetFont "Arial" "" 11].

(** [generate_pdf(df, charts)]: the content of the document written. *)
Definition generate_pdf (df : DataFrame) (charts : list (string * chart))
  : list pdf_op :=
  (heading ++ summary df ++ risk_heading ++ risk_lines df
   ++ flat_map chart_page charts ++ [Output PDF_FILE])%list.

End Generate.

End Report.

(* ===================================================================== *)
(** * The specification's wording of the scorer and of the mapper *)
(* ===================================================================== *)

Module Spec.
Import PyStr PyFloat Py Risk Frame.

(** "case-insensitively equal" *)
Definition ci_equal (a b : string) : bool := String.eqb (lower a) (lower b).

(** The field of a record, when it holds a value. *)
Fixpoint field (row : Series) (key : string) : option pyval :=
  match row with
  | [] => None
  | (k, v) :: row' => if String.eqb k key then Some v else field row' key
  end.

(** A symptom field counts when it holds a value case-insensitively equal
    to "yes" or "sometimes". *)
Definition reported (row : Series) (s : string) : bool :=
  match field row s with
  | Some v => ci_equal (py_str v) "yes" || ci_equal (py_str v) "sometimes"
  | None => false
  end.

Definition indicator (b : bool) : Z := if b then 1 else 0.

(** The number an hours field holds, [None] when its value does not
    parse. A field the record lacks counts as 0, as in the code. *)
Definition number (row : Series) (key : string) : option float :=
  match field row key with
  | Some v => py_float v
  | None => Some (S754_zero false)
  end.

(** "Sum two numeric fields; on parse failure for either, treat the sum
    as zero." *)
Definition hours_sum (row : Series) : pynum :=
  match number row "hours_academic", number row "hours_non_academic" with
  | Some a, Some b => NFloat (add a b)
  | _, _ => NInt 0
  end.

(** The number of the five symptom fields that count. *)
Definition reported_symptoms (row : Series) : Z :=
  indicator (reported row "eye_strain")
  + indicator (reported row "blurry_vision")
  + indicator (reported row "dry_eyes")
  + indicator (reported row "headaches")
  + indicator (reported row "neck_pain").

(** Hours contribution [min(sum * 10, 50)] plus 10 points per symptom. *)
Definition score (hours_sum : pynum) (symptoms : Z) : pynum :=
  py_add (py_min (py_mul hours_sum (NInt 10)) (NInt 50))
         (NInt (10 * symptoms)).

(** The three tiers: below 30, from 30 to below 60, from 60 on. *)
Definition level_ok (score : pynum) (level : risk_level) : Prop :=
  (py_lt score (NInt 30) = true -> level = Low)
  /\ (py_le (NInt 30) score = true -> py_lt score (NInt 60) = true ->
      level = Medium)
  /\ (py_le (NInt 60) score = true -> level = High).

(** "Source columns absent from the mapping are dropped": the view that
    keeps the mapped columns only, under their canonical names. *)
Definition apply_dropping (mapping : Json.dict) (df : DataFrame)
  : DataFrame :=
  {| nrows := nrows df;
     cols := flat_map (fun lv =>
                         match Json.dict_get mapping (fst lv) with
                         | Some l => [(l, snd lv)]
                         | None => []
                         end) (cols df) |}.

End Spec.

(* ===================================================================== *)
(** * Predicates on floats used by the bounds *)
(* ===================================================================== *)

Module FloatOrder.
Import PyFloat.

(** Bits were lost by the shifts recorded in [mrs]. *)
Definition inexact (mrs : shr_record) : bool := shr_r mrs || shr_s mrs.

(** The float is a zero, an infinity or a finite number of sign [s]. *)
Definition signed (s : bool) (f : float) : Prop :=
  match f with
  | S754_zero s' | S754_infinity s' | S754_finite s' _ _ => s' = s
  | S754_nan => False
  end.


(** The float is a zero or positive. *)
Definition nonneg (f : float) : Prop :=
  match f with
  | S754_zero _ | S754_infinity false | S754_finite false _ _ => True
  | _ => False
  end.

(** The mantissa of a finite float fits the precision. *)
Definition rounded (f : float) : Prop :=
  match f with
  | S754_finite _ m _ => Zpos m < 2 ^ prec
  | _ => True
  end.

End FloatOrder.

(* ===================================================================== *)
(** * Sample inputs *)
(* ===================================================================== *)

Module Examples.
Import PyFloat Py Risk Frame Json Mapper Charts.

(** A record whose academic hours are not a number. *)
Definition abc_row : Series :=
  [("hours_academic", VStr "abc"); ("hours_non_academic", VStr "5");
   ("eye_strain", VStr "Yes"); ("blurry_vision", VStr "No");
   ("dry_eyes", VStr "Sometimes"); ("headaches", VStr "No");
   ("neck_pain", VStr "No")].


(** The record of the end-to-end scenario of the specification. *)
Definition plain_row : Series :=
  [("hours_academic", VStr "2"); ("hours_non_academic", VStr "1");
   ("eye_strain", VStr "Yes"); ("blurry_vision", VStr "No");
   ("dry_eyes", VStr "Sometimes"); ("headaches", VStr "No");
   ("neck_pain", VStr "No")].

Definition forms_mapping : dict :=
  [("Timestamp", "timestamp"); ("How old are you?", "age");
   ("Hours (school)", "hours_academic")].

(** An upload with a column the mapping does not mention and one that
    already has a canonical name. *)
Definition answers : DataFrame :=
  {| nrows := 1;
     cols := [("Q1", [VStr "17"]); ("extra", [VStr "x"]);
              ("age", [VStr "old"])] |}.

(** Two respondents; the second left the break frequency empty and wrote
    text for the academic hours. *)
Definition survey : DataFrame :=
  {| nrows := 2;
     cols := [("timestamp", [VStr "t1"; VStr "t2"]);
              ("hours_academic", [VStr "2"; VStr "abc"]);
              ("hours_non_academic", [VInt 1; VInt 5]);
              ("devices", [VStr "Laptop"; VStr "Phone"]);
              ("break_frequency", [VStr "5+ times"; VFloat nan]);
              ("eye_strain", [VStr "Yes"; VStr "Sometimes"]);
              ("blurry_vision", [VStr "No"; VStr "yes"]);
              ("dry_eyes", [VStr "Sometimes"; VStr "no"]);
              ("headaches", [VStr "No"; VStr "no"]);
              ("neck_pain", [VStr "No"; VStr "YES"])] |}.

(** The same, with a range for the break frequency of the first. *)
Definition survey_with_range : DataFrame :=
  {| nrows := 2;
     cols := [("timestamp", [VStr "t1"; VStr "t2"]);
              ("hours_academic", [VStr "2"; VStr "abc"]);
              ("hours_non_academic", [VInt 1; VInt 5]);
              ("devices", [VStr "Laptop"; VStr "Phone"]);
              ("break_frequency", [VStr "2-3 times"; VFloat nan]);
              ("eye_strain", [VStr "Yes"; VStr "Sometimes"]);
              ("blurry_vision", [VStr "No"; VStr "yes"]);
              ("dry_eyes", [VStr "Sometimes"; VStr "no"]);
              ("headaches", [VStr "No"; VStr "no"]);
              ("neck_pain", [VStr "No"; VStr "YES"])] |}.

(** The figures of [survey]. *)
Definition survey_charts : list (string * chart) :=
  [("symptoms",
    Bar "Symptoms Frequency" "Count"
      [("eye_strain", 1); ("blurry_vision", 1); ("dry_eyes", 0);
       ("headaches", 0); ("neck_pain", 1)]);
   ("devices", Pie "Device Usage" [(VStr "Laptop", 1); (VStr "Phone", 1)]);
   ("breaks",
    Scatter "Break Frequency vs Symptoms" "Break Frequency (per hour)"
      "Number of Symptoms" [VInt 5; VInt 0] [VInt 1; VInt 2])].

(** An operator who picks the column "Q1" for the age and again for the
    sex, skips the other fields, and saves. *)
Definition picks_twice : UI :=
  {| selectbox := fun label _ =>
       if String.eqb label "Select column for: age" then "Q1"
       else if String.eqb label "Select column for: sex" then "Q1"
       else skip;
     button := fun _ => true |}.

End Examples.

(* ===================================================================== *)
(** * What the functions read, and the real-time entry *)
(* ===================================================================== *)

Module Reads.
Import PyStr Py Risk Frame Charts Report.

(** Two frames agree on the columns [names]: they have the same number of
    rows and, under each of the names, the same column or none. *)
Definition agree (names : list string) (df1 df2 : DataFrame) : Prop :=
  nrows df1 = nrows df2
  /\ forall c, In c names -> lookup (cols df1) c = lookup (cols df2) c.

(** The frame has a column with text in it. pandas holds the rows of such
    a frame as objects, each field the value of its column, which is how
    [row] has them. (The rows of a frame of numeric columns only come in
    one common dtype: next to a float column an integer reads as a
    float.) *)
Definition has_text (df : DataFrame) : bool :=
  existsb (fun lv => existsb is_text (snd lv)) (cols df).

(** The columns named in [generate_charts]. *)
Definition chart_columns : list string :=
  (symptom_cols ++ ["devices"; "break_frequency"])%list.

(** The columns named in [generate_pdf] and in [calculate_risk]. *)
Definition report_columns : list string :=
  "timestamp" :: "hours_academic" :: "hours_non_academic" :: symptoms.

Definition is_add_page (op : pdf_op) : bool :=
  match op with AddPage => true | _ => false end.

Definition is_image (op : pdf_op) : bool :=
  match op with Image _ _ _ => true | _ => false end.

(** The number of pages the code starts with [add_page]. (The library
    starts a further page by itself when the lines run over the bottom
    margin; the content listed here does not show those.) *)
Definition pages_started (ops : list pdf_op) : nat :=
  List.length (filter is_add_page ops).

(** [c in s] for a character [c]. *)
Fixpoint has_char (c : ascii) (s : string) : bool :=
  match s with
  | EmptyString => false
  | String a s' => Ascii.eqb a c || has_char c s'
  end.

(** Every character of [s] satisfies [p]. *)
Fixpoint all_chars (p : ascii -> bool) (s : string) : bool :=
  match s with
  | EmptyString => true
  | String a s' => p a && all_chars p s'
  end.

(** The counts of the slices do not increase. *)
Fixpoint descending (l : list (pyval * Z)) : bool :=
  match l with
  | a :: (b :: _) as t => (snd b <=? snd a) && descending t
  | _ => true
  end.

(** The characters of [str] of an integer, and of a finite float. *)
Definition int_char (c : ascii) : bool := is_digit c || Ascii.eqb c "-".

Definition float_char (c : ascii) : bool :=
  is_digit c || Ascii.eqb c "." || Ascii.eqb c "e" || Ascii.eqb c "-"
  || Ascii.eqb c "+".

Definition no_space (c : ascii) : bool :=
  negb (is_space c) && negb (is_literal_space c).

End Reads.

Module Entry.
Import PyStr Py Risk Frame Mapper.

(** The dict [response] of the real-time entry: under each canonical
    field, the text of the input box labelled with the field and a
    colon. *)
Definition response (text_input : string -> string) : Series :=
  map (fun col => (col, VStr (text_input (col ++ ":")))) STANDARD_COLUMNS.

(** [pd.DataFrame([record])]: one row, the keys of the record as columns. *)
Definition frame_of_record (record : Series) : DataFrame :=
  {| nrows := 1; cols := map (fun kv => (fst kv, [snd kv])) record |}.

(** The frame handed to the analysis when the response is submitted. *)
Definition entry_frame (text_input : string -> string) : DataFrame :=
  frame_of_record (response text_input).

End Entry.

(* ===================================================================== *)
(** * Facts on binary64 rounding *)
(* ===================================================================== *)

Import PyStr PyFloat PyConv Py FloatOrder Examples.

(** ** Digits and shifts *)

Lemma digits2_pos_bounds (p : positive) :
  2 ^ (Zpos (digits2_pos p) - 1) <= Zpos p < 2 ^ Zpos (digits2_pos p).
Proof.
  induction p as [p IH | p IH |]; simpl digits2_pos.
  - rewrite Pos2Z.inj_succ.
    replace (Z.succ (Zpos (digits2_pos p)) - 1)
      with (Z.succ (Zpos (digits2_pos p) - 1)) by lia.
    rewrite !Z.pow_succ_r by lia. lia.
  - rewrite Pos2Z.inj_succ.
    replace (Z.succ (Zpos (digits2_pos p)) - 1)
      with (Z.succ (Zpos (digits2_pos p) - 1)) by lia.
    rewrite !Z.pow_succ_r by lia. lia.
  - simpl. lia.
Qed.

Lemma Zdigits2_bounds (m : Z) :
  0 < m -> 2 ^ (Zdigits2 m - 1) <= m < 2 ^ Zdigits2 m.
Proof.
  destruct m as [| p | p]; try lia. intros _. apply digits2_pos_bounds.
Qed.

Lemma iter_pos_nat {A : Type} (f : A -> A) (p : positive) (x : A) :
  iter_pos f p x = Nat.iter (Pos.to_nat p) f x.
Proof.
  revert x. induction p as [p IH | p IH |]; intros x; simpl iter_pos.
  - rewrite !IH, Pos2Nat.inj_xI.
    replace (S (2 * Pos.to_nat p))
      with (Pos.to_nat p + S (Pos.to_nat p))%nat by lia.
    rewrite Nat.iter_add. f_equal. rewrite Nat.iter_succ_r. reflexivity.
  - rewrite !IH, Pos2Nat.inj_xO.
    replace (2 * Pos.to_nat p)%nat
      with (Pos.to_nat p + Pos.to_nat p)%nat by lia.
    rewrite Nat.iter_add. reflexivity.
  - reflexivity.
Qed.

(** One shift halves the mantissa and remembers an odd one. *)
Lemma shr_1_spec (mrs : shr_record) :
  0 <= shr_m mrs ->
  shr_m (shr_1 mrs) = shr_m mrs / 2
  /\ inexact (shr_1 mrs) = inexact mrs || Z.odd (shr_m mrs).
Proof.
  destruct mrs as [m r s]. unfold inexact. simpl shr_m. intros Hm.
  destruct m as [| [p | p |] | p]; try lia; simpl.
  - split; [reflexivity | now rewrite orb_false_r].
  - split; [| now rewrite orb_true_r]. rewrite Pos2Z.inj_xI.
    apply Z.div_unique with (r := 1); lia.
  - split; [| now rewrite orb_false_r]. rewrite Pos2Z.inj_xO.
    apply Z.div_unique with (r := 0); lia.
  - split; [reflexivity | now rewrite orb_true_r].
Qed.

(** [n] shifts divide by [2^n], and are exact when nothing is left. *)
Lemma shr_iter_spec (n : nat) (mrs : shr_record) :
  0 <= shr_m mrs ->
  shr_m (Nat.iter n shr_1 mrs) = shr_m mrs / 2 ^ Z.of_nat n
  /\ inexact (Nat.iter n shr_1 mrs)
     = inexact mrs || negb (shr_m mrs mod 2 ^ Z.of_nat n =? 0).
Proof.
  intros Hm. induction n as [| n [IHm IHi]].
  - simpl. rewrite Z.div_1_r, Z.mod_1_r. simpl. now rewrite orb_false_r.
  - rewrite Nat2Z.inj_succ, Z.pow_succ_r by lia. simpl Nat.iter.
    set (m := shr_m mrs) in *. set (d := 2 ^ Z.of_nat n) in *.
    assert (Hp : 0 < d) by (apply Z.pow_pos_nonneg; lia).
    destruct (shr_1_spec (Nat.iter n shr_1 mrs)) as [H1 H2].
    { rewrite IHm. apply Z.div_pos; lia. }
    split.
    + rewrite H1, IHm, Z.div_div by lia. f_equal. lia.
    + rewrite H2, IHi, IHm.
      rewrite (Z.mul_comm 2), Z.rem_mul_r by lia.
      rewrite <- orb_assoc. f_equal. rewrite Zodd_mod.
      pose proof (Z.mod_pos_bound m d Hp) as Hb.
      pose proof (Z.mod_pos_bound (m / d) 2 ltac:(lia)) as Hb2.
      destruct (Z.eqb_spec (m mod d) 0) as [E | E];
        destruct (Z.eqb_spec ((m / d) mod 2) 1) as [E2 | E2]; simpl;
        symmetry;
        try (apply negb_true_iff, Z.eqb_neq; nia);
        try (apply negb_false_iff, Z.eqb_eq; nia).
Qed.

(** Rounding to nearest goes up by one at most, and only when bits were
    lost. *)
Lemma round_nearest_even_bounds (mrs : shr_record) :
  shr_m mrs <= round_nearest_even (shr_m mrs) (loc_of_shr_record mrs)
             <= shr_m mrs + (if inexact mrs then 1 else 0).
Proof.
  destruct mrs as [m [] []]; unfold inexact; simpl;
    try destruct (Z.even m); lia.
Qed.

(** One pass of [shr_fexp]: the mantissa loses [n] bits when the exponent
    has to rise by [n > 0], and is left alone otherwise. *)
Lemma shr_fexp_spec (m e : Z) (l : location) (mrs : shr_record) (e' : Z) :
  0 <= m ->
  shr_fexp prec emax m e l = (mrs, e') ->
  (fexp prec emax (Zdigits2 m + e) - e <= 0 ->
   mrs = shr_record_of_loc m l /\ e' = e)
  /\ (0 < fexp prec emax (Zdigits2 m + e) - e ->
      shr_m mrs = m / 2 ^ (fexp prec emax (Zdigits2 m + e) - e)
      /\ e' = fexp prec emax (Zdigits2 m + e)
      /\ inexact mrs
         = inexact (shr_record_of_loc m l)
           || negb (m mod 2 ^ (fexp prec emax (Zdigits2 m + e) - e) =? 0)).
Proof.
  intros Hm. unfold shr_fexp.
  set (n := fexp prec emax (Zdigits2 m + e) - e).
  assert (Hs : shr_m (shr_record_of_loc m l) = m)
    by (destruct l as [| []]; reflexivity).
  intros E. split; intros Hn.
  - destruct n; try lia; simpl in E; inversion E; auto.
  - destruct n as [| p | p] eqn:En; try lia. unfold shr in E.
    rewrite iter_pos_nat in E. inversion E; subst mrs e'.
    destruct (shr_iter_spec (Pos.to_nat p) (shr_record_of_loc m l))
      as [H1 H2].
    { now rewrite Hs. }
    rewrite positive_nat_Z, Hs in H1, H2. repeat split; auto. lia.
Qed.

Lemma shr_fexp_nonneg (m e : Z) (l : location) :
  0 <= m -> 0 <= shr_m (fst (shr_fexp prec emax m e l)).
Proof.
  intros Hm.
  destruct (shr_fexp prec emax m e l) as [mrs e'] eqn:E.
  destruct (shr_fexp_spec m e l mrs e' Hm E) as [Hle Hgt]. simpl fst.
  destruct (Z_le_gt_dec (fexp prec emax (Zdigits2 m + e) - e) 0)
    as [Hn | Hn].
  - destruct (Hle Hn) as [-> _]. destruct l as [| []]; exact Hm.
  - destruct (Hgt ltac:(lia)) as (-> & _). apply Z.div_pos; [lia |].
    apply Z.pow_pos_nonneg; lia.
Qed.

(** Rounding a magnitude keeps the sign it is given and gives a mantissa
    of at most [prec] bits. *)
Lemma binary_round_aux_shape (s : bool) (m e : Z) (l : location) :
  0 <= m ->
  signed s (binary_round_aux prec emax s m e l)
  /\ rounded (binary_round_aux prec emax s m e l).
Proof.
  intros Hm. unfold binary_round_aux.
  pose proof (shr_fexp_nonneg m e l Hm) as H1.
  destruct (shr_fexp prec emax m e l) as [mrs' e'] eqn:E1. simpl fst in H1.
  pose proof (round_nearest_even_bounds mrs') as Hq.
  set (q := round_nearest_even (shr_m mrs') (loc_of_shr_record mrs')) in *.
  assert (Hq0 : 0 <= q) by lia.
  pose proof (shr_fexp_nonneg q e' loc_Exact Hq0) as H2.
  destruct (shr_fexp prec emax q e' loc_Exact) as [mrs'' e''] eqn:E2.
  simpl fst in H2.
  destruct (shr_fexp_spec q e' loc_Exact mrs'' e'' Hq0 E2) as [Hle Hgt].
  destruct (shr_m mrs'') as [| p | p] eqn:Em; unfold signed, rounded; auto;
    try lia.
  destruct (e'' <=? emax - prec); split; auto.
  set (n := fexp prec emax (Zdigits2 q + e') - e') in *.
  assert (Hqpos : 0 < q).
  { destruct (Z_le_gt_dec n 0) as [Hn | Hn].
    - destruct (Hle Hn) as [-> _]. simpl in Em. lia.
    - destruct (Hgt ltac:(lia)) as (Hd & _).
      destruct (Z.eq_dec q 0) as [Hz | ]; [| lia].
      rewrite Hz, Z.div_0_l in Hd; [lia |]. apply Z.pow_nonzero; lia. }
  destruct (Zdigits2_bounds q Hqpos) as [_ Hhi].
  assert (Hd0 : 0 < Zdigits2 q) by (destruct q; simpl; lia).
  assert (Hbits : Zdigits2 q <= prec + Z.max n 0)
    by (unfold n, fexp, prec in *; lia).
  destruct (Z_le_gt_dec n 0) as [Hn | Hn].
  - destruct (Hle Hn) as [-> _]. simpl in Em. rewrite <- Em.
    eapply Z.lt_le_trans; [apply Hhi |].
    apply Z.pow_le_mono_r; lia.
  - destruct (Hgt ltac:(lia)) as (Hd & _). rewrite Hd.
    apply Z.div_lt_upper_bound; [apply Z.pow_pos_nonneg; lia |].
    rewrite <- Z.pow_add_r by (unfold prec; lia).
    eapply Z.lt_le_trans; [apply Hhi |].
    apply Z.pow_le_mono_r; lia.
Qed.



Lemma binary_round_signed (s : bool) (p : positive) (e : Z) :
  signed s (binary_round prec emax s p e).
Proof.
  unfold binary_round.
  destruct (shl_align p e (fexp prec emax (Zpos (digits2_pos p) + e)))
    as [mz ez].
  apply binary_round_aux_shape. lia.
Qed.

(** ** Rounding below a bound *)

Section Below.

(** The bound is the integer [B]; exponents stay at or below [k], so that
    [B] is a multiple of every unit in use. *)
Variables B k : Z.
Hypothesis B_pos : 0 <= B.
Hypothesis B_fits : B < 2 ^ (k + prec).
Hypothesis k_nonpos : k <= 0.
Hypothesis k_min : emin prec emax <= k.
Hypothesis k_max : k <= emax - prec.






End Below.




Section Add.

Variables B1 B2 k : Z.
Hypothesis B1_pos : 0 <= B1.
Hypothesis B2_pos : 0 <= B2.
Hypothesis B_fits : B1 + B2 < 2 ^ (k + prec).
Hypothesis k_nonpos : k <= 0.
Hypothesis k_min : emin prec emax <= k.
Hypothesis k_max : k <= emax - prec.


End Add.

(** ** Comparisons *)

Lemma SFcompare_antisym (x y : float) (c : comparison) :
  SFcompare x y = Some c -> SFcompare y x = Some (CompOpp c).
Proof.
  destruct x as [sx | sx | | sx mx ex]; destruct y as [sy | sy | | sy my ey];
    simpl; try discriminate;
    try (destruct sx; try destruct sy; intros H; inversion H; reflexivity).
  intros H. inversion H as [H']. clear H H'. f_equal.
  rewrite (Z.compare_antisym ex ey).
  change (Pos.compare_cont Eq my mx)
    with (Pos.compare_cont (CompOpp Eq) my mx).
  rewrite <- (Pos.compare_cont_antisym mx my Eq).
  destruct sx, sy; simpl; auto;
    destruct (ex ?= ey); simpl; auto;
    destruct (Pos.compare_cont Eq mx my); reflexivity.
Qed.

Lemma ltb_not_leb (x y : float) : ltb x y = true -> leb y x = false.
Proof.
  unfold ltb, leb, SFltb, SFleb.
  destruct (SFcompare x y) as [[] |] eqn:E; try discriminate.
  rewrite (SFcompare_antisym x y Lt E). reflexivity.
Qed.

Section Bound.

(** A bound that is a normal float: [mc * 2^ec = B]. *)
Variables (B : Z) (mc : positive) (ec : Z).
Hypothesis c_value : Zpos mc = B * 2 ^ (- ec).
Hypothesis c_normal : 2 ^ prec <= 2 * Zpos mc.
Hypothesis ec_nonpos : ec <= 0.




End Bound.

(* ===================================================================== *)
(** * Risk scorer: the score and its tiers *)
(* ===================================================================== *)

Import Risk.

Lemma of_Z_0 : of_Z 0 = S754_zero false.
Proof. reflexivity. Qed.

Lemma of_Z_30 : of_Z 30 = S754_finite false 8444249301319680 (-48).
Proof. reflexivity. Qed.

Lemma of_Z_50 : of_Z 50 = S754_finite false 7036874417766400 (-47).
Proof. reflexivity. Qed.

Lemma of_Z_60 : of_Z 60 = S754_finite false 8444249301319680 (-47).
Proof. reflexivity. Qed.


Lemma of_Z_nonneg (z : Z) : 0 <= z -> nonneg (of_Z z).
Proof.
  intros Hz. unfold of_Z, binary_normalize. destruct z as [| p | p]; try lia.
  - exact I.
  - pose proof (binary_round_signed false p 0) as Hs.
    destruct (binary_round prec emax false p 0) as [s | s | | s m e];
      simpl in Hs; subst; simpl; auto.
Qed.

(** Adding to [0 + f] is adding to [f], unless what is added is the
    negative zero. *)
Lemma add_zero_l (f y : float) :
  y <> S754_zero true ->
  add (add (S754_zero false) f) y = add f y.
Proof.
  intros Hy.
  destruct f as [[] | [] | | [] m e]; destruct y as [[] | [] | | [] m' e'];
    try reflexivity; congruence.
Qed.

Lemma of_Z_not_negzero (z : Z) : 0 <= z -> of_Z z <> S754_zero true.
Proof.
  intros Hz E. pose proof (of_Z_nonneg z Hz) as Hn. rewrite E in Hn.
  unfold of_Z, binary_normalize in E. destruct z as [| p | p]; try lia.
  - discriminate.
  - pose proof (binary_round_signed false p 0) as Hs. rewrite E in Hs.
    simpl in Hs. discriminate.
Qed.

Lemma filter_length_bound {A : Type} (f : A -> bool) (l : list A) :
  (List.length (filter f l) <= List.length l)%nat.
Proof.
  induction l as [| a l IH]; simpl; [lia |]. destruct (f a); simpl; lia.
Qed.

Lemma symptom_count_range (row : Series) : 0 <= symptom_count row <= 5.
Proof.
  unfold symptom_count.
  pose proof (filter_length_bound (has_symptom row) symptoms) as H.
  simpl List.length in H at 2. lia.
Qed.

Lemma get_field (row : Series) (key : string) (d : pyval) :
  get row key d = match Spec.field row key with Some v => v | None => d end.
Proof.
  induction row as [| [k v] row IH]; simpl; [reflexivity |].
  destruct (String.eqb k key); auto.
Qed.

Lemma has_symptom_reported (row : Series) (s : string) :
  has_symptom row s = Spec.reported row s.
Proof.
  unfold has_symptom, Spec.reported. rewrite get_field.
  destruct (Spec.field row s) as [v |]; [| reflexivity].
  unfold mem, Spec.ci_equal. simpl existsb. now rewrite orb_false_r.
Qed.

Lemma symptom_count_reported (row : Series) :
  symptom_count row = Spec.reported_symptoms row.
Proof.
  unfold symptom_count, Spec.reported_symptoms, symptoms. simpl filter.
  rewrite !has_symptom_reported.
  destruct (Spec.reported row "eye_strain"),
           (Spec.reported row "blurry_vision"),
           (Spec.reported row "dry_eyes"),
           (Spec.reported row "headaches"),
           (Spec.reported row "neck_pain"); reflexivity.
Qed.


Lemma py_lt_not_le (a b : pynum) : py_lt a b = true -> py_le b a = false.
Proof.
  destruct a as [x | x], b as [y | y]; cbn [py_lt py_le];
    try apply ltb_not_leb.
  intros H. apply Z.ltb_lt in H. apply Z.leb_gt. exact H.
Qed.

Lemma below_30_not_60 (s : pynum) :
  py_lt s (NInt 30) = true -> py_le (NInt 60) s = false.
Proof.
  destruct s as [z | f]; cbn [py_lt py_le to_float].
  - intros H. apply Z.ltb_lt in H. apply Z.leb_gt. lia.
  - rewrite of_Z_30, of_Z_60. unfold ltb, leb, SFltb, SFleb.
    destruct f as [[] | [] | | [] m e]; cbv [SFcompare]; auto.
    destruct (Z.compare_spec e (-48)) as [E | E | E];
      destruct (Z.compare_spec (-47) e) as [E' | E' | E'];
      try (exfalso; lia); auto; try discriminate.
Qed.

Lemma hours_sum_read (row : Series) : hours row = Spec.hours_sum row.
Proof.
  unfold hours, Spec.hours_sum, Spec.number. rewrite !get_field.
  destruct (Spec.field row "hours_academic") as [a |];
    destruct (Spec.field row "hours_non_academic") as [b |];
    try reflexivity; destruct (py_float a); reflexivity.
Qed.

(** The score as the code adds it up is the score of the formula. *)
Lemma score_formula (row : Series) :
  fst (calculate_risk row)
  = Spec.score (hours row) (Spec.reported_symptoms row).
Proof.
  unfold calculate_risk, Spec.score. cbv zeta. cbn [fst].
  rewrite symptom_count_reported.
  pose proof (symptom_count_range row) as Hc.
  rewrite symptom_count_reported in Hc.
  set (c := Spec.reported_symptoms row) in *.
  destruct (py_min (py_mul (hours row) (NInt 10)) (NInt 50)) as [z | f].
  - cbn [py_add]. f_equal. lia.
  - cbn [py_add to_float]. rewrite of_Z_0. f_equal.
    replace (c * 10) with (10 * c) by lia.
    apply add_zero_l. apply of_Z_not_negzero. lia.
Qed.

Lemma level_of_score (row : Series) :
  Spec.level_ok (fst (calculate_risk row)) (snd (calculate_risk row)).
Proof.
  unfold calculate_risk. cbv zeta. cbn [fst snd].
  set (s := py_add _ (NInt (symptom_count row * 10))).
  unfold Spec.level_ok.
  destruct (py_lt s (NInt 30)) eqn:E30.
  - pose proof (py_lt_not_le _ _ E30) as H30.
    pose proof (below_30_not_60 _ E30) as H60.
    repeat split; auto; congruence.
  - destruct (py_lt s (NInt 60)) eqn:E60.
    + pose proof (py_lt_not_le _ _ E60) as H60.
      repeat split; auto; congruence.
    + repeat split; auto; congruence.
Qed.

(** C1. For every respondent record, [calculate_risk] returns the score
    [min((hours_academic + hours_non_academic) * 10, 50) + 10 * n], where
    [n] is the number of the five symptom fields whose value is
    case-insensitively equal to "yes" or "sometimes", and the level Low
    for a score below 30, Medium from 30 to below 60, High from 60 on.
    The sum of the hours is 0 when a field does not parse; the arithmetic
    and the comparisons are Python's. *)
Theorem calculate_risk_formula (row : Series) :
  fst (calculate_risk row)
  = Spec.score (Spec.hours_sum row) (Spec.reported_symptoms row)
  /\ Spec.level_ok (fst (calculate_risk row)) (snd (calculate_risk row)).
Proof.
  split; [| apply level_of_score].
  rewrite <- hours_sum_read. apply score_formula.
Qed.

(** C4. When either hours field fails to parse as a float, the hours are
    the integer 0 and so is the whole hours contribution, whatever the
    other field holds; the scorer still returns a score, which is 10
    points per reported symptom. *)
Theorem hours_parse_failure (row : Series) :
  py_float (get row "hours_academic" (VInt 0)) = None
  \/ py_float (get row "hours_non_academic" (VInt 0)) = None ->
  hours row = NInt 0
  /\ py_min (py_mul (hours row) (NInt 10)) (NInt 50) = NInt 0
  /\ fst (calculate_risk row) = NInt (10 * Spec.reported_symptoms row).
Proof.
  intros H.
  assert (Hh : hours row = NInt 0).
  { unfold hours. destruct H as [-> | H]; [reflexivity |].
    rewrite H. now destruct (py_float (get row "hours_academic" (VInt 0))). }
  split; [exact Hh |]. split; [now rewrite Hh |].
  rewrite score_formula, Hh. reflexivity.
Qed.

Lemma hours_parse_failure_witness :
  py_float (get abc_row "hours_academic" (VInt 0)) = None
  /\ py_float (get abc_row "hours_non_academic" (VInt 0))
     = Some (S754_finite false 5629499534213120 (-50))
  /\ hours abc_row = NInt 0
  /\ fst (calculate_risk abc_row) = NInt 20.
Proof.
  split; [vm_compute; reflexivity |]. split; [vm_compute; reflexivity |].
  destruct (hours_parse_failure abc_row) as (H1 & _ & H3).
  - left. vm_compute. reflexivity.
  - split; [exact H1 | exact H3].
Defined.

(** The end-to-end scenario of the specification: 3 hours and two
    symptoms give 50 points, Medium. *)
Example plain_row_risk :
  num_str (fst (calculate_risk plain_row)) = "50.0"
  /\ snd (calculate_risk plain_row) = Medium.
Proof. vm_compute. split; reflexivity. Qed.

(** The tiers at their bounds: 29.5 is Low, 30 is Medium, 59.5 is Medium
    and 60 is High. *)
Example tier_bounds :
  snd (calculate_risk [("hours_academic", VStr "2.95")]) = Low
  /\ snd (calculate_risk [("hours_academic", VStr "3")]) = Medium
  /\ snd (calculate_risk
            [("hours_academic", VStr "4.95"); ("eye_strain", VStr "yes")])
     = Medium
  /\ snd (calculate_risk
            [("hours_academic", VStr "5"); ("eye_strain", VStr "yes")])
     = High.
Proof. vm_compute. repeat split; reflexivity. Qed.

(* ===================================================================== *)
(** * Risk scorer: the range of the score *)
(* ===================================================================== *)















(* ===================================================================== *)
(** * Column mapper: the persisted mapping reads back *)
(* ===================================================================== *)

Import Json Frame Mapper.

Lemma append_assoc (a b c : string) : ((a ++ b) ++ c = a ++ (b ++ c))%string.
Proof. induction a as [| x a IH]; simpl; [reflexivity | now rewrite IH]. Qed.

Lemma append_empty_r (a : string) : (a ++ "")%string = a.
Proof. induction a as [| x a IH]; simpl; [reflexivity | now rewrite IH]. Qed.

Lemma run_app (st : state) (a b : string) :
  run st (a ++ b) = run (run st a) b.
Proof.
  revert st. induction a as [| c a IH]; intros st; simpl; [reflexivity |].
  apply IH.
Qed.

Lemma all_ascii_spec (p : ascii -> bool) (c : ascii) :
  all_ascii p = true -> p c = true.
Proof.
  unfold all_ascii. rewrite forallb_forall. intros H.
  rewrite <- (ascii_nat_embedding c). apply H. apply in_seq.
  pose proof (nat_ascii_bounded c). lia.
Qed.

(** The escape of every character reads back as the character. *)
Lemma escape_char_reads (c : ascii) :
  read_chars Plain (escape_char c) = Some (String c EmptyString, Plain).
Proof.
  assert (H : reads_back c = true)
    by (apply all_ascii_spec; vm_compute; reflexivity).
  unfold reads_back in H.
  destruct (read_chars Plain (escape_char c)) as [[[| a [| b out]] [| | ds]] |];
    try discriminate.
  apply Ascii.eqb_eq in H. now subst a.
Qed.

Lemma read_chars_app (s t : string) (w w1 w2 : in_string) (o1 o2 : string) :
  read_chars w s = Some (o1, w1) -> read_chars w1 t = Some (o2, w2) ->
  read_chars w (s ++ t) = Some ((o1 ++ o2)%string, w2).
Proof.
  revert w o1. induction s as [| c s IH]; intros w o1 H1 H2; simpl in *.
  - inversion H1; subst. exact H2.
  - destruct (read_in_string w c) as [[a |] | [w' |]]; try discriminate.
    + destruct (read_chars Plain s) as [[out w''] |] eqn:E; try discriminate.
      inversion H1; subst. rewrite (IH Plain out E H2). reflexivity.
    + apply IH; assumption.
Qed.

Lemma escape_reads (s : string) : read_chars Plain (escape s) = Some (s, Plain).
Proof.
  induction s as [| c s IH]; [reflexivity |]. simpl escape.
  apply (read_chars_app _ _ Plain Plain Plain (String c EmptyString) s);
    [apply escape_char_reads | exact IH].
Qed.

(** What is read inside a key goes to the end of the key. *)
Lemma run_read_key (d : dict) (s : string) (w w' : in_string)
    (k out rest : string) :
  read_chars w s = Some (out, w') ->
  run (InKey d k w) (s ++ rest) = run (InKey d (k ++ out) w') rest.
Proof.
  revert w k out. induction s as [| c s IH]; intros w k out H; simpl in H.
  - inversion H; subst. now rewrite append_empty_r.
  - cbn [append run step].
    destruct (read_in_string w c) as [[a |] | [w1 |]]; try discriminate.
    + destruct (read_chars Plain s) as [[o w''] |] eqn:E; try discriminate.
      inversion H; subst. rewrite (IH Plain (snoc k a) o E).
      unfold snoc. now rewrite append_assoc.
    + apply IH. exact H.
Qed.

(** What is read inside a value goes to the end of the value. *)
Lemma run_read_value (d : dict) (k s : string) (w w' : in_string)
    (v out rest : string) :
  read_chars w s = Some (out, w') ->
  run (InValue d k v w) (s ++ rest) = run (InValue d k (v ++ out) w') rest.
Proof.
  revert w v out. induction s as [| c s IH]; intros w v out H; simpl in H.
  - inversion H; subst. now rewrite append_empty_r.
  - cbn [append run step].
    destruct (read_in_string w c) as [[a |] | [w1 |]]; try discriminate.
    + destruct (read_chars Plain s) as [[o w''] |] eqn:E; try discriminate.
      inversion H; subst. rewrite (IH Plain (snoc v a) o E).
      unfold snoc. now rewrite append_assoc.
    + apply IH. exact H.
Qed.

Lemma run_escape_key (d : dict) (s k rest : string) :
  run (InKey d k Plain) (escape s ++ rest)
  = run (InKey d (k ++ s) Plain) rest.
Proof. apply run_read_key. apply escape_reads. Qed.

Lemma run_escape_value (d : dict) (k s v rest : string) :
  run (InValue d k v Plain) (escape s ++ rest)
  = run (InValue d k (v ++ s) Plain) rest.
Proof. apply run_read_value. apply escape_reads. Qed.

Lemma run_indent_key (d : dict) (s : string) :
  run (AfterComma d) (indent ++ String quote s)
  = run (InKey d EmptyString Plain) s.
Proof. reflexivity. Qed.

Lemma run_indent_first (s : string) :
  run Opened (indent ++ String quote s) = run (InKey [] EmptyString Plain) s.
Proof. reflexivity. Qed.

Lemma run_end_key (d : dict) (k s : string) :
  run (InKey d k Plain) (String quote (": " ++ String quote s))
  = run (InValue d k EmptyString Plain) s.
Proof. reflexivity. Qed.

Lemma run_end_value (d : dict) (k v s : string) :
  run (InValue d k v Plain) (String quote s)
  = run (AfterValue (dict_set d k v)) s.
Proof. reflexivity. Qed.

(** The text of a member followed by [rest], bracketed to the right. *)
Lemma encode_item_app (k v rest : string) :
  (encode_item (k, v) ++ rest
   = indent ++ String quote
       (escape k ++ String quote
          (": " ++ String quote (escape v ++ String quote rest))))%string.
Proof.
  unfold encode_item, encode_string. cbn [fst snd].
  rewrite !append_assoc. cbn [append]. rewrite !append_assoc.
  cbn [append]. reflexivity.
Qed.

(** A whole member, read after a comma. *)
Lemma run_item (d : dict) (k v rest : string) :
  run (AfterComma d) (encode_item (k, v) ++ rest)
  = run (AfterValue (dict_set d k v)) rest.
Proof.
  rewrite encode_item_app, run_indent_key, run_escape_key, run_end_key,
    run_escape_value, run_end_value.
  reflexivity.
Qed.

(** The first member is read after the brace as it would be after a
    comma. *)
Lemma run_item_opened (k v rest : string) :
  run Opened (encode_item (k, v) ++ rest)
  = run (AfterComma []) (encode_item (k, v) ++ rest).
Proof.
  now rewrite encode_item_app, run_indent_key, run_indent_first.
Qed.

Lemma run_separator (d : dict) (s : string) :
  run (AfterValue d) (String "," (String newline s)) = run (AfterComma d) s.
Proof. reflexivity. Qed.

Lemma encode_items_cons (kv kv' : string * string) (items : dict) :
  encode_items (kv :: kv' :: items)
  = (encode_item kv
     ++ String "," (String newline (encode_items (kv' :: items))))%string.
Proof. reflexivity. Qed.

Lemma run_items (items : dict) (kv : string * string) (d : dict)
    (rest : string) :
  run (AfterComma d) (encode_items (kv :: items) ++ rest)
  = run (AfterValue (fold_left set_item (kv :: items) d)) rest.
Proof.
  revert kv d. induction items as [| kv' items IH]; intros [k v] d.
  - cbn [encode_items fold_left]. apply run_item.
  - rewrite encode_items_cons, append_assoc, run_item.
    cbn [append]. rewrite run_separator, IH. reflexivity.
Qed.

Lemma run_items_opened (items : dict) (kv : string * string) (rest : string) :
  run Opened (encode_items (kv :: items) ++ rest)
  = run (AfterComma []) (encode_items (kv :: items) ++ rest).
Proof.
  destruct kv as [k v]. destruct items as [| kv' items].
  - apply run_item_opened.
  - rewrite encode_items_cons, !append_assoc. apply run_item_opened.
Qed.

Lemma run_braces (s : string) :
  run Start (String "{" (String newline s)) = run Opened s.
Proof. reflexivity. Qed.

Lemma run_close (d : dict) : run (AfterValue d) (String newline "}") = Closed d.
Proof. reflexivity. Qed.

(** Reading what [dumps] wrote sets the items one after the other. *)
Lemma loads_dumps (d : dict) :
  loads (dumps d) = Some (fold_left set_item d []).
Proof.
  destruct d as [| kv items]; [reflexivity |].
  unfold loads, dumps. cbn [append].
  rewrite run_braces, run_items_opened, run_items, run_close. reflexivity.
Qed.

Lemma dict_set_fresh (d : dict) (k v : string) :
  ~ In k (keys d) -> dict_set d k v = (d ++ [(k, v)])%list.
Proof.
  induction d as [| [k' v'] d IH]; simpl; intros H; [reflexivity |].
  destruct (String.eqb_spec k' k) as [E | E]; [tauto |].
  rewrite IH; tauto.
Qed.

Lemma set_items_fresh (items d : dict) :
  NoDup (keys (d ++ items)%list) ->
  fold_left set_item items d = (d ++ items)%list.
Proof.
  revert d. induction items as [| [k v] items IH]; intros d H; simpl.
  - now rewrite app_nil_r.
  - unfold set_item at 2. cbn [fst snd].
    assert (Hk : ~ In k (keys d)).
    { unfold keys in *. rewrite map_app in H. simpl in H.
      apply NoDup_remove_2 in H. rewrite in_app_iff in H. tauto. }
    rewrite (dict_set_fresh d k v Hk).
    replace (d ++ (k, v) :: items)%list with ((d ++ [(k, v)]) ++ items)%list
      by (rewrite <- app_assoc; reflexivity).
    apply IH. rewrite <- app_assoc. exact H.
Qed.

Lemma loads_dumps_dict (d : dict) : is_dict d -> loads (dumps d) = Some d.
Proof.
  intros H. rewrite loads_dumps. f_equal. apply (set_items_fresh d []). exact H.
Qed.

(** C5. Saving a mapping and loading it gives the same mapping back;
    after a reset, loading reports that there is no mapping, until the
    next save. *)
Theorem mapping_round_trip (m : dict) (f : file) :
  is_dict m ->
  load_mapping (save_mapping m f) = Ok (Some m)
  /\ load_mapping (reset_mapping f) = Ok None
  /\ load_mapping (save_mapping m (reset_mapping f)) = Ok (Some m).
Proof.
  intros H. unfold load_mapping, save_mapping.
  rewrite (loads_dumps_dict m H). destruct f; auto.
Qed.

Lemma forms_mapping_is_dict : is_dict forms_mapping.
Proof.
  unfold is_dict, forms_mapping, keys. simpl map.
  repeat constructor; simpl; intuition discriminate.
Qed.

Lemma mapping_round_trip_witness :
  is_dict forms_mapping
  /\ load_mapping (save_mapping forms_mapping None) = Ok (Some forms_mapping)
  /\ load_mapping (reset_mapping (save_mapping forms_mapping None)) = Ok None.
Proof.
  split; [exact forms_mapping_is_dict |].
  destruct (mapping_round_trip forms_mapping
              (save_mapping forms_mapping None) forms_mapping_is_dict)
    as (_ & H2 & _).
  destruct (mapping_round_trip forms_mapping None forms_mapping_is_dict)
    as (H1 & _ & _).
  split; [exact H1 | exact H2].
Defined.

(* ===================================================================== *)
(** * Column mapper: building and applying a mapping *)
(* ===================================================================== *)

Lemma dict_get_set (d : dict) (k v k' : string) :
  dict_get (dict_set d k v) k'
  = if String.eqb k k' then Some v else dict_get d k'.
Proof.
  induction d as [| [k0 v0] d IH]; simpl.
  - reflexivity.
  - destruct (String.eqb_spec k0 k) as [E | E]; simpl.
    + subst k0. destruct (String.eqb_spec k k'); reflexivity.
    + rewrite IH. destruct (String.eqb_spec k0 k') as [E' | E'];
        [| reflexivity].
      subst k0. destruct (String.eqb_spec k k'); congruence.
Qed.

Lemma keys_dict_set (d : dict) (k v k' : string) :
  In k' (keys (dict_set d k v)) <-> k' = k \/ In k' (keys d).
Proof.
  induction d as [| [k0 v0] d IH]; simpl.
  - intuition.
  - destruct (String.eqb_spec k0 k) as [E | E]; simpl.
    + subst k0. intuition.
    + rewrite IH. intuition.
Qed.

(** Setting an item keeps the keys distinct. *)
Lemma dict_set_is_dict (d : dict) (k v : string) :
  is_dict d -> is_dict (dict_set d k v).
Proof.
  unfold is_dict. induction d as [| [k0 v0] d IH]; simpl; intros H.
  - constructor; [simpl; tauto | constructor].
  - inversion H as [| ? ? Hin Hnd]; subst.
    destruct (String.eqb_spec k0 k) as [E | E]; simpl.
    + constructor; assumption.
    + constructor; [| apply IH; exact Hnd].
      fold (keys (dict_set d k v)). rewrite keys_dict_set.
      intros [-> | Hk]; [congruence | exact (Hin Hk)].
Qed.

Lemma choose_is_dict (ui : UI) (df : DataFrame) (d : dict) (s : string) :
  is_dict d -> is_dict (choose ui df d s).
Proof.
  intros H. unfold choose.
  destruct (negb (String.eqb (choice ui df s) skip));
    [apply dict_set_is_dict |]; exact H.
Qed.

Lemma fold_choose_is_dict (ui : UI) (df : DataFrame) (fields : list string)
    (d : dict) :
  is_dict d -> is_dict (fold_left (choose ui df) fields d).
Proof.
  revert d. induction fields as [| s fields IH]; intros d H; simpl;
    [exact H |].
  apply IH. apply choose_is_dict. exact H.
Qed.

Lemma find_app {A : Type} (p : A -> bool) (a b : list A) :
  find p (a ++ b)%list
  = match find p a with Some x => Some x | None => find p b end.
Proof.
  induction a as [| x a IH]; simpl; [reflexivity |].
  destruct (p x); [reflexivity | exact IH].
Qed.

(** The last of [fields] for which the column [c] was chosen. *)
Lemma dict_get_choose (ui : UI) (df : DataFrame) (d : dict) (s c : string) :
  dict_get (choose ui df d s) c
  = if String.eqb c skip then dict_get d c
    else if String.eqb (choice ui df s) c then Some s else dict_get d c.
Proof.
  unfold choose.
  destruct (String.eqb_spec (choice ui df s) skip) as [E | E]; simpl.
  - rewrite E. destruct (String.eqb_spec c skip) as [E' | E'];
      [reflexivity |].
    destruct (String.eqb_spec skip c); congruence.
  - rewrite dict_get_set.
    destruct (String.eqb_spec c skip) as [E' | E']; [| reflexivity].
    destruct (String.eqb_spec (choice ui df s) c); congruence.
Qed.

Lemma dict_get_fold_choose (ui : UI) (df : DataFrame) (fields : list string)
    (d : dict) (c : string) :
  dict_get (fold_left (choose ui df) fields d) c
  = if String.eqb c skip then dict_get d c
    else match find (fun s => String.eqb (choice ui df s) c) (rev fields) with
         | Some s => Some s
         | None => dict_get d c
         end.
Proof.
  revert d. induction fields as [| s fields IH]; intros d; simpl.
  - destruct (String.eqb c skip); reflexivity.
  - rewrite IH, find_app, dict_get_choose. simpl find.
    destruct (String.eqb c skip); [reflexivity |].
    destruct (find (fun s0 => String.eqb (choice ui df s0) c) (rev fields));
      [reflexivity |].
    destruct (String.eqb (choice ui df s) c); reflexivity.
Qed.

(** C6. The mapping built on the page is keyed by source column: its keys
    are distinct, and the canonical field it gives for a source column is
    the last one, in the order of the canonical fields, for which that
    column was chosen; earlier choices of the same column are
    overwritten. The skip option is never a key. *)
Theorem built_mapping_last_wins (ui : UI) (df : DataFrame) :
  is_dict (build_mapping ui df)
  /\ forall c : string,
       dict_get (build_mapping ui df) c
       = if String.eqb c skip then None
         else find (fun std_col => String.eqb (choice ui df std_col) c)
                   (rev STANDARD_COLUMNS).
Proof.
  split.
  - apply fold_choose_is_dict. constructor.
  - intros c. unfold build_mapping, build_from.
    rewrite dict_get_fold_choose. simpl dict_get.
    destruct (String.eqb c skip); [reflexivity |].
    destruct (find _ (rev STANDARD_COLUMNS)); reflexivity.
Qed.

(** C2, as the code has it. Applying a mapping renames the source columns
    that are keys of the mapping to the canonical names the mapping gives
    them, and keeps every other source column under its own name; no
    column is dropped and no value is touched. *)
Theorem rename_keeps_unmapped (mapping : dict) (df : DataFrame) :
  columns (rename mapping df) = map (renamed mapping) (columns df)
  /\ map snd (cols (rename mapping df)) = map snd (cols df)
  /\ nrows (rename mapping df) = nrows df
  /\ (forall c vs, In (c, vs) (cols df) ->
        In (renamed mapping c, vs) (cols (rename mapping df)))
  /\ (forall c, dict_get mapping c = None -> renamed mapping c = c).
Proof.
  unfold rename, columns, renamed. simpl.
  repeat split.
  - rewrite !map_map. reflexivity.
  - rewrite map_map. reflexivity.
  - intros c vs H. apply in_map_iff. exists (c, vs). auto.
  - intros c H. now rewrite H.
Qed.

(** C2, as stated, fails: with the mapping [{"Q1": "timestamp"}] the
    columns "extra" and "age", which the mapping does not mention, are
    still in the frame, the second under a canonical name; the frame is
    not the one that drops them. *)
Lemma rename_drops_counterexample :
  dict_get [("Q1", "timestamp")] "extra" = None
  /\ dict_get [("Q1", "timestamp")] "age" = None
  /\ columns (rename [("Q1", "timestamp")] answers)
     = ["timestamp"; "extra"; "age"]
  /\ In "age" STANDARD_COLUMNS
  /\ column (rename [("Q1", "timestamp")] answers) "age" = Ok [VStr "old"]
  /\ columns (Spec.apply_dropping [("Q1", "timestamp")] answers)
     = ["timestamp"]
  /\ rename [("Q1", "timestamp")] answers
     <> Spec.apply_dropping [("Q1", "timestamp")] answers.
Proof.
  repeat split; try reflexivity.
  - simpl. tauto.
  - discriminate.
Qed.

Lemma rename_keeps_unmapped_witness :
  In ("extra", [VStr "x"]) (cols answers)
  /\ dict_get [("Q1", "timestamp")] "extra" = None
  /\ In ("extra", [VStr "x"]) (cols (rename [("Q1", "timestamp")] answers))
  /\ In ("timestamp", [VStr "17"])
        (cols (rename [("Q1", "timestamp")] answers)).
Proof.
  destruct (rename_keeps_unmapped [("Q1", "timestamp")] answers)
    as (_ & _ & _ & Hin & Hsame).
  split; [simpl; tauto |]. split; [reflexivity |]. split.
  - rewrite <- (Hsame "extra" eq_refl). apply Hin. simpl. tauto.
  - apply (Hin "Q1" [VStr "17"]). simpl. tauto.
Defined.

(** The same column picked for the age and then for the sex is mapped to
    the sex only. *)
Example picks_twice_last_wins :
  build_mapping picks_twice answers = [("Q1", "sex")].
Proof. vm_compute. reflexivity. Qed.

(** With no saved mapping and the save button pressed, the mapping built
    on the page is written and applied. *)
Example map_google_forms_first_upload :
  map_google_forms picks_twice None answers
  = Ok (rename [("Q1", "sex")] answers, Some (dumps [("Q1", "sex")])).
Proof. vm_compute. reflexivity. Qed.

(** A saved mapping without an item counts as none: the page asks
    again. *)
Example map_google_forms_empty_mapping :
  map_google_forms picks_twice (Some "{}") answers
  = map_google_forms picks_twice None answers.
Proof. vm_compute. reflexivity. Qed.

(* ===================================================================== *)
(** * Chart builder *)
(* ===================================================================== *)

Import Charts.

Lemma lookup_assign_same (cs : list (string * list pyval)) (c : string)
    (vs : list pyval) :
  lookup (assign cs c vs) c = Some vs.
Proof.
  induction cs as [| [l ws] cs IH]; simpl.
  - now rewrite String.eqb_refl.
  - destruct (String.eqb_spec l c) as [E | E]; simpl.
    + subst l. now rewrite String.eqb_refl.
    + destruct (String.eqb_spec l c); [congruence | exact IH].
Qed.

Lemma lookup_assign_other (cs : list (string * list pyval)) (c c' : string)
    (vs : list pyval) :
  c' <> c -> lookup (assign cs c vs) c' = lookup cs c'.
Proof.
  intros Hne. induction cs as [| [l ws] cs IH]; simpl.
  - destruct (String.eqb_spec c c'); [congruence | reflexivity].
  - destruct (String.eqb_spec l c) as [E | E]; simpl.
    + subst l. destruct (String.eqb_spec c c'); [congruence | reflexivity].
    + destruct (String.eqb_spec l c'); [reflexivity | exact IH].
Qed.

Lemma column_set_other (df : DataFrame) (c c' : string) (vs : list pyval) :
  c' <> c -> column (set_column df c vs) c' = column df c'.
Proof.
  intros H. unfold column, set_column. simpl.
  now rewrite lookup_assign_other.
Qed.

Lemma column_set_same (df : DataFrame) (c : string) (vs : list pyval) :
  column (set_column df c vs) c = Ok vs.
Proof.
  unfold column, set_column. simpl. now rewrite lookup_assign_same.
Qed.

(** A field of a row is the value of its column at the row. *)
Lemma get_row (df : DataFrame) (i : nat) (c : string) (d : pyval) :
  get (row df i) c d
  = match lookup (cols df) c with
    | Some vs => nth i vs (VFloat nan)
    | None => d
    end.
Proof.
  unfold row. induction (cols df) as [| [l vs] cs IH]; simpl;
    [reflexivity |].
  destruct (String.eqb l c); [reflexivity | exact IH].
Qed.

Lemma column_lookup (df : DataFrame) (c : string) (vs : list pyval) :
  column df c = Ok vs <-> lookup (cols df) c = Some vs.
Proof.
  unfold column. destruct (lookup (cols df) c); split; intros H;
    inversion H; reflexivity.
Qed.

Lemma has_column_lookup (df : DataFrame) (c : string) :
  has_column df c = true <-> exists vs, lookup (cols df) c = Some vs.
Proof.
  unfold has_column, columns, mem.
  induction (cols df) as [| [l vs] cs IH]; simpl.
  - split; [discriminate | intros [vs H]; discriminate].
  - rewrite (String.eqb_sym c l).
    destruct (String.eqb l c); simpl; [| exact IH].
    split; [intros _; eauto | reflexivity].
Qed.

(** The frame after the scatter part: what it was, with the two helper
    columns set. *)
Lemma breaks_chart_frame (df df' : DataFrame) (fig : chart) :
  breaks_chart df = Ok (fig, df') ->
  exists nums scores,
    df' = set_column (set_column df "break_frequency_numeric" nums)
            "symptom_score" scores.
Proof.
  unfold breaks_chart, bind.
  destruct (column df "break_frequency") as [bf | e]; [| discriminate].
  destruct (traverse break_frequency_numeric bf) as [nums | e];
    [| discriminate].
  rewrite column_set_other by discriminate.
  rewrite !column_set_same. intros H. inversion H. eauto.
Qed.

(** The frame a call leaves: the one it was given, or that one with the
    two helper columns set. *)
Lemma generate_charts_leaves (df : DataFrame) :
  snd (generate_charts df) = df
  \/ exists nums scores,
       snd (generate_charts df)
       = set_column (set_column df "break_frequency_numeric" nums)
           "symptom_score" scores.
Proof.
  unfold generate_charts.
  destruct (fixed_charts df) as [charts | e]; [| left; reflexivity].
  destruct (has_column df "break_frequency"); [| left; reflexivity].
  destruct (breaks_chart df) as [[fig df'] | e] eqn:E; [| left; reflexivity].
  right. apply breaks_chart_frame in E. exact E.
Qed.

(** C8. Chart generation changes the frame at most by setting the two
    helper columns, the numeric break frequency and the symptom count:
    the number of records stays, and every other column, hence every
    other field of every record, is left as it was. *)
Theorem generate_charts_frame (df : DataFrame) (c : string) :
  c <> "break_frequency_numeric" -> c <> "symptom_score" ->
  nrows (snd (generate_charts df)) = nrows df
  /\ column (snd (generate_charts df)) c = column df c
  /\ forall (i : nat) (d : pyval),
       get (row (snd (generate_charts df)) i) c d = get (row df i) c d.
Proof.
  intros H1 H2.
  destruct (generate_charts_leaves df) as [-> | (nums & scores & ->)].
  - auto.
  - split; [reflexivity |].
    assert (Hc : column (set_column
                           (set_column df "break_frequency_numeric" nums)
                           "symptom_score" scores) c = column df c)
      by (rewrite !column_set_other by assumption; reflexivity).
    split; [exact Hc |].
    intros i d. rewrite !get_row.
    unfold column in Hc.
    destruct (lookup (cols (set_column
                (set_column df "break_frequency_numeric" nums)
                "symptom_score" scores)) c);
      destruct (lookup (cols df) c); inversion Hc; reflexivity.
Qed.

Lemma traverse_raise {A B : Type} (f : A -> result B) (l : list A) (x : A)
    (e : exn) :
  In x l -> f x = Raise e -> exists e', traverse f l = Raise e'.
Proof.
  induction l as [| a l IH]; simpl; [tauto |].
  intros [-> | Hin] Hf.
  - rewrite Hf. simpl. eauto.
  - destruct (f a) as [b | e0]; simpl; [| eauto].
    destruct (IH Hin Hf) as [e' ->]. simpl. eauto.
Qed.

Lemma traverse_ok {A B : Type} (f : A -> result B) (l : list A)
    (bs : list B) :
  traverse f l = Ok bs -> Forall2 (fun a b => f a = Ok b) l bs.
Proof.
  revert bs. induction l as [| a l IH]; simpl; intros bs H.
  - inversion H. constructor.
  - destruct (f a) as [b | e] eqn:E; simpl in H; [| discriminate].
    destruct (traverse f l) as [bs' | e]; simpl in H; [| discriminate].
    inversion H. constructor; auto.
Qed.

(** C9. The conversion of the break frequency guards the missing value
    only, which it maps to 0. A value that is present and whose text,
    without "+" and "times" and stripped, is not a base-10 integer
    literal makes [int()] raise ValueError; nothing catches it, so
    chart generation ends with an exception (and leaves the frame as it
    was). *)
Theorem break_frequency_unguarded (df : DataFrame) (vs : list pyval)
    (x : pyval) :
  column df "break_frequency" = Ok vs -> In x vs ->
  isna x = false -> int_of_string (break_text x) = None ->
  break_frequency_numeric (VFloat nan) = Ok 0
  /\ (exists msg, break_frequency_numeric x = Raise (ValueError msg))
  /\ (exists e, fst (generate_charts df) = Raise e)
  /\ snd (generate_charts df) = df.
Proof.
  intros Hcol Hin Hna Hint.
  assert (Hx : exists msg, break_frequency_numeric x = Raise (ValueError msg)).
  { unfold break_frequency_numeric. rewrite Hna, Hint. eauto. }
  split; [reflexivity |]. split; [exact Hx |].
  destruct Hx as [msg Hx].
  destruct (traverse_raise break_frequency_numeric vs x _ Hin Hx)
    as [e' He'].
  unfold generate_charts.
  destruct (fixed_charts df) as [charts | e]; [| simpl; eauto].
  assert (Hhas : has_column df "break_frequency" = true).
  { apply has_column_lookup. exists vs. now apply column_lookup. }
  rewrite Hhas. unfold breaks_chart. rewrite Hcol. simpl bind.
  rewrite He'. simpl. eauto.
Qed.

Lemma forall2_in {A B : Type} (R : A -> B -> Prop) (l : list A)
    (bs : list B) (a : A) :
  Forall2 R l bs -> In a l -> exists b, In b bs /\ R a b.
Proof.
  induction 1 as [| x y l' bs' Hxy HF IH]; simpl; [tauto |].
  intros [-> | Hin]; [eauto |].
  destruct (IH Hin) as (b & Hb & HR). eauto.
Qed.

Lemma text_is_yes_spec (v : pyval) :
  text_is_yes v
  = match v with VStr s => Spec.ci_equal s "yes" | _ => false end.
Proof. destruct v; reflexivity. Qed.

(** The bars: for each symptom column, the number of its values that
    are text equal to "yes" when lowered. *)
Lemma fixed_charts_bars (df : DataFrame) (charts : list (string * chart)) :
  fixed_charts df = Ok charts ->
  exists bars slices,
    charts = [("symptoms", Bar "Symptoms Frequency" "Count" bars);
              ("devices", Pie "Device Usage" slices)]
    /\ forall col, In col symptom_cols ->
         exists vs, column df col = Ok vs
                    /\ In (col, Z.of_nat (List.length (filter text_is_yes vs)))
                          bars.
Proof.
  unfold fixed_charts, bind.
  destruct (traverse _ symptom_cols) as [bars | e] eqn:E; [| discriminate].
  destruct (column df "devices") as [devices | e]; [| discriminate].
  intros H. inversion H. exists bars, (value_counts devices).
  split; [reflexivity |]. intros col Hcol.
  apply traverse_ok in E.
  destruct (forall2_in _ _ _ col E Hcol) as ([c n] & Hin & Hf).
  unfold yes_count, bind in Hf.
  destruct (column df col) as [vs | e] eqn:Ec; [| discriminate].
  destruct (str_accessor vs) as [ws | e] eqn:Es; [| discriminate].
  assert (ws = vs).
  { unfold str_accessor in Es. destruct vs; [now inversion Es |].
    destruct (existsb is_text (p :: vs)); now inversion Es. }
  subst ws. inversion Hf; subst. eauto.
Qed.

(** C10. The charts count a symptom only where the value is "yes"
    (whatever its case): the bars count, per symptom column, the values
    whose lowered text is "yes", and the scatter plot has, per record,
    the number of symptom fields answered "yes". A value that reads
    "sometimes" when lowered counts for the risk score and in neither
    chart. *)
Theorem charts_count_yes_only (df : DataFrame)
    (charts : list (string * chart)) :
  fst (generate_charts df) = Ok charts ->
  (exists bars, In ("symptoms", Bar "Symptoms Frequency" "Count" bars) charts
     /\ forall col, In col symptom_cols ->
          exists vs, column df col = Ok vs
            /\ In (col, Z.of_nat (List.length (filter text_is_yes vs))) bars)
  /\ (has_column df "break_frequency" = true ->
      exists title xlabel ylabel xs,
        In ("breaks",
            Scatter title xlabel ylabel xs
              (map (fun r => VInt (symptom_score r))
                   (rows (set_column df "break_frequency_numeric" xs))))
           charts)
  /\ (forall v, lower (py_str v) = "sometimes" ->
        text_is_yes v = false
        /\ forall r s, get r s (VStr "No") = v ->
             has_symptom r s = true /\ answered_yes r s = false).
Proof.
  intros H. unfold generate_charts in H.
  destruct (fixed_charts df) as [fixed | e] eqn:Ef; [| discriminate].
  destruct (fixed_charts_bars df fixed Ef) as (bars & slices & -> & Hbars).
  split; [| split].
  - exists bars. split; [| exact Hbars].
    destruct (has_column df "break_frequency").
    + destruct (breaks_chart df) as [[fig df'] |]; [| discriminate].
      inversion H. simpl. auto.
    + inversion H. simpl. auto.
  - intros Hhas. rewrite Hhas in H.
    destruct (breaks_chart df) as [[fig df'] |] eqn:Eb; [| discriminate].
    inversion H. subst charts. clear H.
    unfold breaks_chart, bind in Eb.
    destruct (column df "break_frequency") as [bf | e]; [| discriminate].
    destruct (traverse break_frequency_numeric bf) as [nums | e];
      [| discriminate].
    rewrite column_set_other in Eb by discriminate.
    rewrite !column_set_same in Eb. inversion Eb as [[Hfig Hdf]].
    do 4 eexists. simpl. right. right. left. reflexivity.
  - intros v Hv. split.
    + destruct v as [s | z | f | b]; simpl in *; try reflexivity.
      rewrite Hv. reflexivity.
    + intros r s Hget. unfold has_symptom, answered_yes.
      rewrite Hget, Hv. split; reflexivity.
Qed.

Lemma generate_charts_frame_witness :
  "eye_strain" <> "break_frequency_numeric"
  /\ "eye_strain" <> "symptom_score"
  /\ columns (snd (generate_charts survey))
     = (columns survey ++ ["break_frequency_numeric"; "symptom_score"])%list
  /\ column (snd (generate_charts survey)) "eye_strain"
     = column survey "eye_strain".
Proof.
  split; [discriminate |]. split; [discriminate |].
  split; [vm_compute; reflexivity |].
  apply (generate_charts_frame survey "eye_strain"); discriminate.
Defined.

Lemma break_frequency_unguarded_witness :
  column survey_with_range "break_frequency"
  = Ok [VStr "2-3 times"; VFloat nan]
  /\ break_text (VStr "2-3 times") = "2-3"
  /\ int_of_string "2-3" = None
  /\ (exists e, fst (generate_charts survey_with_range) = Raise e).
Proof.
  split; [vm_compute; reflexivity |]. split; [vm_compute; reflexivity |].
  split; [vm_compute; reflexivity |].
  apply (break_frequency_unguarded survey_with_range
           [VStr "2-3 times"; VFloat nan] (VStr "2-3 times")).
  - vm_compute. reflexivity.
  - simpl. tauto.
  - reflexivity.
  - vm_compute. reflexivity.
Defined.

(** A numeric column with a gap is a float column: its values read "2.0",
    which [int()] refuses. A column of integers converts. *)
Example break_frequency_of_numbers :
  break_frequency_numeric (VFloat (of_Z 2))
  = Raise (ValueError "invalid literal for int() with base 10")
  /\ break_frequency_numeric (VInt 2) = Ok 2
  /\ break_frequency_numeric (VStr "5+ times") = Ok 5.
Proof. vm_compute. repeat split; reflexivity. Qed.

Lemma charts_count_yes_only_witness :
  fst (generate_charts survey) = Ok survey_charts
  /\ has_symptom (row survey 1) "eye_strain" = true
  /\ answered_yes (row survey 1) "eye_strain" = false
  /\ text_is_yes (VStr "Sometimes") = false.
Proof.
  assert (H : fst (generate_charts survey) = Ok survey_charts)
    by (vm_compute; reflexivity).
  split; [exact H |].
  destruct (charts_count_yes_only survey survey_charts H) as (_ & _ & Hs).
  destruct (Hs (VStr "Sometimes") eq_refl) as [Ht Hr].
  destruct (Hr (row survey 1) "eye_strain" eq_refl) as [H1 H2].
  auto.
Defined.

(* ===================================================================== *)
(** * Report generator *)
(* ===================================================================== *)

Import Report.

Section ReportFacts.

Variable series_mean : list float -> float.

(** Text that is not a number in an hours column makes the mean fail. *)
Lemma mean_hours_not_numeric (df : DataFrame) (c : string)
    (vs : list pyval) (v : pyval) :
  column df c = Ok vs -> In v vs -> py_float v = None ->
  exists e, mean_hours series_mean df c = Raise e.
Proof.
  intros Hc Hin Hv. unfold mean_hours. rewrite Hc. simpl bind.
  unfold astype_float.
  destruct (traverse_raise
              (fun v => match py_float v with
                        | Some f => Ok f
                        | None => Raise (ValueError
                                    "could not convert string to float")
                        end) vs v
              (ValueError "could not convert string to float") Hin)
    as [e ->]; [now rewrite Hv | simpl; eauto].
Qed.

Lemma averages_raise (df : DataFrame) :
  (exists e, mean_hours series_mean df "hours_academic" = Raise e)
  \/ (exists e, mean_hours series_mean df "hours_non_academic" = Raise e) ->
  exists e, averages series_mean df = Raise e.
Proof.
  unfold averages. intros [[e ->] | [e He]]; simpl; [eauto |].
  destruct (mean_hours series_mean df "hours_academic"); simpl; [| eauto].
  rewrite He. simpl. eauto.
Qed.

Lemma risk_lines_length (df : DataFrame) :
  List.length (risk_lines df) = nrows df.
Proof. unfold risk_lines. now rewrite length_map, length_seq. Qed.

Lemma risk_lines_nth (df : DataFrame) (i : nat) :
  (i < nrows df)%nat ->
  nth i (risk_lines df) AddPage = risk_line i (row df i).
Proof.
  intros H. unfold risk_lines.
  rewrite (nth_indep _ AddPage (risk_line 0 (row df 0)))
    by (now rewrite length_map, length_seq).
  rewrite (map_nth (fun i => risk_line i (row df i)) (seq 0 (nrows df)) 0%nat).
  now rewrite seq_nth.
Qed.

(** C7. When the mean of an hours field cannot be computed, the summary
    of the report is the one line "Average hours not available", and the
    report is completed all the same: the title and the headings, one
    risk line per respondent, of the form
    [identifier: Score=<score>, Risk=<level>], then for each chart, in
    order, a new page with its heading and its image, then the file is
    written. *)
Theorem report_without_averages (df : DataFrame)
    (charts : list (string * chart)) :
  (exists e, mean_hours series_mean df "hours_academic" = Raise e)
  \/ (exists e, mean_hours series_mean df "hours_non_academic" = Raise e) ->
  generate_pdf series_mean df charts
  = ([AddPage; SetFont "Arial" "B" 16;
      Cell 0 10 "Computer Vision Syndrome Survey Report" "C"; Ln 10;
      SetFont "Arial" "B" 12; Cell 0 10 "Summary Statistics:" "";
      SetFont "Arial" "" 11]
     ++ [Cell 0 8 "Average hours not available" ""]
     ++ [Ln 5; SetFont "Arial" "B" 12;
         Cell 0 10 "Student Risk Summary:" ""; SetFont "Arial" "" 11]
     ++ risk_lines df
     ++ flat_map
          (fun kf : string * chart =>
             [AddPage; SetFont "Arial" "B" 12;
              Cell 0 10 (capitalize (fst kf) ++ " Chart") "";
              Image (snd kf) 15 180]) charts
     ++ [Output "CVS_Report.pdf"])%list
  /\ List.length (risk_lines df) = nrows df
  /\ forall i : nat, (i < nrows df)%nat ->
       nth i (risk_lines df) AddPage
       = Cell 0 8
           (py_str (get (row df i) "timestamp"
                      (VStr ("Row " ++ str_of_int (Z.of_nat i + 1))))
            ++ ": Score=" ++ num_str (fst (calculate_risk (row df i)))
            ++ ", Risk=" ++ level_name (snd (calculate_risk (row df i)))) "".
Proof.
  intros H. destruct (averages_raise df H) as [e He].
  split; [| split].
  - unfold generate_pdf, summary. rewrite He. reflexivity.
  - apply risk_lines_length.
  - intros i Hi. rewrite (risk_lines_nth df i Hi). unfold risk_line.
    destruct (calculate_risk (row df i)) as [score risk]. reflexivity.
Qed.

End ReportFacts.

Lemma report_without_averages_witness :
  mean_hours (fun _ => nan) survey "hours_academic"
  = Raise (ValueError "could not convert string to float")
  /\ generate_pdf (fun _ => nan) survey survey_charts
     = [AddPage; SetFont "Arial" "B" 16;
        Cell 0 10 "Computer Vision Syndrome Survey Report" "C"; Ln 10;
        SetFont "Arial" "B" 12; Cell 0 10 "Summary Statistics:" "";
        SetFont "Arial" "" 11;
        Cell 0 8 "Average hours not available" "";
        Ln 5; SetFont "Arial" "B" 12;
        Cell 0 10 "Student Risk Summary:" ""; SetFont "Arial" "" 11;
        Cell 0 8 "t1: Score=50.0, Risk=Medium" "";
        Cell 0 8 "t2: Score=30, Risk=Medium" "";
        AddPage; SetFont "Arial" "B" 12; Cell 0 10 "Symptoms Chart" "";
        Image
          (Bar "Symptoms Frequency" "Count"
             [("eye_strain", 1); ("blurry_vision", 1); ("dry_eyes", 0);
              ("headaches", 0); ("neck_pain", 1)]) 15 180;
        AddPage; SetFont "Arial" "B" 12; Cell 0 10 "Devices Chart" "";
        Image
          (Pie "Device Usage" [(VStr "Laptop", 1); (VStr "Phone", 1)])
          15 180;
        AddPage; SetFont "Arial" "B" 12; Cell 0 10 "Breaks Chart" "";
        Image
          (Scatter "Break Frequency vs Symptoms"
             "Break Frequency (per hour)" "Number of Symptoms"
             [VInt 5; VInt 0] [VInt 1; VInt 2]) 15 180;
        Output "CVS_Report.pdf"]
  /\ nth 1 (risk_lines survey) AddPage
     = Cell 0 8 "t2: Score=30, Risk=Medium" "".
Proof.
  assert (H : mean_hours (fun _ => nan) survey "hours_academic"
              = Raise (ValueError "could not convert string to float"))
    by (vm_compute; reflexivity).
  split; [exact H |].
  destruct (report_without_averages (fun _ => nan) survey survey_charts)
    as (Hpdf & _ & Hline).
  - left. eexists. exact H.
  - split.
    + rewrite Hpdf. vm_compute. reflexivity.
    + rewrite (Hline 1%nat) by (simpl; lia). vm_compute. reflexivity.
Defined.

(** With numeric hours the summary has the two averages. *)
Example report_with_averages :
  summary (fun _ => of_Z 3)
    {| nrows := 1;
       cols := [("hours_academic", [VStr "2.5"]);
                ("hours_non_academic", [VInt 1])] |}
  = [Cell 0 8 "Average Academic Hours: 3.00" "";
     Cell 0 8 "Average Non-Academic Hours: 3.00" ""].
Proof. vm_compute. reflexivity. Qed.

(* ===================================================================== *)
(** * Column mapper: what a built mapping holds and how it is reused *)
(* ===================================================================== *)

Lemma dict_get_in (d : dict) (k v : string) :
  is_dict d -> In (k, v) d -> dict_get d k = Some v.
Proof.
  unfold is_dict. induction d as [| [k0 v0] d IH]; simpl; [tauto |].
  intros Hnd Hin. inversion Hnd as [| ? ? Hk0 Hnd']; subst.
  destruct Hin as [E | Hin].
  - inversion E; subst. now rewrite String.eqb_refl.
  - destruct (String.eqb_spec k0 k) as [-> | _]; [| now apply IH].
    exfalso. apply Hk0. apply in_map_iff. exists (k, v). auto.
Qed.

(** An item of the built mapping records a choice made on the page. *)
Lemma built_item_from (ui : UI) (df : DataFrame) (fields : list string)
    (k v : string) :
  In (k, v) (build_from ui df fields) ->
  In v fields /\ choice ui df v = k /\ k <> skip.
Proof.
  intros Hin.
  assert (Hd : is_dict (build_from ui df fields))
    by (apply fold_choose_is_dict; constructor).
  pose proof (dict_get_in _ _ _ Hd Hin) as Hg.
  unfold build_from in Hg. rewrite dict_get_fold_choose in Hg.
  cbn [dict_get] in Hg.
  destruct (String.eqb_spec k skip) as [E | E]; [discriminate |].
  destruct (find (fun s => String.eqb (choice ui df s) k) (rev fields))
    as [s |] eqn:Ef; [| discriminate].
  inversion Hg; subst s. apply find_some in Ef. destruct Ef as [Hin' Heq].
  apply String.eqb_eq in Heq. apply in_rev in Hin'. auto.
Qed.

Lemma built_item_is_choice (ui : UI) (df : DataFrame) (k v : string) :
  In (k, v) (build_mapping ui df) ->
  In v STANDARD_COLUMNS /\ choice ui df v = k /\ k <> skip.
Proof. apply built_item_from. Qed.

Lemma nodup_values (d : dict) :
  (forall k1 k2 v, In (k1, v) d -> In (k2, v) d -> k1 = k2) ->
  NoDup (keys d) -> NoDup (map snd d).
Proof.
  unfold keys. induction d as [| [k v] d IH]; simpl; intros Hinj Hnd;
    [constructor |].
  inversion Hnd as [| ? ? Hk Hnd']; subst. constructor.
  - intros Hv. apply in_map_iff in Hv. destruct Hv as ([k' v'] & Ev & Hin).
    simpl in Ev. subst v'. apply Hk.
    assert (k = k') by (apply (Hinj k k' v); auto). subst k'.
    apply in_map_iff. exists (k, v). auto.
  - apply IH; [| exact Hnd']. intros k1 k2 v0 H1 H2.
    apply (Hinj k1 k2 v0); auto.
Qed.

(** X1. The mapping built on the page never sends two source columns to
    one canonical field: its values are distinct canonical fields, and
    each item is the choice the operator made for that field. *)
Theorem built_mapping_injective (ui : UI) (df : DataFrame) :
  NoDup (map snd (build_mapping ui df))
  /\ forall k v, In (k, v) (build_mapping ui df) ->
       In v STANDARD_COLUMNS /\ choice ui df v = k /\ k <> skip.
Proof.
  split; [| apply built_item_is_choice].
  apply nodup_values; [| apply fold_choose_is_dict; constructor].
  intros k1 k2 v H1 H2.
  apply built_item_is_choice in H1. apply built_item_is_choice in H2.
  destruct H1 as (_ & <- & _). destruct H2 as (_ & <- & _). reflexivity.
Qed.

Lemma built_mapping_injective_witness :
  build_mapping picks_twice answers = [("Q1", "sex")]
  /\ In "sex" STANDARD_COLUMNS
  /\ choice picks_twice answers "sex" = "Q1".
Proof.
  split; [vm_compute; reflexivity |].
  destruct (proj2 (built_mapping_injective picks_twice answers) "Q1" "sex")
    as (H1 & H2 & _); [vm_compute; tauto | auto].
Defined.

Lemma key_has_item (d : dict) (k : string) :
  In k (keys d) -> exists v, In (k, v) d.
Proof.
  unfold keys. intros H. apply in_map_iff in H.
  destruct H as ([k' v] & E & Hin). simpl in E. subst k'. eauto.
Qed.

(** X2. When the select boxes answer with one of the options they offer,
    every key of the built mapping is a column of the uploaded frame. *)
Theorem built_mapping_keys_are_columns (ui : UI) (df : DataFrame) :
  (forall std_col, In (choice ui df std_col) (skip :: columns df)) ->
  forall k, In k (keys (build_mapping ui df)) -> In k (columns df).
Proof.
  intros Hopt k Hk. apply key_has_item in Hk. destruct Hk as [v Hin].
  apply built_item_is_choice in Hin. destruct Hin as (_ & Hc & Hs).
  specialize (Hopt v). rewrite Hc in Hopt.
  destruct Hopt as [E | Hin]; [congruence | exact Hin].
Qed.

Lemma picks_twice_offers (std_col : string) :
  In (choice picks_twice answers std_col) (skip :: columns answers).
Proof.
  unfold choice, picks_twice. cbn [selectbox].
  destruct (String.eqb _ "Select column for: age");
    [simpl; tauto |].
  destruct (String.eqb _ "Select column for: sex"); simpl; tauto.
Qed.

Lemma built_mapping_keys_are_columns_witness :
  In "Q1" (keys (build_mapping picks_twice answers))
  /\ In "Q1" (columns answers).
Proof.
  assert (H : In "Q1" (keys (build_mapping picks_twice answers)))
    by (vm_compute; tauto).
  split; [exact H |].
  apply (built_mapping_keys_are_columns picks_twice answers
           picks_twice_offers "Q1" H).
Defined.

(** A mapping none of whose keys is a column changes nothing. *)
Lemma rename_no_key (mapping : dict) (df : DataFrame) :
  (forall c, In c (columns df) -> dict_get mapping c = None) ->
  rename mapping df = df.
Proof.
  destruct df as [n cs]. unfold rename, columns. simpl. intros H. f_equal.
  induction cs as [| [l vs] cs IH]; simpl; [reflexivity |].
  rewrite IH by (intros c Hc; apply H; simpl; auto).
  unfold renamed. rewrite (H l) by (simpl; auto). reflexivity.
Qed.

(** X3. A saved mapping made for another form is applied without any
    complaint and changes nothing: when no column of the frame is a key
    of the mapping, the frame comes back as it was. *)
Theorem stale_mapping_changes_nothing (ui : UI) (kv : string * string)
    (m : dict) (df : DataFrame) :
  is_dict (kv :: m) ->
  (forall c, In c (columns df) -> dict_get (kv :: m) c = None) ->
  map_google_forms ui (save_mapping (kv :: m) None) df
  = Ok (df, save_mapping (kv :: m) None).
Proof.
  intros Hd Hk. unfold map_google_forms, load_mapping, save_mapping.
  rewrite (loads_dumps_dict _ Hd). rewrite (rename_no_key _ _ Hk).
  reflexivity.
Qed.

Lemma stale_mapping_changes_nothing_witness :
  map_google_forms picks_twice (save_mapping forms_mapping None) answers
  = Ok (answers, save_mapping forms_mapping None).
Proof.
  apply (stale_mapping_changes_nothing picks_twice
           ("Timestamp", "timestamp")
           [("How old are you?", "age"); ("Hours (school)", "hours_academic")]
           answers).
  - exact forms_mapping_is_dict.
  - intros c Hc. simpl in Hc.
    destruct Hc as [<- | [<- | [<- | []]]]; reflexivity.
Defined.

(** X4. A mapping saved on one upload is the one every later upload uses:
    when the operator picks at least one column and presses the save
    button, the mapping is written, and a later call, whatever is picked
    on the page then, applies that mapping and leaves the file alone. *)
Theorem saved_mapping_is_reused (ui ui' : UI) (df df' : DataFrame) :
  button ui "Save Mapping" = true ->
  build_mapping ui df <> [] ->
  map_google_forms ui None df
  = Ok (rename (build_mapping ui df) df,
        save_mapping (build_mapping ui df) None)
  /\ map_google_forms ui' (save_mapping (build_mapping ui df) None) df'
     = Ok (rename (build_mapping ui df) df',
           save_mapping (build_mapping ui df) None).
Proof.
  intros Hb Hne. split.
  - unfold map_google_forms. simpl load_mapping. cbv zeta. now rewrite Hb.
  - assert (Hd : is_dict (build_mapping ui df))
      by (apply fold_choose_is_dict; constructor).
    unfold map_google_forms, load_mapping, save_mapping.
    rewrite (loads_dumps_dict _ Hd).
    destruct (build_mapping ui df) as [| kv m]; [congruence | reflexivity].
Qed.

Lemma saved_mapping_is_reused_witness :
  map_google_forms {| selectbox := fun _ _ => skip; button := fun _ => false |}
    (save_mapping (build_mapping picks_twice answers) None) survey
  = Ok (rename [("Q1", "sex")] survey,
        save_mapping (build_mapping picks_twice answers) None).
Proof.
  destruct (saved_mapping_is_reused picks_twice
              {| selectbox := fun _ _ => skip; button := fun _ => false |}
              answers survey) as [_ H].
  - reflexivity.
  - vm_compute. discriminate.
  - exact H.
Defined.

Lemma fold_choose_skip (ui : UI) (df : DataFrame) (fields : list string)
    (d : dict) :
  (forall std_col, choice ui df std_col = skip) ->
  fold_left (choose ui df) fields d = d.
Proof.
  intros Hs. revert d. induction fields as [| s fields IH]; intros d; simpl;
    [reflexivity |].
  rewrite IH. unfold choose. rewrite Hs, String.eqb_refl. reflexivity.
Qed.

(** X5. Skipping every field and saving writes the empty mapping and
    returns the frame untouched; as an empty mapping counts as no
    mapping, the next upload does not use the file but builds a mapping
    on the page again. *)
Theorem skipping_every_field (ui ui' : UI) (df df' : DataFrame) :
  (forall std_col, choice ui df std_col = skip) ->
  button ui "Save Mapping" = true ->
  map_google_forms ui None df = Ok (df, Some "{}")
  /\ map_google_forms ui' (Some "{}") df'
     = if button ui' "Save Mapping"
       then Ok (rename (build_mapping ui' df') df',
                save_mapping (build_mapping ui' df') (Some "{}"))
       else Ok (df', Some "{}").
Proof.
  intros Hs Hb. split.
  - unfold map_google_forms. simpl load_mapping. cbv zeta. rewrite Hb.
    unfold build_mapping, build_from. rewrite (fold_choose_skip _ _ _ _ Hs).
    rewrite rename_no_key by reflexivity. reflexivity.
  - unfold map_google_forms.
    change (load_mapping (Some "{}")) with (@Ok (option dict) (Some [])).
    cbv zeta. reflexivity.
Qed.

Lemma skipping_every_field_witness :
  map_google_forms {| selectbox := fun _ _ => skip; button := fun _ => true |}
    None answers = Ok (answers, Some "{}").
Proof.
  apply (skipping_every_field
           {| selectbox := fun _ _ => skip; button := fun _ => true |}
           picks_twice answers answers); reflexivity.
Defined.

(* ===================================================================== *)
(** * Risk scorer: what it reads and what a NaN does *)
(* ===================================================================== *)

Lemma add_nan_l (y : float) : add nan y = nan.
Proof. reflexivity. Qed.

Lemma add_nan_r (x : float) : add x nan = nan.
Proof. destruct x; reflexivity. Qed.

(** X6. A NaN in either hours field, which is what the text "nan" and an
    empty cell of a numeric CSV column convert to, makes the score NaN
    and the level High, whatever the other field and the symptoms are:
    both comparisons of the tiers are false on NaN. *)
Theorem nan_hours_is_high (row : Series) (y : float) :
  (py_float (get row "hours_academic" (VInt 0)) = Some nan
   /\ py_float (get row "hours_non_academic" (VInt 0)) = Some y)
  \/ (py_float (get row "hours_academic" (VInt 0)) = Some y
      /\ py_float (get row "hours_non_academic" (VInt 0)) = Some nan) ->
  calculate_risk row = (NFloat nan, High).
Proof.
  intros H.
  assert (Hh : hours row = NFloat nan).
  { unfold hours. destruct H as [[-> ->] | [-> ->]];
      [now rewrite add_nan_l | now rewrite add_nan_r]. }
  unfold calculate_risk. cbv zeta. rewrite Hh.
  cbn [py_mul to_float]. change (mul nan (of_Z 10)) with nan.
  unfold py_min. cbn [py_lt to_float]. rewrite of_Z_50.
  change (ltb (S754_finite false 7036874417766400 (-47)) nan) with false.
  cbn [py_add to_float]. rewrite of_Z_0.
  change (add (S754_zero false) nan) with nan. rewrite add_nan_l.
  cbn [py_lt to_float]. rewrite of_Z_30, of_Z_60. reflexivity.
Qed.

Lemma nan_hours_is_high_witness :
  calculate_risk
    [("hours_academic", VFloat nan); ("hours_non_academic", VInt 1);
     ("eye_strain", VStr "No"); ("blurry_vision", VStr "No");
     ("dry_eyes", VStr "No"); ("headaches", VStr "No");
     ("neck_pain", VStr "No")]
  = (NFloat nan, High).
Proof.
  apply (nan_hours_is_high _ (of_Z 1)). left. split; reflexivity.
Defined.

Lemma filter_ext_in {A : Type} (f g : A -> bool) (l : list A) :
  (forall x, In x l -> f x = g x) -> filter f l = filter g l.
Proof.
  induction l as [| a l IH]; simpl; intros H; [reflexivity |].
  rewrite (H a) by auto. rewrite IH by auto. reflexivity.
Qed.

Lemma hours_ext (row1 row2 : Series) :
  (forall k d, In k ["hours_academic"; "hours_non_academic"] ->
     get row1 k d = get row2 k d) ->
  hours row1 = hours row2.
Proof.
  intros H. unfold hours.
  rewrite !(H _ (VInt 0)) by (simpl; tauto). reflexivity.
Qed.

Lemma symptom_count_ext (row1 row2 : Series) :
  (forall k d, In k symptoms -> get row1 k d = get row2 k d) ->
  symptom_count row1 = symptom_count row2.
Proof.
  intros H. unfold symptom_count. do 2 f_equal. apply filter_ext_in.
  intros s Hs. unfold has_symptom. rewrite (H s) by exact Hs. reflexivity.
Qed.

(** X7. The scorer reads the two hours fields and the five symptom fields
    and nothing else: two records that agree on these seven fields get
    the same score and level. *)
Theorem calculate_risk_reads_seven_fields (row1 row2 : Series) :
  (forall k d, In k ("hours_academic" :: "hours_non_academic" :: symptoms) ->
     get row1 k d = get row2 k d) ->
  calculate_risk row1 = calculate_risk row2.
Proof.
  intros H. unfold calculate_risk.
  rewrite (hours_ext row1 row2), (symptom_count_ext row1 row2);
    [reflexivity | |]; intros k d Hk; apply H; simpl in *; tauto.
Qed.

Lemma calculate_risk_reads_seven_fields_witness :
  calculate_risk (("age", VStr "15") :: plain_row ++ [("sex", VStr "F")])%list
  = calculate_risk plain_row.
Proof.
  apply calculate_risk_reads_seven_fields.
  intros k d Hk. simpl in Hk.
  destruct Hk as [<- | [<- | [<- | [<- | [<- | [<- | [<- | []]]]]]]];
    reflexivity.
Defined.

Lemma filter_length_mono {A : Type} (f g : A -> bool) (l : list A) :
  (forall x, f x = true -> g x = true) ->
  (List.length (filter f l) <= List.length (filter g l))%nat.
Proof.
  intros H. induction l as [| a l IH]; simpl; [lia |].
  destruct (f a) eqn:Ef.
  - rewrite (H a Ef). simpl. lia.
  - destruct (g a); simpl; lia.
Qed.

(** X8. The number of symptoms the scatter plot shows for a record is
    never more than the number the scorer counts for it, and neither
    exceeds five: an answer that counts for the plot counts for the
    score. *)
Theorem chart_symptoms_below_scored (r : Series) :
  0 <= symptom_score r <= symptom_count r /\ symptom_count r <= 5.
Proof.
  pose proof (symptom_count_range r) as Hr.
  unfold symptom_score, symptom_count in *.
  change symptom_cols with symptoms.
  pose proof (filter_length_mono (answered_yes r) (has_symptom r) symptoms)
    as Hm.
  assert (Himp : forall s, answered_yes r s = true -> has_symptom r s = true).
  { intros s Hs. unfold answered_yes in Hs. apply String.eqb_eq in Hs.
    unfold has_symptom. rewrite Hs. reflexivity. }
  specialize (Hm Himp). lia.
Qed.

(* ===================================================================== *)
(** * Text of numbers: [str], [replace], [strip] and [int] *)
(* ===================================================================== *)

Import Reads.

Lemma has_char_app (c : ascii) (a b : string) :
  has_char c (a ++ b) = has_char c a || has_char c b.
Proof.
  induction a as [| x a IH]; simpl; [reflexivity |].
  now rewrite IH, orb_assoc.
Qed.

Lemma all_chars_app (p : ascii -> bool) (a b : string) :
  all_chars p (a ++ b) = all_chars p a && all_chars p b.
Proof.
  induction a as [| x a IH]; simpl; [reflexivity |].
  now rewrite IH, andb_assoc.
Qed.

Lemma all_chars_impl (p q : ascii -> bool) (s : string) :
  (forall c, p c = true -> q c = true) ->
  all_chars p s = true -> all_chars q s = true.
Proof.
  intros H. induction s as [| x s IH]; simpl; [reflexivity |].
  intros Hs. apply andb_prop in Hs. destruct Hs as [Hx Hs].
  rewrite (H x Hx), (IH Hs). reflexivity.
Qed.

Lemma all_chars_has (p : ascii -> bool) (s : string) (c : ascii) :
  all_chars p s = true -> p c = false -> has_char c s = false.
Proof.
  intros Hs Hc. induction s as [| x s IH]; simpl; [reflexivity |].
  simpl in Hs. apply andb_prop in Hs. destruct Hs as [Hx Hs].
  rewrite (IH Hs). destruct (Ascii.eqb_spec x c); [congruence | reflexivity].
Qed.

Lemma all_chars_substring (p : ascii -> bool) (s : string) (a n : nat) :
  all_chars p s = true -> all_chars p (substring a n s) = true.
Proof.
  revert a n. induction s as [| x s IH]; intros a n Hs.
  - destruct a, n; reflexivity.
  - simpl in Hs. apply andb_prop in Hs. destruct Hs as [Hx Hs].
    destruct a as [| a]; [destruct n as [| n] |]; simpl;
      [reflexivity | rewrite Hx; now apply IH | now apply IH].
Qed.

Lemma string_length_app (a b : string) :
  String.length (a ++ b) = (String.length a + String.length b)%nat.
Proof. induction a as [| x a IH]; simpl; congruence. Qed.

(** ** The digits of an integer *)

Lemma chr_digit (r : Z) :
  0 <= r < 10 ->
  is_digit (chr (48 + r)) = true /\ digit_value (chr (48 + r)) = r.
Proof.
  intros H.
  assert (E : r = 0 \/ r = 1 \/ r = 2 \/ r = 3 \/ r = 4 \/ r = 5 \/ r = 6
              \/ r = 7 \/ r = 8 \/ r = 9) by lia.
  repeat (destruct E as [-> | E]; [split; reflexivity |]).
  subst r. split; reflexivity.
Qed.

Lemma digits_of_pos_fuel_chars (fuel : nat) (n : Z) (acc : string) :
  all_chars is_digit acc = true ->
  all_chars is_digit (digits_of_pos_fuel fuel n acc) = true.
Proof.
  revert n acc. induction fuel as [| fuel IH]; intros n acc Hacc;
    [exact Hacc |].
  cbn [digits_of_pos_fuel].
  assert (Hd : all_chars is_digit (String (chr (48 + n mod 10)) acc) = true).
  { cbn [all_chars]. rewrite Hacc.
    destruct (chr_digit (n mod 10)) as [-> _];
      [apply Z.mod_pos_bound; lia | reflexivity]. }
  destruct (n / 10 =? 0); [exact Hd | now apply IH].
Qed.

Lemma digits_chars (n : Z) : all_chars is_digit (digits_of_nonneg n) = true.
Proof. now apply digits_of_pos_fuel_chars. Qed.

(** The digits written for [n] read back as [n], whatever follows. *)
Lemma digits_of_pos_fuel_spec (fuel : nat) (n : Z) (acc : string) :
  fuel <> 0%nat -> 0 <= n < 10 ^ Z.of_nat fuel ->
  exists D,
    digits_of_pos_fuel fuel n acc = D ++ acc
    /\ D <> ""
    /\ forall rest a c,
         take_digits (D ++ rest) a c
         = take_digits rest (a * 10 ^ Z.of_nat (String.length D) + n)
             (c + Z.of_nat (String.length D)).
Proof.
  revert n acc. induction fuel as [| fuel IH]; intros n acc Hf Hn;
    [congruence |].
  - cbn [digits_of_pos_fuel].
    destruct (chr_digit (n mod 10)) as [Hdig Hval];
      [apply Z.mod_pos_bound; lia |].
    pose proof (Z.div_mod n 10 ltac:(lia)) as Hdm.
    destruct (Z.eqb_spec (n / 10) 0) as [E | E].
    + exists (String (chr (48 + n mod 10)) "").
      split; [reflexivity |]. split; [discriminate |].
      intros rest a c. cbn [append take_digits String.length].
      rewrite Hdig, Hval. change (Z.of_nat 1) with 1. rewrite Z.pow_1_r.
      f_equal; lia.
    + assert (Hq : 0 <= n / 10 < 10 ^ Z.of_nat fuel).
      { split; [apply Z.div_pos; lia |].
        apply Z.div_lt_upper_bound; [lia |].
        rewrite Nat2Z.inj_succ, Z.pow_succ_r in Hn by lia. lia. }
      assert (Hf' : fuel <> 0%nat).
      { intros ->. change (Z.of_nat 1) with 1 in Hn. lia. }
      destruct (IH (n / 10) (String (chr (48 + n mod 10)) acc) Hf' Hq)
        as [D [HD [Hne Htd]]].
      exists (D ++ String (chr (48 + n mod 10)) "").
      split; [| split].
      * rewrite HD, append_assoc. reflexivity.
      * destruct D; [congruence | discriminate].
      * intros rest a c. rewrite append_assoc, Htd.
        cbn [append take_digits]. rewrite Hdig, Hval.
        rewrite string_length_app. cbn [String.length].
        rewrite Nat2Z.inj_add, Z.pow_add_r by lia.
        change (Z.of_nat 1) with 1. rewrite Z.pow_1_r.
        f_equal; lia.
Qed.

Lemma digits_of_nonneg_spec (n : Z) :
  0 <= n ->
  digits_of_nonneg n <> ""
  /\ forall rest a c,
       take_digits (digits_of_nonneg n ++ rest) a c
       = take_digits rest
           (a * 10 ^ Z.of_nat (String.length (digits_of_nonneg n)) + n)
           (c + Z.of_nat (String.length (digits_of_nonneg n))).
Proof.
  intros Hn. unfold digits_of_nonneg.
  destruct (digits_of_pos_fuel_spec (S (Z.to_nat (Z.log2 n))) n "")
    as [D [HD [Hne Htd]]].
  - discriminate.
  - split; [exact Hn |].
    rewrite Nat2Z.inj_succ, Z2Nat.id by apply Z.log2_nonneg.
    destruct (Z.eq_dec n 0) as [-> | Hz]; [reflexivity |].
    destruct (Z.log2_spec n ltac:(lia)) as [_ Hlt].
    apply Z.lt_le_trans with (1 := Hlt).
    apply Z.pow_le_mono_l. lia.
  - rewrite append_empty_r in HD. rewrite HD. split; assumption.
Qed.

(** ** Characters that the cleaning leaves alone *)

Lemma int_char_float_char (c : ascii) :
  int_char c = true -> float_char c = true.
Proof.
  unfold int_char, float_char. intros H. apply orb_prop in H.
  destruct H as [-> | ->]; [reflexivity | now rewrite !orb_true_r].
Qed.

Lemma float_char_cases (c : ascii) :
  float_char c = true ->
  is_digit c = true \/ c = "."%char \/ c = "e"%char \/ c = "-"%char
  \/ c = "+"%char.
Proof.
  unfold float_char. intros H.
  repeat (apply orb_prop in H; destruct H as [H | H]);
    try (apply Ascii.eqb_eq in H); tauto.
Qed.

Lemma digit_props (c : ascii) :
  is_digit c = true ->
  no_space c = true /\ Ascii.eqb c "_" = false /\ Ascii.eqb c "+" = false
  /\ Ascii.eqb c "-" = false /\ Ascii.eqb c "t" = false.
Proof.
  unfold is_digit, no_space, is_space, is_literal_space, between.
  intros H.
  assert (Hc : 48 <= code c <= 57) by lia.
  assert (Hne : forall d, (code d < 48 \/ 57 < code d) ->
                          Ascii.eqb c d = false).
  { intros d Hd. destruct (Ascii.eqb_spec c d); [subst; lia | reflexivity]. }
  split; [apply andb_true_intro; split; apply negb_true_iff; lia |].
  repeat split; apply Hne; vm_compute; intuition congruence.
Qed.

Lemma float_char_props (c : ascii) :
  float_char c = true ->
  no_space c = true /\ Ascii.eqb c "_" = false /\ Ascii.eqb c "t" = false.
Proof.
  intros H. destruct (float_char_cases c H) as [H' | [-> | [-> | [-> | ->]]]];
    [| repeat split; reflexivity ..].
  destruct (digit_props c H') as [? [? [? [? ?]]]]. repeat split; assumption.
Qed.

Lemma no_space_chars (s : string) :
  all_chars float_char s = true -> all_chars no_space s = true.
Proof. apply all_chars_impl. intros c H. apply float_char_props, H. Qed.

Lemma rstrip_app (p : ascii -> bool) (d r : string) :
  all_chars (fun c => negb (p c)) d = true ->
  rstrip p (d ++ r) = d ++ rstrip p r.
Proof.
  induction d as [| c d IH]; intros H; [reflexivity |].
  simpl in H. apply andb_prop in H. destruct H as [Hc Hd].
  apply negb_true_iff in Hc.
  cbn [append rstrip]. rewrite (IH Hd).
  destruct (d ++ rstrip p r); [now rewrite Hc | reflexivity].
Qed.

Lemma rstrip_id (p : ascii -> bool) (s : string) :
  all_chars (fun c => negb (p c)) s = true -> rstrip p s = s.
Proof.
  intros H. rewrite <- (append_empty_r s) at 1.
  rewrite (rstrip_app p s "" H). apply append_empty_r.
Qed.

Lemma lstrip_id (p : ascii -> bool) (s : string) :
  all_chars (fun c => negb (p c)) s = true -> lstrip p s = s.
Proof.
  destruct s as [| c s]; [reflexivity |]. simpl. intros H.
  apply andb_prop in H. destruct H as [Hc _].
  apply negb_true_iff in Hc. now rewrite Hc.
Qed.

Lemma lstrip_app (p : ascii -> bool) (d r : string) :
  d <> "" -> all_chars (fun c => negb (p c)) d = true ->
  lstrip p (d ++ r) = d ++ r.
Proof.
  destruct d as [| c d]; [congruence |]. intros _ H. simpl in H.
  apply andb_prop in H. destruct H as [Hc _].
  apply negb_true_iff in Hc. cbn [append lstrip]. now rewrite Hc.
Qed.

Lemma no_space_strip (s : string) :
  all_chars no_space s = true ->
  all_chars (fun c => negb (is_space c)) s = true
  /\ all_chars (fun c => negb (is_literal_space c)) s = true.
Proof.
  intros H. split; apply (all_chars_impl no_space); try exact H;
    intros c Hc; unfold no_space in Hc; apply andb_prop in Hc; tauto.
Qed.

Lemma prefix_empty (s : string) : String.prefix "" s = true.
Proof. destruct s; reflexivity. Qed.

Lemma remove_from_app (h : ascii) (o d r : string) :
  has_char h d = false ->
  remove_from (String h o) (d ++ r) 0
  = d ++ remove_from (String h o) r 0.
Proof.
  induction d as [| c d IH]; intros H; [reflexivity |].
  simpl in H. apply orb_false_elim in H. destruct H as [Hc Hd].
  cbn [append remove_from String.prefix].
  destruct (ascii_dec h c) as [E | E].
  - subst c. now rewrite Ascii.eqb_refl in Hc.
  - now rewrite (IH Hd).
Qed.

Lemma remove_from_id (h : ascii) (o s : string) :
  has_char h s = false -> remove_from (String h o) s 0 = s.
Proof.
  intros H. rewrite <- (append_empty_r s) at 1.
  rewrite (remove_from_app h o s "" H). apply append_empty_r.
Qed.

Lemma all_chars_remove_from (p : ascii -> bool) (old s : string) (k : nat) :
  all_chars p s = true -> all_chars p (remove_from old s k) = true.
Proof.
  revert k. induction s as [| c s IH]; intros k H; [reflexivity |].
  simpl in H. apply andb_prop in H. destruct H as [Hc Hs].
  cbn [remove_from]. destruct k as [| k]; [| now apply IH].
  destruct (String.prefix old (String c s)); [now apply IH |].
  cbn [all_chars]. now rewrite Hc, IH.
Qed.

Lemma has_char_remove_plus (c : ascii) (s : string) :
  Ascii.eqb c "+" = false ->
  has_char c (remove_from "+" s 0) = has_char c s.
Proof.
  intros Hc. induction s as [| a s IH]; [reflexivity |].
  cbn [remove_from String.prefix String.length Nat.pred].
  destruct (ascii_dec "+" a) as [E | E].
  - subst a. rewrite prefix_empty, IH. cbn [has_char].
    rewrite Ascii.eqb_sym, Hc. reflexivity.
  - cbn [has_char]. now rewrite IH.
Qed.

(** ** [int] of such text *)

Lemma take_sign_other (c : ascii) (s : string) :
  Ascii.eqb c "-" = false -> Ascii.eqb c "+" = false ->
  take_sign (String c s) = (false, String c s).
Proof.
  intros Hm Hp.
  destruct c as [[] [] [] [] [] [] [] []];
    try reflexivity; discriminate.
Qed.

Lemma take_sign_keeps (p : ascii -> bool) (s : string) :
  all_chars p s = true -> all_chars p (snd (take_sign s)) = true.
Proof.
  destruct s as [| c s]; [reflexivity |]. intros H.
  destruct (Ascii.eqb_spec c "-") as [-> | Hm];
    [simpl in *; apply andb_prop in H; tauto |].
  destruct (Ascii.eqb_spec c "+") as [-> | Hp];
    [simpl in *; apply andb_prop in H; tauto |].
  rewrite take_sign_other; [exact H | |]; now apply Ascii.eqb_neq.
Qed.

Lemma take_sign_has (c : ascii) (s : string) :
  Ascii.eqb c "-" = false -> Ascii.eqb c "+" = false ->
  has_char c s = true -> has_char c (snd (take_sign s)) = true.
Proof.
  intros Hcm Hcp. destruct s as [| a s]; [discriminate |]. intros H.
  destruct (Ascii.eqb_spec a "-") as [-> | Hm].
  { cbn [has_char] in H. rewrite Ascii.eqb_sym, Hcm in H. exact H. }
  destruct (Ascii.eqb_spec a "+") as [-> | Hp].
  { cbn [has_char] in H. rewrite Ascii.eqb_sym, Hcp in H. exact H. }
  rewrite take_sign_other; [exact H | |]; now apply Ascii.eqb_neq.
Qed.

Lemma strip_underscores_id (s : string) (prev : option ascii) :
  all_chars (fun c => negb (Ascii.eqb c "_")) s = true ->
  prev <> Some "_"%char ->
  strip_underscores prev s = Some s.
Proof.
  revert prev. induction s as [| c s IH]; intros prev H Hp.
  - destruct prev as [[[] [] [] [] [] [] [] []] |];
      try reflexivity; congruence.
  - simpl in H. apply andb_prop in H. destruct H as [Hc Hs].
    apply negb_true_iff in Hc. cbn [strip_underscores]. rewrite Hc.
    assert (E : strip_underscores (Some c) s = Some s).
    { apply IH; [exact Hs |]. intros E. inversion E. subst c.
      discriminate. }
    destruct prev as [[[] [] [] [] [] [] [] []] |];
      try (rewrite E; reflexivity); congruence.
Qed.

Lemma take_digits_stops (c : ascii) (s : string) (a n : Z) :
  has_char c s = true -> is_digit c = false ->
  snd (take_digits s a n) <> "".
Proof.
  intros H Hc. revert a n. induction s as [| x s IH]; intros a n;
    [discriminate |].
  cbn [take_digits]. destruct (is_digit x) eqn:Ex; [| discriminate].
  apply IH. cbn [has_char] in H.
  destruct (Ascii.eqb_spec x c); [congruence | exact H].
Qed.

Lemma underscore_free (s : string) :
  all_chars float_char s = true ->
  all_chars (fun c => negb (Ascii.eqb c "_")) s = true.
Proof.
  apply all_chars_impl. intros c H.
  destruct (float_char_props c H) as [_ [-> _]]. reflexivity.
Qed.

(** Text of digits, signs, points and an "e" that holds a point or an
    "e" is no integer literal. *)
Lemma int_of_string_marked (c : ascii) (s : string) :
  all_chars float_char s = true ->
  c = "."%char \/ c = "e"%char -> has_char c s = true ->
  int_of_string s = None.
Proof.
  intros Hs Hc Hin. unfold int_of_string.
  destruct (no_space_strip s (no_space_chars s Hs)) as [_ Hl].
  rewrite (lstrip_id _ s Hl), (rstrip_id _ s Hl).
  pose proof (take_sign_keeps _ s Hs) as Hu.
  assert (Hin' : has_char c (snd (take_sign s)) = true)
    by (apply take_sign_has; [destruct Hc; subst; reflexivity ..| exact Hin]).
  destruct (take_sign s) as [neg u]. cbn [snd] in Hu, Hin'.
  rewrite (strip_underscores_id u None (underscore_free u Hu))
    by discriminate.
  pose proof (take_digits_stops c u 0 0 Hin') as Hr.
  destruct (take_digits u 0 0) as [[v n] rest]. cbn [snd] in Hr.
  destruct rest; [exfalso; apply Hr; [destruct Hc; subst |]; reflexivity |].
  reflexivity.
Qed.

Lemma str_of_int_chars (z : Z) : all_chars int_char (str_of_int z) = true.
Proof.
  assert (H : forall n, all_chars int_char (digits_of_nonneg n) = true).
  { intros n. apply (all_chars_impl is_digit); [| apply digits_chars].
    intros c Hc. unfold int_char. now rewrite Hc. }
  unfold str_of_int. destruct (z <? 0); [| apply H].
  cbn [all_chars]. now rewrite H.
Qed.

Lemma digits_of_pos_fuel_acc (fuel : nat) (n : Z) (acc : string) :
  acc <> "" -> digits_of_pos_fuel fuel n acc <> "".
Proof.
  revert n acc. induction fuel as [| fuel IH]; intros n acc H; [exact H |].
  cbn [digits_of_pos_fuel].
  destruct (n / 10 =? 0); [discriminate | apply IH; discriminate].
Qed.

Lemma str_of_int_nonempty (z : Z) : str_of_int z <> "".
Proof.
  unfold str_of_int. destruct (z <? 0); [discriminate |].
  unfold digits_of_nonneg. cbn [digits_of_pos_fuel].
  destruct (z / 10 =? 0); [discriminate |].
  apply digits_of_pos_fuel_acc. discriminate.
Qed.

Lemma take_digits_all (n : Z) :
  0 <= n ->
  exists len, len <> 0 /\ take_digits (digits_of_nonneg n) 0 0 = (n, len, "").
Proof.
  intros Hn. destruct (digits_of_nonneg_spec n Hn) as [Hne Htd].
  exists (Z.of_nat (String.length (digits_of_nonneg n))). split.
  - destruct (digits_of_nonneg n); [congruence | simpl; lia].
  - specialize (Htd "" 0 0). rewrite append_empty_r in Htd.
    rewrite Htd. reflexivity.
Qed.

Lemma digits_literal (n : Z) (neg : bool) :
  0 <= n ->
  match strip_underscores None (digits_of_nonneg n) with
  | None => None
  | Some d =>
      match take_digits d 0 0 with
      | (v, len, EmptyString) =>
          if len =? 0 then None else Some (if neg then - v else v)
      | _ => None
      end
  end = Some (if neg then - n else n).
Proof.
  intros Hn.
  rewrite strip_underscores_id; [| | discriminate].
  - destruct (take_digits_all n Hn) as [len [Hlen ->]].
    apply Z.eqb_neq in Hlen. now rewrite Hlen.
  - apply (all_chars_impl is_digit); [| apply digits_chars].
    intros c Hc. destruct (digit_props c Hc) as [_ [-> _]]. reflexivity.
Qed.

Lemma int_chars_plain (s : string) :
  all_chars int_char s = true ->
  all_chars float_char s = true
  /\ has_char "+" s = false /\ has_char "t" s = false.
Proof.
  intros H.
  assert (Hf : all_chars float_char s = true)
    by (apply (all_chars_impl int_char); [apply int_char_float_char | exact H]).
  split; [exact Hf |]. split.
  - apply (all_chars_has int_char); [exact H | reflexivity].
  - apply (all_chars_has int_char); [exact H | reflexivity].
Qed.

(** [int(str(z))] is [z]. *)
Lemma int_of_string_str (z : Z) : int_of_string (str_of_int z) = Some z.
Proof.
  unfold int_of_string.
  destruct (int_chars_plain _ (str_of_int_chars z)) as [Hf _].
  destruct (no_space_strip _ (no_space_chars _ Hf)) as [_ Hl].
  rewrite (lstrip_id _ _ Hl), (rstrip_id _ _ Hl).
  unfold str_of_int. destruct (Z.ltb_spec z 0) as [Hz | Hz].
  - cbn [take_sign]. rewrite (digits_literal (- z) true) by lia.
    f_equal. lia.
  - destruct (digits_of_nonneg_spec z Hz) as [Hne _].
    pose proof (digits_chars z) as Hd.
    destruct (digits_of_nonneg z) as [| c d] eqn:E; [congruence |].
    cbn [all_chars] in Hd. apply andb_prop in Hd. destruct Hd as [Hc _].
    destruct (digit_props c Hc) as [_ [_ [Hp [Hm _]]]].
    rewrite take_sign_other by assumption. rewrite <- E.
    apply (digits_literal z false Hz).
Qed.

(** The cleaning of the break frequency leaves the text of an integer
    alone, and cleans what follows it. *)
Lemma break_text_app (z : Z) (r : string) :
  break_text (VStr (str_of_int z ++ r))
  = str_of_int z ++ rstrip is_space (remove_all "times" (remove_all "+" r)).
Proof.
  destruct (int_chars_plain _ (str_of_int_chars z)) as [Hf [Hp Ht]].
  destruct (no_space_strip _ (no_space_chars _ Hf)) as [Hs _].
  unfold break_text, strip. cbn [py_str remove_all].
  rewrite (remove_from_app _ _ _ _ Hp), (remove_from_app _ _ _ _ Ht).
  rewrite (lstrip_app _ _ _ (str_of_int_nonempty z) Hs).
  apply rstrip_app, Hs.
Qed.

Lemma break_text_int (z : Z) : break_text (VInt z) = str_of_int z.
Proof.
  destruct (int_chars_plain _ (str_of_int_chars z)) as [Hf [Hp Ht]].
  destruct (no_space_strip _ (no_space_chars _ Hf)) as [Hs _].
  unfold break_text, strip. cbn [py_str remove_all].
  rewrite (remove_from_id _ _ _ Hp), (remove_from_id _ _ _ Ht).
  now rewrite (lstrip_id _ _ Hs), (rstrip_id _ _ Hs).
Qed.

(** ** The text of a float *)

Lemma zeros_chars (n : nat) : all_chars float_char (zeros n) = true.
Proof. induction n as [| n IH]; [reflexivity | exact IH]. Qed.

Lemma digits_float_chars (n : Z) :
  all_chars float_char (digits_of_nonneg n) = true.
Proof.
  apply (all_chars_impl is_digit); [| apply digits_chars].
  intros c Hc. unfold float_char. now rewrite Hc.
Qed.

Lemma exponent_text_chars (x : Z) :
  all_chars float_char (exponent_text x) = true.
Proof.
  unfold exponent_text. rewrite all_chars_app.
  apply andb_true_intro. split; [destruct (x <? 0); reflexivity |].
  destruct (Z.abs x <? 10); [cbn [append all_chars] |];
    apply digits_float_chars.
Qed.

Lemma layout_chars (ds : string) (n k : Z) :
  all_chars float_char ds = true ->
  all_chars float_char (layout ds n k) = true.
Proof.
  intros H. unfold layout, take, drop.
  destruct ((k <=? -4) || (16 <? k)); [| destruct (k <=? 0);
    [| destruct (n <=? k)]]; rewrite !all_chars_app;
    repeat (apply andb_true_intro; split);
    try apply all_chars_substring; try apply zeros_chars;
    try apply exponent_text_chars; try exact H; try reflexivity.
  destruct (1 <? n); [| reflexivity].
  rewrite all_chars_app. apply andb_true_intro.
  split; [reflexivity | now apply all_chars_substring].
Qed.

Lemma layout_marked (ds : string) (n k : Z) :
  has_char "." (layout ds n k) = true \/ has_char "e" (layout ds n k) = true.
Proof.
  unfold layout.
  destruct ((k <=? -4) || (16 <? k)); [right | left; destruct (k <=? 0);
    [| destruct (n <=? k)]]; rewrite !has_char_app; cbn [has_char];
    rewrite ?orb_true_r; reflexivity.
Qed.

Lemma str_of_float_finite (s : bool) (m : positive) (e : Z) :
  all_chars float_char (str_of_float (S754_finite s m e)) = true
  /\ (has_char "." (str_of_float (S754_finite s m e)) = true
      \/ has_char "e" (str_of_float (S754_finite s m e)) = true).
Proof.
  unfold str_of_float. destruct (magnitude m e) as [num den].
  destruct (shortest_digits 16 s m e num den
              (decimal_point 640 num den (-324)) 1) as [[q k'] n].
  rewrite all_chars_app, !has_char_app.
  rewrite (layout_chars _ n k' (digits_float_chars q)).
  split; [destruct s; reflexivity |].
  destruct (layout_marked (digits_of_nonneg q) n k') as [-> | ->];
    rewrite orb_true_r; tauto.
Qed.

(** The text of a float that is not NaN, cleaned, is no integer
    literal. *)
Lemma int_of_break_text_float (f : float) :
  is_nan f = false -> int_of_string (break_text (VFloat f)) = None.
Proof.
  destruct f as [s | s | | s m e]; intros Hn;
    [destruct s; reflexivity | destruct s; reflexivity | discriminate |].
  destruct (str_of_float_finite s m e) as [Hf Hm].
  unfold break_text, strip. cbn [py_str remove_all].
  set (s0 := str_of_float (S754_finite s m e)) in *.
  pose proof (all_chars_remove_from float_char "+" s0 0 Hf) as H1.
  set (s1 := remove_from "+" s0 0) in *.
  assert (Hm1 : has_char "." s1 = true \/ has_char "e" s1 = true).
  { unfold s1. rewrite !has_char_remove_plus by reflexivity. exact Hm. }
  assert (Ht : has_char "t" s1 = false)
    by (apply (all_chars_has float_char); [exact H1 | reflexivity]).
  rewrite (remove_from_id _ _ _ Ht).
  destruct (no_space_strip _ (no_space_chars _ H1)) as [Hs _].
  rewrite (lstrip_id _ _ Hs), (rstrip_id _ _ Hs).
  destruct Hm1 as [Hc | Hc];
    [apply (int_of_string_marked "." s1) | apply (int_of_string_marked "e" s1)];
    auto.
Qed.

(* ===================================================================== *)
(** * Report generator: summary, pages, names, and what it reads *)
(* ===================================================================== *)

Import Reads.

Lemma traverse_all_ok {A B : Type} (f : A -> result B) (l : list A) :
  (forall x, In x l -> exists b, f x = Ok b) ->
  exists bs, traverse f l = Ok bs.
Proof.
  induction l as [| a l IH]; simpl; intros H; [eauto |].
  destruct (H a (or_introl eq_refl)) as [b ->].
  destruct IH as [bs ->]; [intros x Hx; apply H; now right |].
  simpl. eauto.
Qed.

Lemma forall2_in_l {A B : Type} (R : A -> B -> Prop) (l : list A)
    (l' : list B) (a : A) :
  Forall2 R l l' -> In a l -> exists b, R a b.
Proof.
  induction 1 as [| x y l l' Hxy _ IH]; simpl; [tauto |].
  intros [<- | Hin]; eauto.
Qed.

Lemma astype_float_ok (vs : list pyval) :
  (exists fs, astype_float vs = Ok fs)
  <-> forall v, In v vs -> py_float v <> None.
Proof.
  unfold astype_float. split.
  - intros [fs H] v Hv. apply traverse_ok in H.
    destruct (forall2_in_l _ _ _ _ H Hv) as [f Hf].
    destruct (py_float v); [discriminate | discriminate].
  - intros H. apply traverse_all_ok. intros v Hv.
    specialize (H v Hv). destruct (py_float v); [eauto | congruence].
Qed.

Lemma astype_float_values (vs : list pyval) (fs : list float) :
  astype_float vs = Ok fs ->
  Forall2 (fun v f => py_float v = Some f) vs fs.
Proof.
  unfold astype_float. intros H. apply traverse_ok in H.
  induction H as [| v f vs fs Hv _ IH]; constructor; [| exact IH].
  destruct (py_float v); [now inversion Hv | discriminate].
Qed.

Lemma filter_add_page_risk_lines (df : DataFrame) :
  filter is_add_page (risk_lines df) = []
  /\ filter is_image (risk_lines df) = [].
Proof.
  unfold risk_lines. induction (seq 0 (nrows df)) as [| i l [IH1 IH2]];
    [split; reflexivity |].
  cbn [map]. unfold risk_line at 1 3.
  destruct (calculate_risk (row df i)). cbn [filter is_add_page is_image].
  split; assumption.
Qed.

Lemma filter_chart_pages (charts : list (string * chart)) :
  List.length (filter is_add_page (flat_map chart_page charts))
  = List.length charts
  /\ List.length (filter is_image (flat_map chart_page charts))
     = List.length charts.
Proof.
  induction charts as [| kf charts [IH1 IH2]]; [split; reflexivity |].
  cbn [flat_map chart_page app filter is_add_page is_image List.length].
  split; congruence.
Qed.

Section ReportMore.

Variable series_mean : list float -> float.

Lemma mean_hours_ok (df : DataFrame) (c : string) :
  (exists m, mean_hours series_mean df c = Ok m)
  <-> exists vs, column df c = Ok vs
                 /\ forall v, In v vs -> py_float v <> None.
Proof.
  unfold mean_hours. split.
  - intros [m H]. destruct (column df c) as [vs | e]; [| discriminate].
    exists vs. split; [reflexivity |]. apply astype_float_ok.
    simpl in H. destruct (astype_float vs); [eauto | discriminate].
  - intros [vs [-> H]]. apply astype_float_ok in H. destruct H as [fs H].
    cbn [bind]. rewrite H. cbn [bind]. eauto.
Qed.

Lemma mean_hours_value (df : DataFrame) (c : string) (m : float) :
  mean_hours series_mean df c = Ok m ->
  exists vs fs,
    column df c = Ok vs
    /\ Forall2 (fun v f => py_float v = Some f) vs fs
    /\ m = series_mean fs.
Proof.
  unfold mean_hours. intros H.
  destruct (column df c) as [vs | e]; [| discriminate]. cbn [bind] in H.
  destruct (astype_float vs) as [fs | e] eqn:E; [| discriminate].
  cbn [bind] in H. inversion H. exists vs, fs.
  split; [reflexivity |]. split; [| reflexivity].
  now apply astype_float_values.
Qed.

(** X9. When the frame has both hours columns and every value of them
    converts to a float, the summary of the report is two lines: the
    mean of the academic hours column and the mean of the non-academic
    hours column, each taken over the converted values and written with
    two decimals. In every other case it is the one line "Average hours
    not available". *)
Theorem summary_cases (df : DataFrame) :
  (exists a b fa fb,
     column df "hours_academic" = Ok a
     /\ column df "hours_non_academic" = Ok b
     /\ Forall2 (fun v f => py_float v = Some f) a fa
     /\ Forall2 (fun v f => py_float v = Some f) b fb
     /\ summary series_mean df
        = [Cell 0 8 ("Average Academic Hours: "
                     ++ format_2f (series_mean fa)) "";
           Cell 0 8 ("Average Non-Academic Hours: "
                     ++ format_2f (series_mean fb)) ""])
  \/ ((~ exists a b,
         column df "hours_academic" = Ok a
         /\ column df "hours_non_academic" = Ok b
         /\ forall v, In v (a ++ b)%list -> py_float v <> None)
      /\ summary series_mean df
         = [Cell 0 8 "Average hours not available" ""]).
Proof.
  unfold summary, averages.
  destruct (mean_hours series_mean df "hours_academic") as [x | e] eqn:Ea.
  - destruct (mean_hours series_mean df "hours_non_academic")
      as [y | e] eqn:Eb.
    + left.
      destruct (mean_hours_value df _ x Ea) as [a [fa [Ha [Hfa ->]]]].
      destruct (mean_hours_value df _ y Eb) as [b [fb [Hb [Hfb ->]]]].
      exists a, b, fa, fb. repeat (split; [assumption |]). reflexivity.
    + right. split; [| reflexivity]. intros [a [b [Ha [Hb Hv]]]].
      destruct (proj2 (mean_hours_ok df "hours_non_academic")) as [y Hy];
        [| congruence].
      exists b. split; [exact Hb |]. intros v Hin. apply Hv.
      apply in_or_app. now right.
  - right. split; [| reflexivity]. intros [a [b [Ha [Hb Hv]]]].
    destruct (proj2 (mean_hours_ok df "hours_academic")) as [x Hx];
      [| congruence].
    exists a. split; [exact Ha |]. intros v Hin. apply Hv.
    apply in_or_app. now left.
Qed.

Lemma filter_summary (df : DataFrame) :
  filter is_add_page (summary series_mean df) = []
  /\ filter is_image (summary series_mean df) = [].
Proof.
  unfold summary, averages.
  destruct (mean_hours series_mean df "hours_academic");
    [| split; reflexivity].
  destruct (mean_hours series_mean df "hours_non_academic");
    split; reflexivity.
Qed.

(** X10. Whatever the frame holds, the code starts one page more than
    there are charts, the title page with the summary and the risk lines
    and then one page per chart, and puts one image per chart. *)
Theorem report_pages (df : DataFrame) (charts : list (string * chart)) :
  pages_started (generate_pdf series_mean df charts)
  = S (List.length charts)
  /\ List.length (filter is_image (generate_pdf series_mean df charts))
     = List.length charts.
Proof.
  unfold pages_started, generate_pdf. rewrite !filter_app, !length_app.
  destruct (filter_summary df) as [-> ->].
  destruct (filter_add_page_risk_lines df) as [-> ->].
  destruct (filter_chart_pages charts) as [-> ->].
  cbn. lia.
Qed.

(** X11. In a frame without a timestamp column the respondents are named
    by their position counted from one: the line of the respondent at
    index [i] starts with "Row i+1". *)
Theorem report_names_rows (df : DataFrame) (i : nat) :
  has_column df "timestamp" = false ->
  (i < nrows df)%nat ->
  nth i (risk_lines df) AddPage
  = Cell 0 8 ("Row " ++ str_of_int (Z.of_nat i + 1) ++ ": Score="
              ++ num_str (fst (calculate_risk (row df i))) ++ ", Risk="
              ++ level_name (snd (calculate_risk (row df i)))) "".
Proof.
  intros Ht Hi. rewrite risk_lines_nth by exact Hi.
  unfold risk_line. destruct (calculate_risk (row df i)) as [score risk].
  rewrite get_row.
  destruct (lookup (cols df) "timestamp") as [ts |] eqn:E.
  - assert (has_column df "timestamp" = true)
      by (apply has_column_lookup; eauto). congruence.
  - cbn [py_str fst snd]. now rewrite <- !append_assoc.
Qed.

Lemma summary_agree (df1 df2 : DataFrame) :
  agree report_columns df1 df2 ->
  summary series_mean df1 = summary series_mean df2.
Proof.
  intros [_ H]. unfold summary, averages, mean_hours, column.
  rewrite !(H "hours_academic"), !(H "hours_non_academic")
    by (simpl; tauto).
  reflexivity.
Qed.

End ReportMore.

Lemma risk_line_agree (df1 df2 : DataFrame) (i : nat) :
  agree report_columns df1 df2 ->
  risk_line i (row df1 i) = risk_line i (row df2 i).
Proof.
  intros [_ H].
  assert (Hg : forall k d, In k report_columns ->
            get (row df1 i) k d = get (row df2 i) k d).
  { intros k d Hk. rewrite !get_row, (H k Hk). reflexivity. }
  unfold risk_line, calculate_risk.
  rewrite (hours_ext (row df1 i) (row df2 i)),
    (symptom_count_ext (row df1 i) (row df2 i)),
    (Hg "timestamp");
    [reflexivity | | |]; try (intros k d Hk; apply Hg);
    unfold report_columns; simpl in *; tauto.
Qed.

Lemma risk_lines_agree (df1 df2 : DataFrame) :
  agree report_columns df1 df2 -> risk_lines df1 = risk_lines df2.
Proof.
  intros H. unfold risk_lines. rewrite (proj1 H).
  apply map_ext. intros i. now apply risk_line_agree.
Qed.

Lemma charts_leave_report_columns (df : DataFrame) :
  agree report_columns (snd (generate_charts df)) df.
Proof.
  destruct (generate_charts_leaves df) as [-> | [nums [scores ->]]];
    [split; reflexivity |].
  split; [reflexivity |]. intros c Hc. cbn [set_column cols].
  rewrite !lookup_assign_other; [reflexivity | |];
    intros ->; unfold report_columns in Hc; simpl in Hc;
    repeat (destruct Hc as [Hc | Hc]; [discriminate |]); exact Hc.
Qed.

(** X12. The report reads the timestamp, the two hours columns and the
    five symptom columns, and no other: for two frames that each have a
    column of text, so that their rows hold the values of the columns as
    they are, and that agree on these eight columns, the same charts
    give the same document. *)
Theorem report_reads_eight_columns (series_mean : list float -> float)
    (df1 df2 : DataFrame) (charts : list (string * chart)) :
  has_text df1 = true -> has_text df2 = true ->
  agree report_columns df1 df2 ->
  generate_pdf series_mean df1 charts = generate_pdf series_mean df2 charts.
Proof.
  intros _ _ H. unfold generate_pdf.
  now rewrite (summary_agree _ _ _ H), (risk_lines_agree _ _ H).
Qed.

(** X13. The helper columns that chart generation puts in the frame do
    not show in the report: the document made from the frame as the
    charts leave it is the one made from the frame as it was. *)
Theorem charts_do_not_change_report (series_mean : list float -> float)
    (df : DataFrame) (charts : list (string * chart)) :
  generate_pdf series_mean (snd (generate_charts df)) charts
  = generate_pdf series_mean df charts.
Proof.
  pose proof (charts_leave_report_columns df) as H. unfold generate_pdf.
  now rewrite (summary_agree _ _ _ H), (risk_lines_agree _ _ H).
Qed.

Lemma report_names_rows_witness :
  nth 0 (risk_lines answers) AddPage
  = Cell 0 8 ("Row " ++ str_of_int 1 ++ ": Score="
              ++ num_str (fst (calculate_risk (row answers 0))) ++ ", Risk="
              ++ level_name (snd (calculate_risk (row answers 0)))) "".
Proof.
  apply (report_names_rows answers 0); [reflexivity | simpl; lia].
Defined.

Lemma report_reads_eight_columns_witness :
  generate_pdf (fun _ => nan)
    (set_column survey "risk_score" [VFloat (of_Z 50); VFloat (of_Z 30)])
    survey_charts
  = generate_pdf (fun _ => nan) survey survey_charts.
Proof.
  apply report_reads_eight_columns; [reflexivity | reflexivity |].
  split; [reflexivity |]. intros c Hc. unfold report_columns in Hc.
  simpl in Hc.
  destruct Hc as [<- | [<- | [<- | [<- | [<- | [<- | [<- | [<- | []]]]]]]]];
    reflexivity.
Defined.

(* ===================================================================== *)
(** * Chart builder: break frequencies, columns, and the real-time entry *)
(* ===================================================================== *)

Import Entry.

(** X14. In a break-frequency column of integers every value converts to
    itself: its text has no "+", no "times" and no blank, and [int]
    reads back what [str] wrote. *)
Theorem break_frequency_of_integers (z : Z) :
  break_frequency_numeric (VInt z) = Ok z.
Proof.
  unfold break_frequency_numeric. cbn [isna].
  now rewrite break_text_int, int_of_string_str.
Qed.

(** X15. An answer made of an integer followed by text that the two
    replacements and the stripping erase, such as "5+ times" or
    "3 times", converts to that integer. *)
Theorem break_frequency_of_counts (z : Z) (r : string) :
  rstrip is_space (remove_all "times" (remove_all "+" r)) = "" ->
  break_frequency_numeric (VStr (str_of_int z ++ r)) = Ok z.
Proof.
  intros H. unfold break_frequency_numeric. cbn [isna].
  now rewrite break_text_app, H, append_empty_r, int_of_string_str.
Qed.

Lemma break_frequency_of_counts_witness :
  break_frequency_numeric (VStr (str_of_int 5 ++ "+ times")) = Ok 5.
Proof. apply break_frequency_of_counts. reflexivity. Defined.

Lemma generate_charts_breaks_raise (df : DataFrame) (vs : list pyval)
    (x : pyval) (e : exn) :
  column df "break_frequency" = Ok vs -> In x vs ->
  break_frequency_numeric x = Raise e ->
  exists e', generate_charts df = (Raise e', df).
Proof.
  intros Hcol Hin Hx.
  destruct (traverse_raise break_frequency_numeric vs x _ Hin Hx)
    as [e' He'].
  unfold generate_charts.
  destruct (fixed_charts df) as [charts | e0]; [| eauto].
  assert (Hhas : has_column df "break_frequency" = true).
  { apply has_column_lookup. exists vs. now apply column_lookup. }
  rewrite Hhas. unfold breaks_chart. rewrite Hcol. cbn [bind].
  rewrite He'. cbn [bind]. eauto.
Qed.

(** X16. A float in the break-frequency column that is not NaN, which is
    what a numeric column with an empty cell holds, never converts: its
    text has a point, an "e" or is "inf", so [int] raises ValueError and
    chart generation ends with an exception, the frame as it was. *)
Theorem float_break_frequency_raises (df : DataFrame) (vs : list pyval)
    (f : float) :
  column df "break_frequency" = Ok vs -> In (VFloat f) vs ->
  is_nan f = false ->
  break_frequency_numeric (VFloat f)
  = Raise (ValueError "invalid literal for int() with base 10")
  /\ exists e, generate_charts df = (Raise e, df).
Proof.
  intros Hcol Hin Hn.
  assert (Hx : break_frequency_numeric (VFloat f)
               = Raise (ValueError "invalid literal for int() with base 10")).
  { unfold break_frequency_numeric. cbn [isna].
    now rewrite Hn, int_of_break_text_float. }
  split; [exact Hx |].
  exact (generate_charts_breaks_raise df vs _ _ Hcol Hin Hx).
Qed.

Lemma float_break_frequency_raises_witness :
  break_frequency_numeric (VFloat (of_Z 2))
  = Raise (ValueError "invalid literal for int() with base 10")
  /\ exists e,
       generate_charts
         (set_column survey "break_frequency" [VFloat (of_Z 2); VFloat nan])
       = (Raise e,
          set_column survey "break_frequency" [VFloat (of_Z 2); VFloat nan]).
Proof.
  apply (float_break_frequency_raises
           (set_column survey "break_frequency" [VFloat (of_Z 2); VFloat nan])
           [VFloat (of_Z 2); VFloat nan] (of_Z 2));
    [reflexivity | simpl; tauto | reflexivity].
Defined.

Lemma lookup_none (df : DataFrame) (c : string) :
  has_column df c = false -> column df c = Raise (KeyError c).
Proof.
  intros H. unfold column.
  destruct (lookup (cols df) c) as [vs |] eqn:E; [| reflexivity].
  assert (has_column df c = true) by (apply has_column_lookup; eauto).
  congruence.
Qed.

Lemma fixed_charts_symptom_raise (df : DataFrame) (c : string) (e : exn) :
  In c symptom_cols -> yes_count df c = Raise e ->
  exists e', fixed_charts df = Raise e'.
Proof.
  intros Hin Hy. unfold fixed_charts.
  destruct (traverse_raise
              (fun col => n <- yes_count df col ;; Ok (col, n))
              symptom_cols c e Hin) as [e' ->];
    [now rewrite Hy | cbn [bind]; eauto].
Qed.

Lemma generate_charts_fixed_raise (df : DataFrame) (e : exn) :
  fixed_charts df = Raise e -> generate_charts df = (Raise e, df).
Proof. intros H. unfold generate_charts. now rewrite H. Qed.

(** X17. Chart generation needs the five symptom columns and the devices
    column: without one of them it ends with an exception and leaves the
    frame as it was. *)
Theorem charts_need_columns (df : DataFrame) (c : string) :
  In c (symptom_cols ++ ["devices"])%list ->
  has_column df c = false ->
  exists e, generate_charts df = (Raise e, df).
Proof.
  intros Hin Hc. apply lookup_none in Hc. apply in_app_or in Hin.
  destruct Hin as [Hin | [<- | []]].
  - destruct (fixed_charts_symptom_raise df c (KeyError c) Hin) as [e He].
    { unfold yes_count. now rewrite Hc. }
    exists e. now apply generate_charts_fixed_raise.
  - assert (He : exists e, fixed_charts df = Raise e).
    { unfold fixed_charts. rewrite Hc.
      destruct (traverse _ symptom_cols); cbn [bind]; eauto. }
    destruct He as [e He]. exists e. now apply generate_charts_fixed_raise.
Qed.

Lemma charts_need_columns_witness :
  exists e, generate_charts answers = (Raise e, answers).
Proof.
  apply (charts_need_columns answers "headaches");
    [simpl; tauto | reflexivity].
Defined.

(** X18. A symptom column that has values and no text among them, as a
    column of numbers, of booleans or of empty cells is read, has no
    string accessor: chart generation ends with an exception and leaves
    the frame as it was. *)
Theorem charts_need_text (df : DataFrame) (c : string) (vs : list pyval) :
  In c symptom_cols -> column df c = Ok vs ->
  vs <> [] -> existsb is_text vs = false ->
  exists e, generate_charts df = (Raise e, df).
Proof.
  intros Hin Hc Hne Ht.
  destruct (fixed_charts_symptom_raise df c
              (AttributeError
                 "Can only use .str accessor with string values!") Hin)
    as [e He].
  { unfold yes_count. rewrite Hc. cbn [bind]. unfold str_accessor.
    destruct vs; [congruence |]. now rewrite Ht. }
  exists e. now apply generate_charts_fixed_raise.
Qed.

Lemma charts_need_text_witness :
  exists e,
    generate_charts (set_column survey "eye_strain" [VInt 1; VInt 0])
    = (Raise e, set_column survey "eye_strain" [VInt 1; VInt 0]).
Proof.
  apply (charts_need_text
           (set_column survey "eye_strain" [VInt 1; VInt 0])
           "eye_strain" [VInt 1; VInt 0]);
    [simpl; tauto | reflexivity | discriminate | reflexivity].
Defined.

(** ** What the charts read *)

Lemma traverse_ext_in {A B : Type} (f g : A -> result B) (l : list A) :
  (forall x, In x l -> f x = g x) -> traverse f l = traverse g l.
Proof.
  induction l as [| a l IH]; intros H; [reflexivity |].
  cbn [traverse]. rewrite (H a) by now left.
  rewrite IH by (intros x Hx; apply H; now right). reflexivity.
Qed.

Lemma has_column_match (df : DataFrame) (c : string) :
  has_column df c
  = match lookup (cols df) c with Some _ => true | None => false end.
Proof.
  destruct (lookup (cols df) c) as [vs |] eqn:E.
  - apply has_column_lookup. eauto.
  - destruct (has_column df c) eqn:H; [| reflexivity].
    apply has_column_lookup in H. destruct H as [vs H]. congruence.
Qed.

Lemma symptom_score_ext (r1 r2 : Series) :
  (forall s d, In s symptom_cols -> get r1 s d = get r2 s d) ->
  symptom_score r1 = symptom_score r2.
Proof.
  intros H. unfold symptom_score. do 2 f_equal. apply filter_ext_in.
  intros s Hs. unfold answered_yes. now rewrite (H s _ Hs).
Qed.

Lemma symptom_not_helper (s : string) :
  In s symptom_cols -> s <> "break_frequency_numeric".
Proof.
  intros Hs ->. simpl in Hs.
  repeat (destruct Hs as [Hs | Hs]; [discriminate |]). exact Hs.
Qed.

(** The scatter part without the frame. *)
Lemma breaks_chart_figure (df : DataFrame) :
  match breaks_chart df with
  | Ok (fig, _) => Ok fig
  | Raise e => Raise e
  end
  = (bf <- column df "break_frequency" ;;
     nums <- traverse break_frequency_numeric bf ;;
     Ok (Scatter "Break Frequency vs Symptoms" "Break Frequency (per hour)"
           "Number of Symptoms" (map VInt nums)
           (map (fun r => VInt (symptom_score r))
              (rows (set_column df "break_frequency_numeric"
                       (map VInt nums)))))).
Proof.
  unfold breaks_chart.
  destruct (column df "break_frequency") as [bf | e]; [| reflexivity].
  cbn [bind].
  destruct (traverse break_frequency_numeric bf) as [nums | e];
    [| reflexivity].
  cbn [bind]. rewrite column_set_other by discriminate.
  rewrite !column_set_same. reflexivity.
Qed.

Lemma scores_agree (df1 df2 : DataFrame) (nums : list pyval) :
  agree chart_columns df1 df2 ->
  map (fun r => VInt (symptom_score r))
    (rows (set_column df1 "break_frequency_numeric" nums))
  = map (fun r => VInt (symptom_score r))
      (rows (set_column df2 "break_frequency_numeric" nums)).
Proof.
  intros [Hn H]. unfold rows. rewrite !map_map. cbn [set_column nrows].
  rewrite Hn. apply map_ext. intros i. f_equal.
  apply symptom_score_ext. intros s d Hs. rewrite !get_row.
  cbn [set_column cols].
  rewrite !lookup_assign_other by now apply symptom_not_helper.
  rewrite (H s); [reflexivity |].
  unfold chart_columns. apply in_or_app. now left.
Qed.

(** The three parts of chart generation on frames that agree on the
    columns it names. *)
Lemma chart_parts_agree (df1 df2 : DataFrame) :
  agree chart_columns df1 df2 ->
  fixed_charts df1 = fixed_charts df2
  /\ has_column df1 "break_frequency" = has_column df2 "break_frequency"
  /\ match breaks_chart df1 with
     | Ok (fig, _) => Ok fig
     | Raise e => Raise e
     end
     = match breaks_chart df2 with
       | Ok (fig, _) => Ok fig
       | Raise e => Raise e
       end.
Proof.
  intros Ha. pose proof Ha as [Hn H].
  assert (Hcol : forall c, In c chart_columns -> column df1 c = column df2 c).
  { intros c Hc. unfold column. now rewrite (H c Hc). }
  split; [| split].
  - unfold fixed_charts.
    rewrite (traverse_ext_in
               (fun col => n <- yes_count df1 col ;; Ok (col, n))
               (fun col => n <- yes_count df2 col ;; Ok (col, n))).
    + rewrite (Hcol "devices"); [reflexivity |].
      unfold chart_columns. apply in_or_app. right. simpl. tauto.
    + intros c Hc. unfold yes_count. rewrite (Hcol c); [reflexivity |].
      unfold chart_columns. apply in_or_app. now left.
  - rewrite !has_column_match, (H "break_frequency"); [reflexivity |].
    unfold chart_columns. apply in_or_app. right. simpl. tauto.
  - rewrite !breaks_chart_figure.
    rewrite (Hcol "break_frequency")
      by (unfold chart_columns; apply in_or_app; right; simpl; tauto).
    destruct (column df2 "break_frequency") as [bf | e]; [| reflexivity].
    cbn [bind].
    destruct (traverse break_frequency_numeric bf) as [nums | e];
      [| reflexivity].
    cbn [bind]. now rewrite (scores_agree df1 df2 _ Ha).
Qed.

Lemma generate_charts_figures (df : DataFrame) :
  fst (generate_charts df)
  = (charts <- fixed_charts df ;;
     if has_column df "break_frequency"
     then fig3 <- match breaks_chart df with
                  | Ok (fig, _) => Ok fig
                  | Raise e => Raise e
                  end ;;
          Ok (charts ++ [("breaks", fig3)])%list
     else Ok charts).
Proof.
  unfold generate_charts.
  destruct (fixed_charts df) as [charts | e]; [| reflexivity].
  cbn [bind]. destruct (has_column df "break_frequency"); [| reflexivity].
  destruct (breaks_chart df) as [[fig df'] | e]; reflexivity.
Qed.

(** X19. The charts are made from the five symptom columns, the devices
    column and the break-frequency column, and no other: two frames that
    agree on these seven columns get the same figures, or the same
    exception. *)
Theorem charts_read_seven_columns (df1 df2 : DataFrame) :
  agree chart_columns df1 df2 ->
  fst (generate_charts df1) = fst (generate_charts df2).
Proof.
  intros H. destruct (chart_parts_agree df1 df2 H) as [Hf [Hh Hb]].
  now rewrite !generate_charts_figures, Hf, Hh, Hb.
Qed.

Lemma charts_read_seven_columns_witness :
  fst (generate_charts
         (set_column survey "risk_level" [VStr "Low"; VStr "Medium"]))
  = fst (generate_charts survey).
Proof.
  apply charts_read_seven_columns.
  split; [reflexivity |]. intros c Hc. unfold chart_columns in Hc.
  simpl in Hc.
  destruct Hc as [<- | [<- | [<- | [<- | [<- | [<- | [<- | []]]]]]]];
    reflexivity.
Defined.

Lemma fixed_charts_keys (df : DataFrame) (charts : list (string * chart)) :
  fixed_charts df = Ok charts -> map fst charts = ["symptoms"; "devices"].
Proof.
  intros H. destruct (fixed_charts_bars df charts H)
    as [bars [slices [-> _]]]. reflexivity.
Qed.

(** X20. When the charts are made, they are the symptoms and the devices
    figures, and the breaks figure after them exactly when the frame has
    a break-frequency column; the report then made of the frame and the
    figures starts three pages, or four. *)
Theorem analysis_pages (series_mean : list float -> float) (df : DataFrame)
    (charts : list (string * chart)) :
  fst (generate_charts df) = Ok charts ->
  map fst charts
  = (if has_column df "break_frequency"
     then ["symptoms"; "devices"; "breaks"] else ["symptoms"; "devices"])
  /\ pages_started
       (generate_pdf series_mean (snd (generate_charts df)) charts)
     = if has_column df "break_frequency" then 4%nat else 3%nat.
Proof.
  intros H.
  assert (Hk : map fst charts
               = if has_column df "break_frequency"
                 then ["symptoms"; "devices"; "breaks"]
                 else ["symptoms"; "devices"]).
  { rewrite generate_charts_figures in H.
    destruct (fixed_charts df) as [cs | e] eqn:E; [| discriminate].
    apply fixed_charts_keys in E. cbn [bind] in H.
    destruct (has_column df "break_frequency").
    - destruct (breaks_chart df) as [[fig df'] | e]; [| discriminate].
      cbn [bind] in H. inversion H. rewrite map_app, E. reflexivity.
    - inversion H. subst. exact E. }
  split; [exact Hk |].
  unfold pages_started, generate_pdf. rewrite !filter_app, !length_app.
  destruct (filter_summary series_mean (snd (generate_charts df)))
    as [-> _].
  destruct (filter_add_page_risk_lines (snd (generate_charts df)))
    as [-> _].
  destruct (filter_chart_pages charts) as [-> _].
  rewrite <- (length_map fst charts), Hk.
  destruct (has_column df "break_frequency"); reflexivity.
Qed.

Lemma analysis_pages_witness :
  map fst survey_charts = ["symptoms"; "devices"; "breaks"]
  /\ pages_started
       (generate_pdf (fun _ => nan) (snd (generate_charts survey))
          survey_charts) = 4%nat.
Proof.
  apply (analysis_pages (fun _ => nan) survey survey_charts).
  vm_compute. reflexivity.
Defined.

(** ** The real-time entry *)

Lemma lookup_fields (f : string -> list pyval) (fields : list string)
    (c : string) :
  lookup (map (fun col => (col, f col)) fields) c
  = if mem c fields then Some (f c) else None.
Proof.
  unfold mem. induction fields as [| l fields IH]; [reflexivity |].
  cbn [map lookup existsb]. rewrite (String.eqb_sym c l).
  destruct (String.eqb_spec l c) as [-> | E]; [reflexivity | exact IH].
Qed.

Lemma entry_lookup (text_input : string -> string) (c : string) :
  mem c STANDARD_COLUMNS = true ->
  lookup (cols (entry_frame text_input)) c
  = Some [VStr (text_input (c ++ ":"))].
Proof.
  intros H. unfold entry_frame, frame_of_record, response. cbn [cols].
  rewrite map_map. cbn [fst snd].
  rewrite (lookup_fields (fun col => [VStr (text_input (col ++ ":"))])).
  now rewrite H.
Qed.

Lemma symptom_is_standard (c : string) :
  In c symptom_cols -> mem c STANDARD_COLUMNS = true.
Proof.
  intros H. simpl in H.
  repeat (destruct H as [<- | H]; [reflexivity |]). destruct H.
Qed.

Lemma traverse_map {A B : Type} (f : A -> result B) (g : A -> B)
    (l : list A) :
  (forall x, In x l -> f x = Ok (g x)) -> traverse f l = Ok (map g l).
Proof.
  induction l as [| a l IH]; intros H; [reflexivity |].
  cbn [traverse map]. rewrite (H a) by now left. cbn [bind].
  rewrite IH by (intros x Hx; apply H; now right). reflexivity.
Qed.

Lemma entry_fixed_charts (text_input : string -> string) :
  fixed_charts (entry_frame text_input)
  = Ok [("symptoms",
         Bar "Symptoms Frequency" "Count"
           (map (fun col =>
                   (col, if String.eqb (lower (text_input (col ++ ":"))) "yes"
                         then 1 else 0)) symptom_cols));
        ("devices",
         Pie "Device Usage" [(VStr (text_input "devices:"), 1)])].
Proof.
  unfold fixed_charts.
  rewrite (traverse_map _
             (fun col =>
                (col, if String.eqb (lower (text_input (col ++ ":"))) "yes"
                      then 1 else 0))).
  - cbn [bind]. unfold column. rewrite entry_lookup by reflexivity.
    cbn [bind]. unfold value_counts.
    cbn [filter isna negb distinct map fold_right].
    unfold occurrences. cbn [filter pyval_eqb].
    rewrite String.eqb_refl. reflexivity.
  - intros c Hc. unfold yes_count, column.
    rewrite entry_lookup by now apply symptom_is_standard.
    cbn [bind str_accessor existsb is_text orb filter text_is_yes].
    now destruct (String.eqb (lower (text_input (c ++ ":"))) "yes").
Qed.

Lemma entry_scores (text_input : string -> string) (nums : list pyval) :
  map (fun r => VInt (symptom_score r))
    (rows (set_column (entry_frame text_input) "break_frequency_numeric"
             nums))
  = [VInt (Z.of_nat
             (List.length
                (filter (fun col =>
                           String.eqb (lower (text_input (col ++ ":"))) "yes")
                   symptom_cols)))].
Proof.
  unfold rows. cbn [set_column nrows entry_frame frame_of_record seq map].
  f_equal.
Qed.

(** X21. The charts of a real-time entry. The frame of an entry has all
    the canonical columns, so the scatter part always runs: when the
    text of the break-frequency box, cleaned, is no integer literal (an
    empty box is none) the charts end with ValueError; otherwise they
    are the bars with 1 for each symptom box that reads "yes" when
    lowered and 0 for the others, the pie with the text of the devices
    box as its one slice, and the scatter plot of the one point (break
    frequency, number of symptoms answered "yes"). Columns added to the
    frame in between, as the risk columns are, change nothing. *)
Theorem entry_charts (text_input : string -> string) (df : DataFrame) :
  agree chart_columns df (entry_frame text_input) ->
  fst (generate_charts df)
  = match int_of_string (break_text (VStr (text_input "break_frequency:")))
    with
    | None => Raise (ValueError "invalid literal for int() with base 10")
    | Some n =>
        Ok [("symptoms",
             Bar "Symptoms Frequency" "Count"
               (map (fun col =>
                       (col,
                        if String.eqb (lower (text_input (col ++ ":"))) "yes"
                        then 1 else 0)) symptom_cols));
            ("devices",
             Pie "Device Usage" [(VStr (text_input "devices:"), 1)]);
            ("breaks",
             Scatter "Break Frequency vs Symptoms"
               "Break Frequency (per hour)" "Number of Symptoms"
               [VInt n]
               [VInt (Z.of_nat
                        (List.length
                           (filter
                              (fun col =>
                                 String.eqb
                                   (lower (text_input (col ++ ":"))) "yes")
                              symptom_cols)))])]
    end.
Proof.
  intros H. destruct (chart_parts_agree _ _ H) as [Hf [Hh Hb]].
  rewrite generate_charts_figures, Hf, Hh, Hb.
  rewrite entry_fixed_charts. cbn [bind].
  rewrite has_column_match, entry_lookup by reflexivity.
  rewrite breaks_chart_figure. unfold column.
  rewrite entry_lookup by reflexivity. cbn [bind traverse].
  unfold break_frequency_numeric at 1. cbn [isna].
  change (text_input ("break_frequency" ++ ":"))
    with (text_input "break_frequency:").
  destruct (int_of_string
              (break_text (VStr (text_input "break_frequency:"))))
    as [n |]; [| reflexivity].
  cbn [bind map]. rewrite entry_scores. reflexivity.
Qed.

Lemma entry_charts_witness :
  fst (generate_charts
         (set_column (entry_frame (fun label => "Yes")) "risk_level"
            [VStr "High"]))
  = Raise (ValueError "invalid literal for int() with base 10").
Proof.
  apply (entry_charts (fun label => "Yes")).
  split; [reflexivity |]. intros c Hc. unfold chart_columns in Hc.
  simpl in Hc.
  destruct Hc as [<- | [<- | [<- | [<- | [<- | [<- | [<- | []]]]]]]];
    reflexivity.
Defined.

(** ** The pie *)

Lemma insert_by_count_in (x y : pyval * Z) (l : list (pyval * Z)) :
  In y (insert_by_count x l) -> y = x \/ In y l.
Proof.
  induction l as [| z l IH]; simpl; [intuition |].
  destruct (snd z <=? snd x); simpl; [intuition |].
  intros [H | H]; [auto | destruct (IH H); auto].
Qed.

Lemma sorted_in (y : pyval * Z) (l : list (pyval * Z)) :
  In y (fold_right insert_by_count [] l) -> In y l.
Proof.
  induction l as [| x l IH]; simpl; [tauto |].
  intros H. apply insert_by_count_in in H. destruct H; auto.
Qed.

Lemma insert_by_count_descending (x : pyval * Z) (l : list (pyval * Z)) :
  descending l = true -> descending (insert_by_count x l) = true.
Proof.
  induction l as [| y l IH]; [reflexivity |]. intros H.
  cbn [insert_by_count]. destruct (Z.leb_spec (snd y) (snd x)) as [Hle | Hlt].
  - change (((snd y <=? snd x) && descending (y :: l)) = true).
    rewrite H. apply Z.leb_le in Hle. now rewrite Hle.
  - assert (Hl : descending l = true).
    { destruct l as [| z l]; [reflexivity |]. cbn [descending] in H.
      apply andb_prop in H. tauto. }
    specialize (IH Hl). destruct l as [| z l].
    + cbn [insert_by_count descending]. rewrite andb_true_r.
      apply Z.leb_le. lia.
    + cbn [descending] in H. apply andb_prop in H. destruct H as [Hzy _].
      cbn [insert_by_count] in *. destruct (snd z <=? snd x).
      * change (((snd x <=? snd y) && descending (x :: z :: l)) = true).
        rewrite IH, andb_true_r. apply Z.leb_le. lia.
      * change (((snd z <=? snd y)
                 && descending (z :: insert_by_count x l)) = true).
        now rewrite IH, Hzy.
Qed.

Lemma sorted_descending (l : list (pyval * Z)) :
  descending (fold_right insert_by_count [] l) = true.
Proof.
  induction l as [| x l IH]; [reflexivity |].
  cbn [fold_right]. now apply insert_by_count_descending.
Qed.

Lemma distinct_in (v : pyval) (vs : list pyval) :
  In v (distinct vs) -> In v vs.
Proof.
  induction vs as [| w vs IH]; simpl; [tauto |].
  intros [H | H]; [auto |]. apply filter_In in H. right. apply IH, H.
Qed.

Lemma SFeqb_refl (x : float) : is_nan x = false -> SFeqb x x = true.
Proof.
  unfold SFeqb. destruct x as [s | s | | s m e]; intros H;
    try discriminate; try (destruct s; reflexivity).
  cbv [SFcompare]. destruct s; rewrite Z.compare_refl, Pos.compare_cont_refl;
    reflexivity.
Qed.

Lemma pyval_eqb_refl (v : pyval) : isna v = false -> pyval_eqb v v = true.
Proof.
  destruct v as [s | z | f | b]; cbn [isna pyval_eqb]; intros H.
  - apply String.eqb_refl.
  - apply Z.eqb_refl.
  - now apply SFeqb_refl.
  - now destruct b.
Qed.

Lemma occurrences_in (v : pyval) (vs : list pyval) :
  In v vs -> isna v = false -> 1 <= occurrences v vs.
Proof.
  intros Hin Hv. unfold occurrences.
  assert (H : In v (filter (pyval_eqb v) vs))
    by (apply filter_In; split; [exact Hin | now apply pyval_eqb_refl]).
  destruct (filter (pyval_eqb v) vs); [destruct H | simpl; lia].
Qed.

(** X22. The pie of the devices: every slice is a value of the column
    that is not missing, with the number of the present values equal to
    it, which is at least one, and the slices come in the order of
    decreasing count. *)
Theorem pie_slices (df : DataFrame) (devices : list pyval)
    (charts : list (string * chart)) :
  fst (generate_charts df) = Ok charts ->
  column df "devices" = Ok devices ->
  exists slices,
    In ("devices", Pie "Device Usage" slices) charts
    /\ descending slices = true
    /\ forall v n, In (v, n) slices ->
         In v devices /\ isna v = false
         /\ n = occurrences v (filter (fun w => negb (isna w)) devices)
         /\ 1 <= n.
Proof.
  intros H Hd. exists (value_counts devices). split; [| split].
  - rewrite generate_charts_figures in H. unfold fixed_charts in H.
    rewrite Hd in H.
    destruct (traverse _ symptom_cols) as [bars | e]; [| discriminate].
    cbn [bind] in H. destruct (has_column df "break_frequency").
    + destruct (breaks_chart df) as [[fig df'] | e]; [| discriminate].
      cbn [bind] in H. inversion H. simpl. tauto.
    + inversion H. simpl. tauto.
  - apply sorted_descending.
  - intros v n Hin. unfold value_counts in Hin. apply sorted_in in Hin.
    apply in_map_iff in Hin. destruct Hin as [w [Hw Hin]].
    inversion Hw; subst w n. apply distinct_in in Hin.
    pose proof Hin as Hp. apply filter_In in Hp. destruct Hp as [Hv Hna].
    apply negb_true_iff in Hna.
    repeat split; try assumption. now apply occurrences_in.
Qed.

Lemma pie_slices_witness :
  exists slices,
    In ("devices", Pie "Device Usage" slices) survey_charts
    /\ descending slices = true
    /\ forall v n, In (v, n) slices ->
         In v [VStr "Laptop"; VStr "Phone"] /\ isna v = false
         /\ n = occurrences v
                  (filter (fun w => negb (isna w))
                     [VStr "Laptop"; VStr "Phone"])
         /\ 1 <= n.
Proof.
  apply (pie_slices survey); [vm_compute; reflexivity | reflexivity].
Defined.
